(** * weld_detect: the inspection page and its proxy route

    A shallow embedding of [src/app/page.tsx] (the [WeldingDefectDetector]
    component: upload, camera handling, analysis routine, verdict) and of
    [src/app/api/model/route.ts] (the [POST] handler), with the properties
    of the specification stated over them.

    Conventions of the model.
    - JavaScript strings are [string]s of 8-bit characters; [toLowerCase]
      acts on the letters [A]..[Z] and leaves every other character alone.
    - React state is a record; a handler reads the state of the render it
      was created in (its closure) and writes through the setters.  Refs
      ([videoRef]) are read and written in place.
    - An [await] asks the environment for the outcome of the awaited
      promise.  In a handler's own definition nothing else runs between
      the request and its outcome; [processImage_during] is the analysis
      with other code running meanwhile, and [Lifecycle.commit] the
      renders React commits then.
    - Every observable action of a handler is appended to a log, in program
      order. *)

From Stdlib Require Import ZArith String Ascii List Bool Lia QArith.
From stdpp Require Import base decidable option list gmap sets strings pretty.

Local Open Scope Z_scope.
Local Open Scope string_scope.
Local Open Scope list_scope.

(** ** JavaScript strings *)

Module JsString.

Definition is_upper (c : ascii) : bool :=
  (65 <=? nat_of_ascii c)%nat && (nat_of_ascii c <=? 90)%nat.

Definition lower_char (c : ascii) : ascii :=
  if is_upper c then ascii_of_nat (nat_of_ascii c + 32) else c.

(** [String.prototype.toLowerCase] *)
Fixpoint toLowerCase (s : string) : string :=
  match s with
  | EmptyString => EmptyString
  | String c s' => String (lower_char c) (toLowerCase s')
  end.

(** [t] is a prefix of [s] *)
Fixpoint startsWith (s t : string) {struct t} : bool :=
  match t, s with
  | EmptyString, _ => true
  | String _ _, EmptyString => false
  | String b t', String a s' => if Ascii.eqb a b then startsWith s' t' else false
  end.

(** [String.prototype.includes]: [t] occurs in [s] at some position *)
Fixpoint includes (s t : string) : bool :=
  startsWith s t ||
  match s with
  | EmptyString => false
  | String _ s' => includes s' t
  end.

(** JavaScript truthiness of a string: only the empty string is falsy. *)
Definition truthy (s : string) : bool :=
  match s with EmptyString => false | String _ _ => true end.

(** [a || b] on values that are [undefined] or a string *)
Definition or_else (a : option string) (b : option string) : option string :=
  match a with
  | Some s => if truthy s then Some s else b
  | None => b
  end.

(** Two characters that differ at most by the case of a letter. *)
Definition same_letter (a b : ascii) : Prop := lower_char a = lower_char b.

(** What "contains [t], compared case-insensitively" means: [s] splits
    into a part before, a part [m] of the length of [t] whose characters
    agree with those of [t] up to the case of letters, and a part after. *)
Inductive agree_ci : string -> string -> Prop :=
| agree_nil : agree_ci EmptyString EmptyString
| agree_cons a b m t :
    same_letter a b -> agree_ci m t -> agree_ci (String a m) (String b t).

Definition contains_ci (s t : string) : Prop :=
  exists pre m post, s = pre +:+ m +:+ post /\ agree_ci m t.

End JsString.

(** ** Data model *)

(** [interface Prediction]; the numbers of the box and the confidence are
    carried along and never computed with by the code modelled here. *)
Record Prediction := {
  bbox : Q * Q * Q * Q;
  class : string;
  confidence : Q
}.

(** [interface ImageDimensions] *)
Record ImageDimensions := {
  width : Z;
  height : Z;
  naturalWidth : Z;
  naturalHeight : Z
}.

(** ** The overall verdict *)

(** [pred.class.toLowerCase().includes("bad")] *)
Definition isBad (pred : Prediction) : bool :=
  JsString.includes (JsString.toLowerCase (class pred)) "bad".

(** [getOverallResult], as a function of the [predictions] state. *)
Definition getOverallResult (predictions : list Prediction) : option string :=
  if (length predictions =? 0)%nat then None
  else
    let hasBadWeld := existsb isBad predictions in
    Some (if hasBadWeld then "Defects Detected" else "No Defects").

(** ** Files, forms and thrown values *)

(** A [File] (or [Blob] with a name): name, MIME type and content. *)
Record File := {
  file_name : string;
  file_type : string;
  file_content : string
}.

(** A [FormData]: the ordered list of its entries, field name and value. *)
Definition FormData : Type := list (string * File).

(** A thrown [Error] object; [message] may be the empty string. *)
Record Exn := { message : string }.

(** The outcome of an awaited promise: rejected with an [Exn] or fulfilled. *)
Definition Outcome (A : Type) : Type := Exn + A.

(** A response body whose properties can be read, as the page reads it:
    its members [predictions] and [error], each of which may be absent (a
    number, a string or an array has neither).  A [predictions] member
    that is truthy is an array of predictions, as the type argument of
    the [axios.post] call says; a falsy one counts as absent.  The body
    [null] is not of this type: see [Unreadable]. *)
Record ResponseData := {
  data_predictions : option (list Prediction);
  data_error : option string
}.

(** ** The page: [WeldingDefectDetector] *)

Module Page.

Inductive FacingMode := user | environment.

(** The [facingMode] member of a video constraint: a bare value or
    [{ ideal: value }]. *)
Inductive FacingConstraint :=
| Plain (m : FacingMode)
| Ideal (m : FacingMode).

Record MediaStreamConstraints := { video : FacingConstraint }.

Definition facing_of (c : FacingConstraint) : FacingMode :=
  match c with Plain m | Ideal m => m end.

(** A [MediaStreamTrack], by identity. *)
Definition Track : Type := nat.

(** A [MediaStream]: its tracks, and (for the statements only) the
    constraints of the [getUserMedia] call that produced it. *)
Record MediaStream := {
  getTracks : list Track;
  requested : MediaStreamConstraints
}.

Set Primitive Projections.

Record VideoElement := {
  srcObject : option MediaStream;
  videoWidth : Z;
  videoHeight : Z
}.

Record CanvasElement := {
  canvas_width : Z;
  canvas_height : Z
}.

(** The [useState] variables of the component. *)
Record UIState := {
  imageURL : option string;
  predictions : list Prediction;
  imageSize : option ImageDimensions;
  isLoading : bool;
  error : option string;
  isCameraActive : bool;
  scanAnimation : bool;
  cameraFacingMode : FacingMode
}.

Unset Primitive Projections.

(** What an axios call settles to. *)
Record AxiosResponse := {
  status : Z;
  data : ResponseData
}.

Record AxiosError := {
  response : option AxiosResponse;
  err_message : string
}.

(** What [await axios.post(...)] settles to.  [Resolved]: fulfilled with
    a body whose properties can be read.  [Rejected]: rejected with [err].
    [Unreadable]: fulfilled with a body that is [null] (the JSON value
    null) or undefined; reading a property of it throws [thrown], the
    [TypeError] of the engine. *)
Inductive AxiosOutcome :=
| Resolved (res : AxiosResponse)
| Rejected (err : AxiosError)
| Unreadable (res_status : Z) (thrown : Exn).

(** Observable actions, in the order the handlers perform them. *)
Inductive Event :=
| EvCreateObjectURL (f : File)
| EvRevokeObjectURL (u : string)
| EvSetImageURL (v : option string)
| EvSetPredictions (v : list Prediction)
| EvSetImageSize (v : option ImageDimensions)
| EvSetError (v : option string)
| EvSetIsLoading (v : bool)
| EvSetIsCameraActive (v : bool)
| EvSetScanAnimation (v : bool)
| EvSetCameraFacingMode (v : FacingMode)
| EvAxiosPost (url : string) (body : FormData)
| EvGetUserMedia (c : MediaStreamConstraints)
| EvTrackStop (t : Track)
| EvSetSrcObject (v : option MediaStream)
| EvConsoleError (label : string)
| EvSetTimeout (callback : Event) (ms : Z).

(** Everything a handler can read or change: the component state, the
    refs, the media tracks that are live, the number of [getUserMedia]
    calls made so far, and the log. *)
#[projections(primitive)]
Record World := {
  ui : UIState;
  videoRef : option VideoElement;
  canvasRef : option CanvasElement;
  live : gset Track;
  gum_calls : nat;
  log : list Event
}.

(** The browser and the network, as far as the handlers consult them. *)
Record Env := {
  userAgent : string;
  createObjectURL : File -> string;
  axios_post : string -> FormData -> AxiosOutcome;
  getUserMedia : nat -> MediaStreamConstraints -> Outcome (list Track);
  getContext2d : bool;
  toBlob : VideoElement -> CanvasElement -> option string
}.

(** *** The handler monad *)

Definition M (A : Type) : Type := World -> A * World.

#[global] Instance M_ret : MRet M := fun A a w => (a, w).
#[global] Instance M_bind : MBind M :=
  fun A B f m w => let '(a, w') := m w in f a w'.

Definition exec {A} (m : M A) (w : World) : World := snd (m w).
Definition skip : M unit := mret tt.

Definition with_ui (f : UIState -> UIState) (w : World) : World :=
  {| ui := f (ui w); videoRef := videoRef w; canvasRef := canvasRef w;
     live := live w; gum_calls := gum_calls w; log := log w |}.

Definition emit (e : Event) : M unit := fun w =>
  (tt, {| ui := ui w; videoRef := videoRef w; canvasRef := canvasRef w;
          live := live w; gum_calls := gum_calls w; log := log w ++ [e] |}).

(** The effect of a setter on the component state. *)
Definition apply_event (e : Event) (s : UIState) : UIState :=
  match e with
  | EvSetImageURL v =>
      {| imageURL := v; predictions := predictions s; imageSize := imageSize s;
         isLoading := isLoading s; error := error s;
         isCameraActive := isCameraActive s; scanAnimation := scanAnimation s;
         cameraFacingMode := cameraFacingMode s |}
  | EvSetPredictions v =>
      {| imageURL := imageURL s; predictions := v; imageSize := imageSize s;
         isLoading := isLoading s; error := error s;
         isCameraActive := isCameraActive s; scanAnimation := scanAnimation s;
         cameraFacingMode := cameraFacingMode s |}
  | EvSetImageSize v =>
      {| imageURL := imageURL s; predictions := predictions s; imageSize := v;
         isLoading := isLoading s; error := error s;
         isCameraActive := isCameraActive s; scanAnimation := scanAnimation s;
         cameraFacingMode := cameraFacingMode s |}
  | EvSetIsLoading v =>
      {| imageURL := imageURL s; predictions := predictions s; imageSize := imageSize s;
         isLoading := v; error := error s;
         isCameraActive := isCameraActive s; scanAnimation := scanAnimation s;
         cameraFacingMode := cameraFacingMode s |}
  | EvSetError v =>
      {| imageURL := imageURL s; predictions := predictions s; imageSize := imageSize s;
         isLoading := isLoading s; error := v;
         isCameraActive := isCameraActive s; scanAnimation := scanAnimation s;
         cameraFacingMode := cameraFacingMode s |}
  | EvSetIsCameraActive v =>
      {| imageURL := imageURL s; predictions := predictions s; imageSize := imageSize s;
         isLoading := isLoading s; error := error s;
         isCameraActive := v; scanAnimation := scanAnimation s;
         cameraFacingMode := cameraFacingMode s |}
  | EvSetScanAnimation v =>
      {| imageURL := imageURL s; predictions := predictions s; imageSize := imageSize s;
         isLoading := isLoading s; error := error s;
         isCameraActive := isCameraActive s; scanAnimation := v;
         cameraFacingMode := cameraFacingMode s |}
  | EvSetCameraFacingMode v =>
      {| imageURL := imageURL s; predictions := predictions s; imageSize := imageSize s;
         isLoading := isLoading s; error := error s;
         isCameraActive := isCameraActive s; scanAnimation := scanAnimation s;
         cameraFacingMode := v |}
  | _ => s
  end.

(** The component state after a sequence of actions. *)
Definition replay (es : list Event) (s : UIState) : UIState :=
  fold_left (fun s e => apply_event e s) es s.

(** A state setter: record the call and update the state. *)
Definition set (e : Event) : M unit := fun w =>
  (tt, with_ui (apply_event e) (exec (emit e) w)).

Definition setImageURL v := set (EvSetImageURL v).
Definition setPredictions v := set (EvSetPredictions v).
Definition setImageSize v := set (EvSetImageSize v).
Definition setError v := set (EvSetError v).
Definition setIsLoading v := set (EvSetIsLoading v).
Definition setIsCameraActive v := set (EvSetIsCameraActive v).
Definition setScanAnimation v := set (EvSetScanAnimation v).
Definition setCameraFacingMode v := set (EvSetCameraFacingMode v).

Definition console_error (label : string) : M unit := emit (EvConsoleError label).

(** [setTimeout(callback, ms)]: the callback is recorded, not run. *)
Definition setTimeout (callback : Event) (ms : Z) : M unit :=
  emit (EvSetTimeout callback ms).

(** *** Browser primitives *)

Definition read {A} (f : World -> A) : M A := fun w => (f w, w).

(** [try { body } catch (e) { handler }] *)
Definition try_catch {A} (body : M (Outcome A)) (handler : Exn -> M A) : M A :=
  r ← body;
  match r with
  | inl e => handler e
  | inr a => mret a
  end.

(** Sequencing inside a [try] block: a throw skips the rest. *)
Definition and_then {A B} (m : M (Outcome A)) (k : A -> M (Outcome B)) : M (Outcome B) :=
  r ← m;
  match r with
  | inl e => mret (inl e)
  | inr a => k a
  end.

Definition ok : M (Outcome unit) := mret (inr tt).

(** [track.stop()] *)
Definition stop_track (t : Track) : M unit := fun w =>
  (tt, {| ui := ui w; videoRef := videoRef w; canvasRef := canvasRef w;
          live := live w ∖ {[ t ]}; gum_calls := gum_calls w;
          log := log w ++ [EvTrackStop t] |}).

(** [tracks.forEach(f)] *)
Fixpoint forEach {A} (l : list A) (f : A -> M unit) : M unit :=
  match l with
  | [] => skip
  | x :: l' => _ ← f x; forEach l' f
  end.

(** [videoRef.current.srcObject = v]; a [TypeError] when the ref is null. *)
Definition assign_srcObject (v : option MediaStream) : M (Outcome unit) := fun w =>
  match videoRef w with
  | Some el =>
      (inr tt,
       {| ui := ui w;
          videoRef := Some {| srcObject := v; videoWidth := videoWidth el;
                              videoHeight := videoHeight el |};
          canvasRef := canvasRef w; live := live w; gum_calls := gum_calls w;
          log := log w ++ [EvSetSrcObject v] |})
  | None => (inl {| message := "Cannot set properties of null" |}, w)
  end.

(** The stream attached to the video element, if there is one. *)
Definition attached (w : World) : option MediaStream :=
  match videoRef w with
  | Some el => srcObject el
  | None => None
  end.

Section Handlers.

Variable env : Env.

(** The state variables as the handlers' closure sees them: those of
    the render in which the handlers were created. *)
Variable rendered : UIState.

(** [await navigator.mediaDevices.getUserMedia(c)]: the tracks of a
    stream that is granted are live from then on. *)
Definition request_media (c : MediaStreamConstraints) : M (Outcome MediaStream) := fun w =>
  match getUserMedia env (gum_calls w) c with
  | inl e =>
      (inl e,
       {| ui := ui w; videoRef := videoRef w; canvasRef := canvasRef w;
          live := live w; gum_calls := S (gum_calls w);
          log := log w ++ [EvGetUserMedia c] |})
  | inr tracks =>
      (inr {| getTracks := tracks; requested := c |},
       {| ui := ui w; videoRef := videoRef w; canvasRef := canvasRef w;
          live := live w ∪ list_to_set tracks; gum_calls := S (gum_calls w);
          log := log w ++ [EvGetUserMedia c] |})
  end.

(** [await axios.post(url, body, ...)] *)
Definition post (url : string) (body : FormData) : M AxiosOutcome :=
  _ ← emit (EvAxiosPost url body);
  mret (axios_post env url body).

(** [err.response?.data?.error || err.message || "Failed to analyze image"] *)
Definition error_text (err : AxiosError) : string :=
  let from_response :=
    match response err with
    | Some r => data_error (data r)
    | None => None
    end in
  match JsString.or_else (JsString.or_else from_response (Some (err_message err)))
                         (Some "Failed to analyze image") with
  | Some s => s
  | None => EmptyString
  end.

(** The value the [catch] of [processImage] receives when
    [res.data.predictions] throws: an error without [response]. *)
Definition caught (thrown : Exn) : AxiosError :=
  {| response := None; err_message := message thrown |}.

(** [processImage], with nothing else running while the request is
    awaited ([processImage_during] below is the run in which other code
    runs meanwhile).  The [try] block covers the call and the reading of
    [res.data.predictions]; both failures end in the [catch]. *)
Definition processImage (file : File) : M unit :=
  let url := createObjectURL env file in
  _ ← emit (EvCreateObjectURL file);
  _ ← setImageURL (Some url);
  _ ← setPredictions [];
  _ ← setImageSize None;
  _ ← setError None;
  _ ← setIsLoading true;
  _ ← setScanAnimation true;
  let formData := [("file", file)] in
  settled ← post "/api/model" formData;
  _ ← match settled with
      | Resolved res =>
          setPredictions (match data_predictions (data res) with
                          | Some l => l
                          | None => []
                          end)
      | Rejected err =>
          _ ← console_error "Upload failed:";
          setError (Some (error_text err))
      | Unreadable _ thrown =>
          _ ← console_error "Upload failed:";
          setError (Some (error_text (caught thrown)))
      end;
  _ ← setIsLoading false;
  setTimeout (EvSetScanAnimation false) 1000.

(** The steps of [processImage] up to the moment the request is issued. *)
Definition processImage_start (file : File) : M unit :=
  let url := createObjectURL env file in
  _ ← emit (EvCreateObjectURL file);
  _ ← setImageURL (Some url);
  _ ← setPredictions [];
  _ ← setImageSize None;
  _ ← setError None;
  _ ← setIsLoading true;
  _ ← setScanAnimation true;
  emit (EvAxiosPost "/api/model" [("file", file)]).

(** The steps of [processImage] once the request has settled. *)
Definition processImage_settle (settled : AxiosOutcome) : M unit :=
  _ ← match settled with
      | Resolved res =>
          setPredictions (match data_predictions (data res) with
                          | Some l => l
                          | None => []
                          end)
      | Rejected err =>
          _ ← console_error "Upload failed:";
          setError (Some (error_text err))
      | Unreadable _ thrown =>
          _ ← console_error "Upload failed:";
          setError (Some (error_text (caught thrown)))
      end;
  _ ← setIsLoading false;
  setTimeout (EvSetScanAnimation false) 1000.

(** A run of [processImage] in which [meanwhile] runs while the request
    is awaited: a render that React commits, with the cleanups of its
    effects, or another handler. *)
Definition processImage_during (meanwhile : M unit) (file : File) : M unit :=
  _ ← processImage_start file;
  _ ← meanwhile;
  processImage_settle (axios_post env "/api/model" [("file", file)]).

(** [handleFileUpload]; [file] is [e.target.files?.[0]]. *)
Definition handleFileUpload (file : option File) : M unit :=
  match file with
  | None => skip
  | Some file =>
      _ ← match imageURL rendered with
          | Some u => if JsString.truthy u then emit (EvRevokeObjectURL u) else skip
          | None => skip
          end;
      processImage file
  end.

(** [handleFileUpload] in a run in which [meanwhile] runs while the
    request of the analysis is awaited. *)
Definition handleFileUpload_during (meanwhile : M unit) (file : option File) : M unit :=
  match file with
  | None => skip
  | Some file =>
      _ ← match imageURL rendered with
          | Some u => if JsString.truthy u then emit (EvRevokeObjectURL u) else skip
          | None => skip
          end;
      processImage_during meanwhile file
  end.

(** [/iPhone|iPad|iPod|Android/i.test(navigator.userAgent)] *)
Definition isMobile : bool :=
  existsb (fun p => JsString.includes (JsString.toLowerCase (userAgent env))
                                      (JsString.toLowerCase p))
          ["iPhone"; "iPad"; "iPod"; "Android"].

Definition startCamera : M unit :=
  _ ← setIsCameraActive true;
  current ← read videoRef;
  match current with
  | Some _ =>
      try_catch
        (let constraints :=
           {| video := if isMobile then Ideal environment else Plain user |} in
         and_then (request_media constraints) (fun stream =>
         assign_srcObject (Some stream)))
        (fun err =>
           _ ← console_error "Error accessing camera:";
           try_catch
             (and_then (request_media {| video := Plain user |}) (fun fallbackStream =>
              current ← read videoRef;
              match current with
              | Some _ => assign_srcObject (Some fallbackStream)
              | None => ok
              end))
             (fun fallbackErr =>
                _ ← console_error "Fallback camera also failed:";
                _ ← setError (Some "Could not access camera. Please check permissions and ensure your device has a camera.");
                setIsCameraActive false))
  | None => skip
  end.

(** The block shared by [switchCamera] and [stopCamera]:
    [if (videoRef.current && videoRef.current.srcObject) { ... }] *)
Definition stop_current_stream : M unit :=
  current ← read videoRef;
  match current with
  | Some el =>
      match srcObject el with
      | Some stream =>
          let tracks := getTracks stream in
          _ ← forEach tracks (fun track => stop_track track);
          _ ← assign_srcObject None;
          skip
      | None => skip
      end
  | None => skip
  end.

Definition mode_name (m : FacingMode) : string :=
  match m with user => "user" | environment => "environment" end.

Definition switchCamera : M unit :=
  _ ← stop_current_stream;
  let newMode :=
    match cameraFacingMode rendered with user => environment | environment => user end in
  _ ← setCameraFacingMode newMode;
  current ← read videoRef;
  match current with
  | Some _ =>
      try_catch
        (and_then (request_media {| video := Plain newMode |}) (fun stream =>
         assign_srcObject (Some stream)))
        (fun err =>
           _ ← console_error ("Error accessing " +:+ mode_name newMode +:+ " camera:");
           _ ← setError (Some ("Could not access "
                               +:+ match newMode with user => "front" | environment => "back" end
                               +:+ " camera."));
           try_catch
             (and_then (request_media {| video := Plain (cameraFacingMode rendered) |})
                (fun fallbackStream => assign_srcObject (Some fallbackStream)))
             (fun fallbackErr =>
                _ ← console_error "Failed to revert to previous camera:";
                setIsCameraActive false))
  | None => skip
  end.

Definition stopCamera : M unit :=
  _ ← stop_current_stream;
  setIsCameraActive false.

(** [canvas.width = video.videoWidth; canvas.height = video.videoHeight] *)
Definition size_canvas (video : VideoElement) : M CanvasElement := fun w =>
  let canvas := {| canvas_width := videoWidth video; canvas_height := videoHeight video |} in
  (canvas,
   {| ui := ui w; videoRef := videoRef w; canvasRef := Some canvas;
      live := live w; gum_calls := gum_calls w; log := log w |}).

(** [capturePhoto], with the [toBlob] callback run in place. *)
Definition capturePhoto : M unit :=
  video ← read videoRef;
  canvas ← read canvasRef;
  match video, canvas with
  | Some video, Some _ =>
      canvas ← size_canvas video;
      if getContext2d env then
        match toBlob env video canvas with
        | Some blob =>
            _ ← stopCamera;
            processImage {| file_name := "camera-capture.jpg";
                            file_type := "image/jpeg";
                            file_content := blob |}
        | None => skip
        end
      else skip
  | _, _ => skip
  end.

End Handlers.

(** *** Reading the log *)

Definition is_request (e : Event) : bool :=
  match e with EvAxiosPost _ _ => true | _ => false end.

Definition is_getUserMedia (e : Event) : bool :=
  match e with EvGetUserMedia _ => true | _ => false end.

(** The component state at each moment a request is issued, when the
    actions [es] are performed from the state [s]. *)
Fixpoint states_at_requests (es : list Event) (s : UIState) : list UIState :=
  match es with
  | [] => []
  | e :: es' =>
      (if is_request e then [s] else []) ++ states_at_requests es' (apply_event e s)
  end.

(** The actions of one run of [processImage], in program order (see
    [processImage_run]). *)
Definition processImage_trace (env : Env) (file : File) : list Event :=
  [EvCreateObjectURL file;
   EvSetImageURL (Some (createObjectURL env file));
   EvSetPredictions [];
   EvSetImageSize None;
   EvSetError None;
   EvSetIsLoading true;
   EvSetScanAnimation true;
   EvAxiosPost "/api/model" [("file", file)]]
  ++ match axios_post env "/api/model" [("file", file)] with
     | Resolved res =>
         [EvSetPredictions (match data_predictions (data res) with
                            | Some l => l
                            | None => []
                            end)]
     | Rejected err =>
         [EvConsoleError "Upload failed:"; EvSetError (Some (error_text err))]
     | Unreadable _ thrown =>
         [EvConsoleError "Upload failed:";
          EvSetError (Some (error_text (caught thrown)))]
     end
  ++ [EvSetIsLoading false; EvSetTimeout (EvSetScanAnimation false) 1000].

(** The actions of [processImage_start] and of [processImage_settle]. *)
Definition start_trace (env : Env) (file : File) : list Event :=
  [EvCreateObjectURL file;
   EvSetImageURL (Some (createObjectURL env file));
   EvSetPredictions [];
   EvSetImageSize None;
   EvSetError None;
   EvSetIsLoading true;
   EvSetScanAnimation true;
   EvAxiosPost "/api/model" [("file", file)]].

Definition settle_trace (settled : AxiosOutcome) : list Event :=
  match settled with
  | Resolved res =>
      [EvSetPredictions (match data_predictions (data res) with
                         | Some l => l
                         | None => []
                         end)]
  | Rejected err =>
      [EvConsoleError "Upload failed:"; EvSetError (Some (error_text err))]
  | Unreadable _ thrown =>
      [EvConsoleError "Upload failed:";
       EvSetError (Some (error_text (caught thrown)))]
  end
  ++ [EvSetIsLoading false; EvSetTimeout (EvSetScanAnimation false) 1000].

(** The other facing mode. *)
Definition toggle (m : FacingMode) : FacingMode :=
  match m with user => environment | environment => user end.

(** The facing mode that was asked for when the stream now attached was
    acquired. *)
Definition attached_facing (w : World) : option FacingMode :=
  match attached w with
  | Some stream => Some (facing_of (video (requested stream)))
  | None => None
  end.

(** Predictions and dimensions are cleared. *)
Definition cleared (s : UIState) : Prop :=
  predictions s = [] /\ imageSize s = None.

(** *** What the page renders *)

(** [imageURL] used as a condition. *)
Definition has_image (s : UIState) : bool :=
  match imageURL s with
  | Some u => JsString.truthy u
  | None => false
  end.

(** [const overallResult = getOverallResult()] *)
Definition overallResult (s : UIState) : option string :=
  getOverallResult (predictions s).

(** The camera card: [{isCameraActive && ( ... )}] *)
Definition camera_view_shown (s : UIState) : bool := isCameraActive s.

(** The title of the camera card. *)
Definition camera_title (s : UIState) : string :=
  match cameraFacingMode s with
  | user => "Front Camera"
  | environment => "Back Camera"
  end.

(** The results card: [{!isLoading && imageURL && !isCameraActive && ( ... )}] *)
Definition results_shown (s : UIState) : bool :=
  negb (isLoading s) && has_image s && negb (isCameraActive s).

(** The text of the verdict badge, when one is rendered:
    [{overallResult && (<Badge ...>{overallResult}</Badge>)}] inside the
    results card. *)
Definition verdict_badge (s : UIState) : option string :=
  if results_shown s then
    match overallResult s with
    | Some v => if JsString.truthy v then Some v else None
    | None => None
    end
  else None.

End Page.

(** ** The proxy route: [POST] in [app/api/model/route.ts] *)

Module Route.

(** The request the handler receives: the bytes of its body, and what
    [await request.formData()] settles to on it. *)
Record IncomingRequest := {
  req_body : string;
  req_formData : Outcome FormData
}.

(** The second argument of [fetch]. *)
Record FetchInit := {
  method : string;
  body : FormData
}.

Record FetchCall := {
  fetch_url : string;
  fetch_init : FetchInit
}.

Inductive RouteEvent :=
| EvFetch (call : FetchCall)
| EvConsoleError (label : string) (error : Exn).

(** Handler code: the actions performed so far, and either a thrown
    value or a result. *)
Definition P (A : Type) : Type := list RouteEvent * Outcome A.

#[global] Instance P_ret : MRet P := fun A a => ([], inr a).
#[global] Instance P_bind : MBind P :=
  fun A B f m =>
    match m with
    | (l, inl e) => (l, inl e)
    | (l, inr a) => let '(l', r) := f a in (l ++ l', r)
    end.

(** [try { body } catch (error) { handler }] *)
Definition try_catch {A} (body : P A) (handler : Exn -> P A) : P A :=
  match body with
  | (l, inl e) => let '(l', r) := handler e in (l ++ l', r)
  | (l, inr a) => (l, inr a)
  end.

(** [await p] for a promise that has settled to [o] *)
Definition await {A} (o : Outcome A) : P A := ([], o).

(** [throw e] *)
Definition throw {A} (e : Exn) : P A := ([], inl e).

Definition double_quote : string := String (ascii_of_nat 34) EmptyString.

Definition console_error (label : string) (error : Exn) : P unit :=
  ([EvConsoleError label error], inr tt).

Definition upstream_url : string :=
  "https://welding-defects-production.up.railway.app/predict".

Section Handler.

(** Parsed JSON values; the handler passes them on without looking
    inside. *)
Context {Json : Type}.

(** The [Response] of the upstream service: its status, and what
    [await response.json()] settles to. *)
Record UpstreamResponse := {
  up_status : Z;
  up_json : Outcome Json
}.

(** [response.ok]: the status is in the range 200-299. *)
Definition response_ok (r : UpstreamResponse) : bool :=
  (200 <=? up_status r)%Z && (up_status r <=? 299)%Z.

(** The body given to [NextResponse.json]: the object literal
    [{ error: ... }] or the upstream data. *)
Inductive Body :=
| ErrorBody (error : string)
| JsonBody (data : Json).

Record NextResponse := {
  res_status : Z;
  res_body : Body
}.

(** The statuses a response with a body must not have (the null body
    statuses of the Fetch standard). *)
Definition null_body_status (s : Z) : bool :=
  (s =? 101)%Z || (s =? 103)%Z || (s =? 204)%Z || (s =? 205)%Z || (s =? 304)%Z.

(** What the constructor of a response with a body throws for the status
    [s], if it refuses it: a [RangeError] outside 200-599, a [TypeError]
    for a null body status.  The messages are those of Node's [fetch]. *)
Definition status_refused (s : Z) : option Exn :=
  if (s <? 200)%Z || (599 <? s)%Z then
    Some {| message := "init[" +:+ double_quote +:+ "status" +:+ double_quote
                       +:+ "] must be in the range of 200 to 599, inclusive." |}
  else if null_body_status s then
    Some {| message := "Response constructor: Invalid response status code "
                       +:+ pretty s |}
  else None.

(** [NextResponse.json(body, { status })]; the status is 200 when no
    init is given.  It throws what the constructor throws. *)
Definition NextResponse_json (b : Body) (init : option Z) : P NextResponse :=
  let s := match init with Some s => s | None => 200%Z end in
  match status_refused s with
  | Some e => throw e
  | None => mret {| res_status := s; res_body := b |}
  end.

(** The network: what a [fetch] call settles to. *)
Variable fetch_outcome : FetchCall -> Outcome UpstreamResponse.

Definition fetch (url : string) (init : FetchInit) : P UpstreamResponse :=
  let call := {| fetch_url := url; fetch_init := init |} in
  ([EvFetch call], fetch_outcome call).

(** [error.message || 'Internal server error'] *)
Definition message_or_default (error : Exn) : string :=
  if JsString.truthy (message error) then message error
  else "Internal server error".

Definition POST (request : IncomingRequest) : P NextResponse :=
  try_catch
    (formData ← await (req_formData request);
     response ← fetch upstream_url {| method := "POST"; body := formData |};
     if negb (response_ok response) then
       NextResponse_json
         (ErrorBody ("API responded with status: " +:+ pretty (up_status response)))
         (Some (up_status response))
     else
       data ← await (up_json response);
       NextResponse_json (JsonBody data) None)
    (fun error =>
       _ ← console_error "Error in API route:" error;
       NextResponse_json (ErrorBody (message_or_default error)) (Some 500%Z)).

(** The call by which the handler forwards the form [fd]. *)
Definition forward_call (fd : FormData) : FetchCall :=
  {| fetch_url := upstream_url;
     fetch_init := {| method := "POST"; body := fd |} |}.

(** [e] is thrown inside the [try] while [request] is being forwarded:
    by [request.formData()], by [fetch], by [response.json()] on an ok
    response, or by [NextResponse.json] refusing the status of a response
    that is not ok. *)
Definition thrown_while_forwarding (request : IncomingRequest) (e : Exn) : Prop :=
  req_formData request = inl e
  \/ (exists fd, req_formData request = inr fd
                 /\ fetch_outcome (forward_call fd) = inl e)
  \/ (exists fd r, req_formData request = inr fd
                   /\ fetch_outcome (forward_call fd) = inr r
                   /\ response_ok r = true
                   /\ up_json r = inl e)
  \/ (exists fd r, req_formData request = inr fd
                   /\ fetch_outcome (forward_call fd) = inr r
                   /\ response_ok r = false
                   /\ status_refused (up_status r) = Some e).

End Handler.

Arguments UpstreamResponse : clear implicits.
Arguments Body : clear implicits.
Arguments NextResponse : clear implicits.

(** *** The wire format of form data

    [multipart/form-data] for a form whose entries are files, as the
    encoding algorithm of the HTML standard writes it: every entry
    between delimiter lines made of the boundary, then the closing
    delimiter.  In a field name line breaks are normalised to CR LF; in
    names and file names CR, LF and the double quote are written [%0D],
    [%0A] and [%22]; a file without a type is sent as
    [application/octet-stream].  The handler never reads these bytes. *)

Definition CRLF : string :=
  String (ascii_of_nat 13) (String (ascii_of_nat 10) EmptyString).

Definition escape_char (c : ascii) : string :=
  match nat_of_ascii c with
  | 10%nat => "%0A"
  | 13%nat => "%0D"
  | 34%nat => "%22"
  | _ => String c EmptyString
  end.

Fixpoint escape (s : string) : string :=
  match s with
  | EmptyString => EmptyString
  | String c s' => escape_char c +:+ escape s'
  end.

(** Every CR LF pair, lone CR and lone LF becomes CR LF. *)
Fixpoint normalize_linefeeds (s : string) : string :=
  match s with
  | EmptyString => EmptyString
  | String c s' =>
      match nat_of_ascii c with
      | 13%nat =>
          CRLF +:+ match s' with
                   | String d s'' =>
                       if (nat_of_ascii d =? 10)%nat then normalize_linefeeds s''
                       else normalize_linefeeds s'
                   | EmptyString => EmptyString
                   end
      | 10%nat => CRLF +:+ normalize_linefeeds s'
      | _ => String c (normalize_linefeeds s')
      end
  end.

Definition quoted (s : string) : string := double_quote +:+ s +:+ double_quote.

Definition encode_part (boundary : string) (entry : string * File) : string :=
  "--" +:+ boundary +:+ CRLF
  +:+ "Content-Disposition: form-data; name="
  +:+ quoted (escape (normalize_linefeeds (fst entry)))
  +:+ "; filename=" +:+ quoted (escape (file_name (snd entry))) +:+ CRLF
  +:+ "Content-Type: "
  +:+ (if JsString.truthy (file_type (snd entry)) then file_type (snd entry)
       else "application/octet-stream")
  +:+ CRLF +:+ CRLF
  +:+ file_content (snd entry) +:+ CRLF.

Definition encode_multipart (boundary : string) (fd : FormData) : string :=
  fold_right (fun entry rest => encode_part boundary entry +:+ rest)
             ("--" +:+ boundary +:+ "--" +:+ CRLF) fd.

(** An incoming multipart request: its body carries the form [fd] under
    [boundary], and the platform parses it back to [fd]. *)
Definition multipart_request (boundary : string) (fd : FormData) : IncomingRequest :=
  {| req_body := encode_multipart boundary fd; req_formData := inr fd |}.

(** The [fetch] calls a run of the handler made. *)
Definition fetch_calls {A} (run : P A) : list FetchCall :=
  omap (fun e => match e with EvFetch c => Some c | _ => None end) (fst run).

End Route.

(** ** The page talking to the route *)

Module EndToEnd.
Import Page Route.

(** The JSON values the inference service can answer with, as far as the
    page tells them apart: [None] is the value [null], [Some d] a value
    whose properties can be read. *)
Definition Json : Type := option ResponseData.

Definition no_members : ResponseData :=
  {| data_predictions := None; data_error := None |}.

(** The body of a response of the route, as JSON. *)
Definition as_json (b : Body Json) : Json :=
  match b with
  | ErrorBody m => Some {| data_predictions := None; data_error := Some m |}
  | JsonBody j => j
  end.

(** What reading a property of [null] throws in the page, in the words
    of V8; other engines word it differently. *)
Definition null_read_error : Exn :=
  {| message := "Cannot read properties of null (reading 'predictions')" |}.

(** axios settles a response by its status (the default
    [validateStatus]): fulfilled for 200-299, rejected otherwise with
    the response attached.  Under [err.response?.data?.error] a [null]
    body reads like one without members. *)
Definition settle (r : NextResponse Json) : AxiosOutcome :=
  let fulfilled := (200 <=? res_status r)%Z && (res_status r <? 300)%Z in
  let rejected d :=
    Rejected {| response := Some {| status := res_status r; data := d |};
                err_message := "Request failed with status code "
                               +:+ pretty (res_status r) |} in
  match as_json (res_body r) with
  | Some d =>
      if fulfilled then Resolved {| status := res_status r; data := d |}
      else rejected d
  | None =>
      if fulfilled then Unreadable (res_status r) null_read_error
      else rejected no_members
  end.

(** [axios.post] against a deployment in which the route above serves
    [/api/model] and [upstream] is the inference service. *)
Definition axios_via_route
    (boundary : string)
    (upstream : FetchCall -> Outcome (UpstreamResponse Json))
    (url : string) (fd : FormData) : AxiosOutcome :=
  if String.eqb url "/api/model" then
    match snd (POST upstream (multipart_request boundary fd)) with
    | inr r => settle r
    | inl e => Rejected {| response := None; err_message := message e |}
    end
  else
    Rejected {| response := Some {| status := 404; data := no_members |};
                err_message := "Request failed with status code 404" |}.

End EndToEnd.

(** ** Sample inputs *)

Module Samples.
Import Page Route EndToEnd.

Definition weld_jpg : File :=
  {| file_name := "weld.jpg"; file_type := "image/jpeg"; file_content := "JFIF" |}.

Definition bad_weld : Prediction :=
  {| bbox := (0, 0, 10, 10)%Q; class := "bad_weld"; confidence := (92 # 100)%Q |}.

Definition good_weld : Prediction :=
  {| bbox := (0, 0, 10, 10)%Q; class := "Good_Weld"; confidence := (88 # 100)%Q |}.

(** The state of the first render: the initial values of [useState]. *)
Definition initial_ui : UIState :=
  {| imageURL := None; predictions := []; imageSize := None; isLoading := false;
     error := None; isCameraActive := false; scanAnimation := false;
     cameraFacingMode := user |}.

Definition initial_world : World :=
  {| ui := initial_ui; videoRef := None; canvasRef := None;
     live := ∅; gum_calls := 0; log := [] |}.

(** The camera card is on screen and a front-camera stream with two
    tracks plays in it. *)
Definition front_stream : MediaStream :=
  {| getTracks := [1; 2]%nat; requested := {| video := Plain user |} |}.

Definition camera_ui : UIState :=
  {| imageURL := None; predictions := []; imageSize := None; isLoading := false;
     error := None; isCameraActive := true; scanAnimation := false;
     cameraFacingMode := user |}.

Definition camera_element : VideoElement :=
  {| srcObject := Some front_stream; videoWidth := 640; videoHeight := 480 |}.

Definition not_found : Exn := {| message := "Requested device not found" |}.

Definition camera_world : World :=
  {| ui := camera_ui;
     videoRef := Some camera_element;
     canvasRef := Some {| canvas_width := 300; canvas_height := 150 |};
     live := {[ 1%nat; 2%nat ]}; gum_calls := 1; log := [] |}.

(** A browser given by what the network and the camera answer. *)
Definition browser (answer : string -> FormData -> AxiosOutcome)
    (camera : nat -> MediaStreamConstraints -> Outcome (list Track)) : Env :=
  {| userAgent := "Mozilla/5.0 (X11; Linux x86_64)";
     createObjectURL := fun _ => "blob:http://localhost:3000/1";
     axios_post := answer;
     getUserMedia := camera;
     getContext2d := true;
     toBlob := fun _ _ => Some "JFIF" |}.

Definition no_camera : nat -> MediaStreamConstraints -> Outcome (list Track) :=
  fun _ _ => inl not_found.

(** Only the front camera exists. *)
Definition front_only : nat -> MediaStreamConstraints -> Outcome (list Track) :=
  fun n c =>
    match facing_of (video c) with
    | user => inr [(10 + n)%nat]
    | environment => inl not_found
    end.

Definition answers (l : option (list Prediction)) : string -> FormData -> AxiosOutcome :=
  fun _ _ => Resolved {| status := 200;
                         data := {| data_predictions := l; data_error := None |} |}.

(** The inference service answers every call with the given status. *)
Definition upstream_status (n : Z) : FetchCall -> Outcome (UpstreamResponse Json) :=
  fun _ => inr {| up_status := n; up_json := inr (Some no_members) |}.

(** The inference service answers 200 with the given predictions. *)
Definition upstream_predicts (l : list Prediction)
  : FetchCall -> Outcome (UpstreamResponse Json) :=
  fun _ => inr {| up_status := 200;
                  up_json := inr (Some {| data_predictions := Some l;
                                          data_error := None |}) |}.

(** The inference service answers 200 with the JSON value [null]. *)
Definition upstream_null : FetchCall -> Outcome (UpstreamResponse Json) :=
  fun _ => inr {| up_status := 200; up_json := inr None |}.

(** The inference service answers 200 with a body that is not JSON. *)
Definition upstream_garbled : FetchCall -> Outcome (UpstreamResponse Json) :=
  fun _ => inr {| up_status := 200;
                  up_json := inl {| message := "Unexpected end of JSON input" |} |}.

End Samples.

(** ** The image element and the component's effects *)

Module Lifecycle.
Import Page.

(** The [<img>] behind [imageRef], as far as the code reads it. *)
Record ImageElement := {
  clientWidth : Z;
  clientHeight : Z;
  img_naturalWidth : Z;
  img_naturalHeight : Z
}.

Section Effects.

(** The state variables of the render the callbacks were created in. *)
Variable rendered : UIState.

(** [imageRef.current] at the time of the call; the code only reads it. *)
Variable imageRef : option ImageElement.

Definition updateImageDimensions : M unit :=
  match imageRef with
  | Some img =>
      if (0 <? img_naturalWidth img)%Z && (0 <? img_naturalHeight img)%Z then
        setImageSize (Some {| width := clientWidth img;
                              height := clientHeight img;
                              naturalWidth := img_naturalWidth img;
                              naturalHeight := img_naturalHeight img |})
      else skip
  | None => skip
  end.

Definition handleImageLoad : M unit := updateImageDimensions.

(** [handleResize], the listener of the resize effect. *)
Definition handleResize : M unit :=
  match imageRef with
  | Some _ => if has_image rendered then updateImageDimensions else skip
  | None => skip
  end.

(** The cleanup of the effect on [[imageURL, isCameraActive]]: revoke the
    object URL of that render and stop the camera if it was active. *)
Definition cleanup : M unit :=
  let currentImageURL := imageURL rendered in
  _ ← match currentImageURL with
      | Some u => if JsString.truthy u then emit (EvRevokeObjectURL u) else skip
      | None => skip
      end;
  if isCameraActive rendered then stopCamera else skip.

End Effects.

(** *** The renders React commits

    The camera card holds the [<video>] of [videoRef] and the [<canvas>]
    of [canvasRef] and is rendered when [isCameraActive] is true
    (page.tsx:437-474).  React sets the ref of an element that enters the
    page and clears the ref of one that leaves it, in both cases before it
    runs the cleanups of [useEffect]. *)

Definition fresh_video : VideoElement :=
  {| srcObject := None; videoWidth := 0; videoHeight := 0 |}.

Definition fresh_canvas : CanvasElement :=
  {| canvas_width := 300; canvas_height := 150 |}.

Definition attach_refs : M unit := fun w =>
  (tt,
   match videoRef w with
   | Some _ => w
   | None =>
       {| ui := ui w; videoRef := Some fresh_video; canvasRef := Some fresh_canvas;
          live := live w; gum_calls := gum_calls w; log := log w |}
   end).

Definition detach_refs : M unit := fun w =>
  (tt,
   {| ui := ui w; videoRef := None; canvasRef := None;
      live := live w; gum_calls := gum_calls w; log := log w |}).

(** What the cleanup of the effect of the render [s] revokes. *)
Definition revocation (s : UIState) : list Event :=
  match imageURL s with
  | Some u => if JsString.truthy u then [EvRevokeObjectURL u] else []
  | None => []
  end.

(** What stopping the stream attached in [w] adds to the log. *)
Definition stops (w : World) : list Event :=
  match attached w with
  | Some stream => map EvTrackStop (getTracks stream) ++ [EvSetSrcObject None]
  | None => []
  end.

(** The dependencies [[imageURL, isCameraActive]] of two renders differ. *)
Definition deps_changed (prev cur : UIState) : bool :=
  negb (bool_decide (imageURL prev = imageURL cur))
  || negb (Bool.eqb (isCameraActive prev) (isCameraActive cur)).

(** React commits the render of the current state, the render before it
    being that of the state [prev]: the refs of the camera card follow
    the flag, and the cleanup of the effect of [prev] runs when a
    dependency changed.  The result is the state rendered. *)
Definition commit (prev : UIState) : M UIState := fun w =>
  let cur := ui w in
  (_ ← (if isCameraActive cur then attach_refs else detach_refs);
   _ ← (if deps_changed prev cur then cleanup prev else skip);
   mret cur) w.

(** [n] commits in a row, each of the state the one before has left. *)
Fixpoint commits (n : nat) (prev : UIState) : M unit :=
  match n with
  | O => skip
  | S n' => cur ← commit prev; commits n' cur
  end.

(** The component leaves the page: React clears the refs, then runs the
    cleanup of the effect of the last render, that of [rendered]. *)
Definition unmount (rendered : UIState) : M unit :=
  _ ← detach_refs;
  cleanup rendered.

(** The image size is absent or has positive natural dimensions. *)
Definition size_ok (s : UIState) : Prop :=
  match imageSize s with
  | Some d => (0 < naturalWidth d)%Z /\ (0 < naturalHeight d)%Z
  | None => True
  end.

(** Two states agree on everything that belongs to the analysis: the
    image, its dimensions, the predictions and the two progress flags. *)
Definition same_analysis (s s' : UIState) : Prop :=
  imageURL s' = imageURL s
  /\ predictions s' = predictions s
  /\ imageSize s' = imageSize s
  /\ isLoading s' = isLoading s
  /\ scanAnimation s' = scanAnimation s.

End Lifecycle.

(** ** More of what the page renders *)

Module View.
Import Page.

Inductive Tone := Red | Green.

(** [renderBoxes]: null under the guard, else one entry per prediction;
    the callback of [map] has an empty body, so every entry is
    [undefined]. *)
Definition renderBoxes (s : UIState) : option (list unit) :=
  match imageSize s with
  | None => None
  | Some d =>
      if (naturalWidth d =? 0)%Z || (naturalHeight d =? 0)%Z
         || (length (predictions s) =? 0)%nat
      then None
      else Some (map (fun _ => tt) (predictions s))
  end.

(** The class of the verdict badge in [app/page.tsx]:
    [overallResult.includes("Defects") ? red : green]. *)
Definition badge_tone (verdict : string) : Tone :=
  if JsString.includes verdict "Defects" then Red else Green.

(** The class of the verdict badge in the later version of the page:
    [predictions.some((pred) => pred.class.toLowerCase().includes("bad"))
     ? red : green]. *)
Definition badge_tone_by_predictions (l : list Prediction) : Tone :=
  if existsb isBad l then Red else Green.

(** The sentence of the summary box in [app/page.tsx]. *)
Definition summary_sentence (s : UIState) : string :=
  match overallResult s with
  | Some v =>
      if JsString.truthy v && JsString.includes v "Defects"
      then " Critical defects have been detected that may compromise structural integrity."
      else " No critical defects were detected in the analyzed areas."
  | None => " No critical defects were detected in the analyzed areas."
  end.

(** The tone of the row of one prediction: [isBad ? red : green]. *)
Definition row_tone (pred : Prediction) : Tone :=
  if isBad pred then Red else Green.

(** The image card: [{imageURL && !isCameraActive && ( ... )}] *)
Definition image_shown (s : UIState) : bool :=
  has_image s && negb (isCameraActive s).

(** The first button after "Upload Image": "Use Camera" when the camera is
    not active, "Cancel" otherwise. *)
Definition camera_button (s : UIState) : string :=
  if negb (isCameraActive s) then "Use Camera" else "Cancel".

End View.

(** ** More sample inputs *)

Module MoreSamples.
Import Page Route EndToEnd Lifecycle.

Definition loaded_image : ImageElement :=
  {| clientWidth := 320; clientHeight := 240;
     img_naturalWidth := 1280; img_naturalHeight := 960 |}.

(** Both cameras exist. *)
Definition both_cameras : nat -> MediaStreamConstraints -> Outcome (list Track) :=
  fun n _ => inr [(20 + n)%nat].

(** A phone. *)
Definition phone (camera : nat -> MediaStreamConstraints -> Outcome (list Track)) : Env :=
  {| userAgent := "Mozilla/5.0 (Linux; Android 14; Pixel 8)";
     createObjectURL := fun _ => "blob:http://localhost:3000/2";
     axios_post := Samples.answers (Some [Samples.good_weld]);
     getUserMedia := camera;
     getContext2d := true;
     toBlob := fun _ _ => Some "JFIF" |}.

(** The camera card is on screen and no stream plays in it yet. *)
Definition idle_camera_world : World :=
  {| ui := Samples.camera_ui;
     videoRef := Some {| srcObject := None; videoWidth := 0; videoHeight := 0 |};
     canvasRef := Some {| canvas_width := 300; canvas_height := 150 |};
     live := ∅; gum_calls := 0; log := [] |}.

(** An analysed image is on screen. *)
Definition analysed_ui : UIState :=
  {| imageURL := Some "blob:http://localhost:3000/1"; predictions := [Samples.good_weld];
     imageSize := None; isLoading := false; error := None; isCameraActive := false;
     scanAnimation := false; cameraFacingMode := user |}.

(** The analysed image has loaded: its dimensions are known. *)
Definition loaded_ui : UIState :=
  {| imageURL := Some "blob:http://localhost:3000/1"; predictions := [Samples.good_weld];
     imageSize := Some {| width := 320; height := 240;
                          naturalWidth := 1280; naturalHeight := 960 |};
     isLoading := false; error := None; isCameraActive := false;
     scanAnimation := false; cameraFacingMode := user |}.

Definition loaded_world : World :=
  {| ui := loaded_ui; videoRef := None; canvasRef := None;
     live := ∅; gum_calls := 0; log := [] |}.

(** An image that failed to decode: no natural size. *)
Definition broken_image : ImageElement :=
  {| clientWidth := 320; clientHeight := 24;
     img_naturalWidth := 0; img_naturalHeight := 0 |}.

End MoreSamples.

(** * Properties *)

(** ** Substring search and letter case *)

Module JsStringFacts.
Import JsString.

Lemma startsWith_iff (s t : string) :
  startsWith s t = true <-> exists post, s = t +:+ post.
Proof.
  revert s; induction t as [|b t IH]; intros s; simpl.
  - split; [intros _; exists s; reflexivity | reflexivity].
  - destruct s as [|a s].
    + split; [discriminate | intros [post H]; discriminate].
    + destruct (Ascii.eqb_spec a b) as [->|Hne].
      * rewrite IH. split; intros [post H]; exists post.
        -- simpl. now rewrite H.
        -- simpl in H. now injection H.
      * split; [discriminate|]. intros [post H]. simpl in H.
        injection H as Hab _. contradiction.
Qed.

Lemma includes_iff (s t : string) :
  includes s t = true <-> exists pre post, s = pre +:+ t +:+ post.
Proof.
  induction s as [|a s IH]; simpl.
  - rewrite orb_false_r, startsWith_iff. split.
    + intros [post H]. exists EmptyString, post. exact H.
    + intros [pre [post H]]. destruct pre; [exists post; exact H|discriminate].
  - rewrite orb_true_iff, startsWith_iff, IH. split.
    + intros [[post H]|[pre [post H]]].
      * exists EmptyString, post. exact H.
      * exists (String a pre), post. simpl. now rewrite H.
    + intros [pre [post H]]. destruct pre as [|c pre]; simpl in H.
      * left. exists post. exact H.
      * right. injection H as _ H. exists pre, post. exact H.
Qed.

Lemma includes_suffix (s t : string) : includes (s +:+ t) t = true.
Proof.
  apply includes_iff. exists s, EmptyString.
  f_equal. clear s. induction t as [|c t IH]; [reflexivity|].
  change (String c t = String c (t +:+ EmptyString)). f_equal. exact IH.
Qed.

Lemma toLowerCase_app (a b : string) :
  toLowerCase (a +:+ b) = toLowerCase a +:+ toLowerCase b.
Proof. induction a as [|c a IH]; simpl; [reflexivity|now rewrite IH]. Qed.

(** A split of the lowered string comes from a split of the string. *)
Lemma toLowerCase_split (s a b : string) :
  toLowerCase s = a +:+ b ->
  exists a' b', s = a' +:+ b' /\ toLowerCase a' = a /\ toLowerCase b' = b.
Proof.
  revert s; induction a as [|c a IH]; intros s H; simpl in H.
  - exists EmptyString, s. auto.
  - destruct s as [|d s]; simpl in H; [discriminate|].
    injection H as Hc H. destruct (IH s H) as (a' & b' & -> & Ha & Hb).
    exists (String d a'), b'. simpl. rewrite Ha, Hc. auto.
Qed.

Lemma agree_ci_iff (m t : string) :
  agree_ci m t <-> toLowerCase m = toLowerCase t.
Proof.
  split.
  - induction 1 as [|a b m t Hab _ IH]; simpl; [reflexivity|].
    unfold same_letter in Hab. now rewrite Hab, IH.
  - revert t; induction m as [|a m IH]; intros [|b t] H; simpl in H;
      try discriminate.
    + constructor.
    + injection H as Hab H. constructor; [exact Hab|auto].
Qed.

(** Lowering the haystack and searching for the lowered needle is the
    case-insensitive search. *)
Lemma includes_lower_iff (s t : string) :
  includes (toLowerCase s) (toLowerCase t) = true <-> contains_ci s t.
Proof.
  rewrite includes_iff. unfold contains_ci. split.
  - intros (pre & post & H).
    apply toLowerCase_split in H as (pre' & rest & -> & _ & H).
    apply toLowerCase_split in H as (m & post' & -> & Hm & _).
    exists pre', m, post'. split; [reflexivity|]. now apply agree_ci_iff.
  - intros (pre & m & post & -> & H). apply agree_ci_iff in H.
    exists (toLowerCase pre), (toLowerCase post).
    now rewrite !toLowerCase_app, H.
Qed.

Lemma truthy_or_else (a : option string) (d : string) :
  truthy d = true ->
  exists s, or_else a (Some d) = Some s /\ truthy s = true.
Proof.
  intros Hd. destruct a as [s|]; simpl.
  - destruct (truthy s) eqn:Hs; eauto.
  - eauto.
Qed.

End JsStringFacts.

(** ** The verdict *)

Lemma isBad_iff (p : Prediction) :
  isBad p = true <-> JsString.contains_ci (class p) "bad".
Proof. unfold isBad. apply (JsStringFacts.includes_lower_iff (class p) "bad"). Qed.

Lemma hasBadWeld_iff (l : list Prediction) :
  existsb isBad l = true <->
  exists p, In p l /\ JsString.contains_ci (class p) "bad".
Proof.
  rewrite existsb_exists. split; intros (p & Hp & H); exists p;
    (split; [exact Hp|]); now apply isBad_iff.
Qed.

Lemma getOverallResult_nil : getOverallResult [] = None.
Proof. reflexivity. Qed.

Lemma getOverallResult_cons (p : Prediction) (l : list Prediction) :
  getOverallResult (p :: l)
  = Some (if existsb isBad (p :: l) then "Defects Detected" else "No Defects").
Proof. reflexivity. Qed.

Example verdict_bad : getOverallResult [Samples.good_weld; Samples.bad_weld]
                      = Some "Defects Detected".
Proof. reflexivity. Qed.

Example verdict_good : getOverallResult [Samples.good_weld] = Some "No Defects".
Proof. reflexivity. Qed.

Example verdict_any_case :
  getOverallResult [{| bbox := (1, 2, 3, 4)%Q; class := "Weld-BaD";
                       confidence := (1 # 2)%Q |}]
  = Some "Defects Detected".
Proof. reflexivity. Qed.

Lemma getOverallResult_is_Some (l : list Prediction) :
  l <> [] -> exists v, getOverallResult l = Some v /\ JsString.truthy v = true.
Proof.
  destruct l as [|p l]; [congruence|]. intros _. rewrite getOverallResult_cons.
  destruct (existsb isBad (p :: l)); eauto.
Qed.

(** ** Running the handlers *)

Module PageFacts.
Import Page.

(** Unfold the monad, the primitive actions and the record projections,
    sharing the intermediate worlds. *)
Ltac run :=
  lazy beta iota zeta delta
    [exec skip ok read try_catch and_then post console_error
     setTimeout setImageURL setPredictions setImageSize setError
     setIsLoading setIsCameraActive setScanAnimation setCameraFacingMode
     set emit with_ui apply_event
     request_media assign_srcObject stop_track attached attached_facing
     mbind M_bind mret M_ret fst snd
     ui videoRef canvasRef live gum_calls log
     imageURL predictions imageSize isLoading error isCameraActive
     scanAnimation cameraFacingMode
     srcObject videoWidth videoHeight] in *.

Lemma exec_bind {A B} (m : M A) (f : A -> M B) (w : World) :
  exec (m ≫= f) w = exec (f (fst (m w))) (snd (m w)).
Proof. unfold exec, mbind, M_bind. destruct (m w); reflexivity. Qed.

Lemma replay_app (xs ys : list Event) (s : UIState) :
  replay (xs ++ ys) s = replay ys (replay xs s).
Proof. unfold replay. apply fold_left_app. Qed.

Lemma states_at_requests_app (xs ys : list Event) (s : UIState) :
  states_at_requests (xs ++ ys) s
  = states_at_requests xs s ++ states_at_requests ys (replay xs s).
Proof.
  revert s; induction xs as [|e xs IH]; intros s; simpl; [reflexivity|].
  rewrite IH, app_assoc. reflexivity.
Qed.

Lemma states_at_requests_none (xs : list Event) (s : UIState) :
  forallb (fun e => negb (is_request e)) xs = true ->
  states_at_requests xs s = [].
Proof.
  revert s; induction xs as [|e xs IH]; intros s H; simpl in *; [reflexivity|].
  apply andb_prop in H as [He Hxs]. apply negb_true_iff in He.
  rewrite He. simpl. auto.
Qed.

(** The complete run of [processImage]: the actions it adds to the log,
    in order, and the state they leave. *)
Lemma processImage_run (env : Env) (file : File) (w : World) :
  exec (processImage env file) w
  = {| ui := replay (processImage_trace env file) (ui w);
       videoRef := videoRef w; canvasRef := canvasRef w;
       live := live w; gum_calls := gum_calls w;
       log := log w ++ processImage_trace env file |}.
Proof.
  unfold processImage, processImage_trace. run.
  destruct (axios_post env "/api/model" [("file", file)]) as [res|err|st thrown]; run;
    repeat rewrite <- app_assoc; reflexivity.
Qed.

Lemma processImage_requests (env : Env) (file : File) (s : UIState) :
  exists s', states_at_requests (processImage_trace env file) s = [s'] /\ cleared s'.
Proof.
  unfold processImage_trace.
  destruct (axios_post env "/api/model" [("file", file)]) as [res|err|st thrown];
    eexists; (split; [reflexivity|]); split; reflexivity.
Qed.

End PageFacts.

(** ** The analysis routine and the verdict *)

Section Analysis.
Import Page.

Variable env : Env.
Variable file : File.
Variable w : World.

Lemma after_success (res : AxiosResponse) :
axios_post env "/api/model" [("file", file)] = Resolved res ->
ui (exec (processImage env file) w) =
  {| imageURL := Some (createObjectURL env file);
     predictions := match data_predictions (data res) with
                    | Some l => l
                    | None => []
                    end;
     imageSize := None; isLoading := false; error := None;
     isCameraActive := isCameraActive (ui w); scanAnimation := true;
     cameraFacingMode := cameraFacingMode (ui w) |}.
Proof.
intros H. rewrite PageFacts.processImage_run.
unfold processImage_trace. rewrite H. reflexivity.
Qed.

Lemma after_failure (err : AxiosError) :
axios_post env "/api/model" [("file", file)] = Rejected err ->
ui (exec (processImage env file) w) =
  {| imageURL := Some (createObjectURL env file);
     predictions := [];
     imageSize := None; isLoading := false; error := Some (error_text err);
     isCameraActive := isCameraActive (ui w); scanAnimation := true;
     cameraFacingMode := cameraFacingMode (ui w) |}.
Proof.
intros H. rewrite PageFacts.processImage_run.
unfold processImage_trace. rewrite H. reflexivity.
Qed.

Lemma after_unreadable (st : Z) (thrown : Exn) :
axios_post env "/api/model" [("file", file)] = Unreadable st thrown ->
ui (exec (processImage env file) w) =
  {| imageURL := Some (createObjectURL env file);
     predictions := [];
     imageSize := None; isLoading := false;
     error := Some (error_text (caught thrown));
     isCameraActive := isCameraActive (ui w); scanAnimation := true;
     cameraFacingMode := cameraFacingMode (ui w) |}.
Proof.
intros H. rewrite PageFacts.processImage_run.
unfold processImage_trace. rewrite H. reflexivity.
Qed.

End Analysis.

Lemma verdict_badge_shown (s : Page.UIState) :
  Page.results_shown s = true -> Page.verdict_badge s = Page.overallResult s.
Proof.
  intros H. unfold Page.verdict_badge. rewrite H.
  unfold Page.overallResult.
  destruct (Page.predictions s) as [|p l]; [reflexivity|].
  rewrite getOverallResult_cons. destruct (existsb isBad (p :: l)); reflexivity.
Qed.

Lemma verdict_badge_overall (s : Page.UIState) (v : string) :
  Page.verdict_badge s = Some v -> Page.overallResult s = Some v.
Proof.
  unfold Page.verdict_badge. destruct (Page.results_shown s); [|discriminate].
  destruct (Page.overallResult s) as [v'|]; [|discriminate].
  destruct (JsString.truthy v'); [congruence|discriminate].
Qed.

(** C1 (as amended).  After a successful analysis the state holds the
    returned predictions, and the overall verdict is "Defects Detected"
    exactly when some returned prediction has a class label that contains
    "bad" compared case-insensitively; it is "No Defects" exactly when at
    least one prediction was returned and none has such a label.  The
    badge, when the results card is rendered, shows this verdict. *)
Theorem C1_verdict_after_success
    (env : Page.Env) (file : File) (w : Page.World) (res : Page.AxiosResponse) :
  Page.axios_post env "/api/model" [("file", file)] = Page.Resolved res ->
  let returned := match data_predictions (Page.data res) with
                  | Some l => l
                  | None => []
                  end in
  let s := Page.ui (Page.exec (Page.processImage env file) w) in
  Page.predictions s = returned
  /\ (Page.overallResult s = Some "Defects Detected"
      <-> exists p, In p returned /\ JsString.contains_ci (class p) "bad")
  /\ (Page.overallResult s = Some "No Defects"
      <-> returned <> []
          /\ ~ exists p, In p returned /\ JsString.contains_ci (class p) "bad")
  /\ (Page.results_shown s = true -> Page.verdict_badge s = Page.overallResult s).
Proof.
  intros H returned s.
  assert (Hs : Page.predictions s = returned).
  { unfold s. rewrite (after_success env file w res H). reflexivity. }
  assert (Hover : Page.overallResult s = getOverallResult returned).
  { unfold Page.overallResult. now rewrite Hs. }
  split; [exact Hs|]. split; [|split]; [| |apply verdict_badge_shown].
  - rewrite Hover, <- hasBadWeld_iff.
    destruct returned as [|p l]; [split; discriminate|].
    rewrite getOverallResult_cons.
    destruct (existsb isBad (p :: l)); split; congruence.
  - rewrite Hover, <- hasBadWeld_iff.
    destruct returned as [|p l].
    + split; [discriminate|]. intros [Hne _]. congruence.
    + rewrite getOverallResult_cons.
      destruct (existsb isBad (p :: l)); split.
      * discriminate.
      * intros [_ Hnone]. congruence.
      * intros _. split; congruence.
      * reflexivity.
Qed.

(** The example of the specification: one returned prediction of class
    "bad_weld" gives the verdict "Defects Detected". *)
Lemma C1_verdict_witness :
  Page.axios_post (Samples.browser (Samples.answers (Some [Samples.bad_weld])) Samples.no_camera)
                  "/api/model" [("file", Samples.weld_jpg)]
  = Page.Resolved {| Page.status := 200;
                     Page.data := {| data_predictions := Some [Samples.bad_weld];
                                     data_error := None |} |}
  /\ Page.overallResult
       (Page.ui (Page.exec
          (Page.processImage
             (Samples.browser (Samples.answers (Some [Samples.bad_weld])) Samples.no_camera)
             Samples.weld_jpg)
          Samples.initial_world))
     = Some "Defects Detected".
Proof.
  split; [reflexivity|].
  pose proof (C1_verdict_after_success
           (Samples.browser (Samples.answers (Some [Samples.bad_weld])) Samples.no_camera)
           Samples.weld_jpg Samples.initial_world _ eq_refl) as H.
  cbv zeta in H. destruct H as (_ & H & _). apply H.
  exists Samples.bad_weld. split; [left; reflexivity|].
  apply isBad_iff. reflexivity.
Defined.

(** C1 (as stated) fails when the successful analysis returns no
    prediction: the results card is rendered, no label contains "bad",
    and yet the verdict is not "No Defects": there is none. *)
Lemma C1_counterexample_empty_result :
  let env := Samples.browser (Samples.answers (Some [])) Samples.no_camera in
  let s := Page.ui (Page.exec (Page.processImage env Samples.weld_jpg) Samples.initial_world) in
  (exists res, Page.axios_post env "/api/model" [("file", Samples.weld_jpg)] = Page.Resolved res)
  /\ Page.results_shown s = true
  /\ (~ exists p, In p (Page.predictions s) /\ JsString.contains_ci (class p) "bad")
  /\ Page.overallResult s <> Some "No Defects"
  /\ Page.verdict_badge s = None.
Proof.
  cbv zeta. repeat split.
  - eexists; reflexivity.
  - intros (p & [] & _).
  - discriminate.
Qed.

(** ** The camera *)

Module CameraFacts.
Import Page PageFacts.

Lemma forEach_stop_run (l : list Track) (w : World) :
  forEach l stop_track w
  = (tt, {| ui := ui w; videoRef := videoRef w; canvasRef := canvasRef w;
            live := live w ∖ list_to_set l; gum_calls := gum_calls w;
            log := log w ++ map EvTrackStop l |}).
Proof.
  revert w; induction l as [|t l IH]; intros w.
  - cbn [forEach map]. run. rewrite app_nil_r.
    replace (live w ∖ list_to_set []) with (live w)
      by (now rewrite list_to_set_nil, difference_empty_L).
    reflexivity.
  - cbn [forEach map]. run. rewrite IH. run. rewrite <- app_assoc.
    replace (live w ∖ {[t]} ∖ list_to_set l)
      with (live w ∖ list_to_set (t :: l))
      by (now rewrite list_to_set_cons, difference_difference_l_L).
    reflexivity.
Qed.

(** The block that stops the attached stream: every track is stopped and
    the element's [srcObject] becomes null; without an element or without
    a stream nothing happens. *)
Lemma stop_current_stream_run (w : World) :
  stop_current_stream w
  = (tt,
     match videoRef w with
     | Some el =>
         match srcObject el with
         | Some stream =>
             {| ui := ui w;
                videoRef := Some {| srcObject := None; videoWidth := videoWidth el;
                                    videoHeight := videoHeight el |};
                canvasRef := canvasRef w;
                live := live w ∖ list_to_set (getTracks stream);
                gum_calls := gum_calls w;
                log := log w ++ map EvTrackStop (getTracks stream)
                             ++ [EvSetSrcObject None] |}
         | None => w
         end
     | None => w
     end).
Proof.
  destruct w as [u v c l g lg]. unfold stop_current_stream. run.
  destruct v as [[[stream|] vw vh]|]; run; [|reflexivity|reflexivity].
  rewrite forEach_stop_run. run. rewrite <- app_assoc. reflexivity.
Qed.

Lemma stopCamera_run (w : World) :
  exec stopCamera w
  = exec (setIsCameraActive false) (snd (stop_current_stream w)).
Proof. unfold stopCamera. rewrite exec_bind. reflexivity. Qed.

Lemma replay_stops (l : list Track) (s : UIState) :
  replay (map EvTrackStop l) s = s.
Proof. induction l as [|t l IH]; [reflexivity|exact IH]. Qed.

Lemma no_request_in_stops (l : list Track) :
  forallb (fun e => negb (is_request e)) (map EvTrackStop l) = true.
Proof. induction l as [|t l IH]; [reflexivity|exact IH]. Qed.

(** What [stopCamera] adds to the log contains no request, and the state
    it leaves is the replay of what it added. *)
Lemma stopCamera_log (w : World) :
  exists added,
    log (exec stopCamera w) = log w ++ added
    /\ forallb (fun e => negb (is_request e)) added = true
    /\ ui (exec stopCamera w) = replay added (ui w).
Proof.
  rewrite stopCamera_run, stop_current_stream_run.
  destruct w as [u v c l g lg]. destruct v as [[[stream|] vw vh]|]; run.
  - exists (map EvTrackStop (getTracks stream)
            ++ [EvSetSrcObject None; EvSetIsCameraActive false]).
    split; [|split].
    + repeat rewrite <- app_assoc. reflexivity.
    + rewrite forallb_app, no_request_in_stops. reflexivity.
    + rewrite replay_app, replay_stops. reflexivity.
  - exists [EvSetIsCameraActive false]. repeat split.
  - exists [EvSetIsCameraActive false]. repeat split.
Qed.

End CameraFacts.

(** What [stopCamera] does in every world.  It stops every track of the
    stream attached to the video element (calling [stop] on each), leaves
    no stream attached, and sets the camera-active flag to false.  The
    tracks live afterwards are those that were live and did not belong to
    the attached stream: when the live tracks were those of the attached
    stream, no media track is live afterwards. *)
Theorem stopCamera_stops_attached_tracks (w : Page.World) :
  let w' := Page.exec Page.stopCamera w in
  (forall stream t,
      Page.attached w = Some stream -> In t (Page.getTracks stream) ->
      (t ∉ Page.live w') /\ In (Page.EvTrackStop t) (Page.log w'))
  /\ Page.attached w' = None
  /\ Page.isCameraActive (Page.ui w') = false
  /\ Page.live w'
     = Page.live w ∖ match Page.attached w with
                     | Some stream => list_to_set (Page.getTracks stream)
                     | None => ∅
                     end
  /\ ((forall t, t ∈ Page.live w ->
         exists stream, Page.attached w = Some stream /\ In t (Page.getTracks stream)) ->
      Page.live w' = ∅).
Proof.
  intros w'. subst w'.
  rewrite CameraFacts.stopCamera_run, CameraFacts.stop_current_stream_run.
  destruct w as [u v c l g lg]. destruct v as [[[stream|] vw vh]|]; PageFacts.run.
  - split; [|split; [reflexivity|split; [reflexivity|split; [reflexivity|]]]].
    + intros stream' t Hst Ht. injection Hst as <-. split.
      * apply not_elem_of_difference. right.
        apply elem_of_list_to_set, list_elem_of_In. exact Ht.
      * apply in_or_app. left. apply in_or_app. right.
        apply in_or_app. left. apply in_map. exact Ht.
    + intros Hown. apply set_eq. intros t.
      split; [|intros Ht; exfalso; exact (not_elem_of_empty t Ht)].
      intros Ht. apply elem_of_difference in Ht as [Ht Hn].
      destruct (Hown t Ht) as (st & Hst & Hin). injection Hst as <-.
      apply list_elem_of_In in Hin. exfalso. apply Hn.
      apply elem_of_list_to_set. exact Hin.
  - split; [|split; [reflexivity|split; [reflexivity|split]]].
    + intros stream' t Hst. discriminate.
    + now rewrite difference_empty_L.
    + intros Hown. apply set_eq. intros t.
      split; [|intros Ht; exfalso; exact (not_elem_of_empty t Ht)].
      intros Ht. destruct (Hown t Ht) as (st & Hst & _). discriminate.
  - split; [|split; [reflexivity|split; [reflexivity|split]]].
    + intros stream' t Hst. discriminate.
    + now rewrite difference_empty_L.
    + intros Hown. apply set_eq. intros t.
      split; [|intros Ht; exfalso; exact (not_elem_of_empty t Ht)].
      intros Ht. destruct (Hown t Ht) as (st & Hst & _). discriminate.
Qed.

(** The front camera plays in a mounted video element. *)
Lemma stopCamera_stops_attached_example :
  (forall t, t ∈ Page.live Samples.camera_world ->
     exists stream, Page.attached Samples.camera_world = Some stream
                    /\ In t (Page.getTracks stream))
  /\ Page.live (Page.exec Page.stopCamera Samples.camera_world) = ∅.
Proof.
  assert (Hown : forall t, t ∈ Page.live Samples.camera_world ->
     exists stream, Page.attached Samples.camera_world = Some stream
                    /\ In t (Page.getTracks stream)).
  { intros t Ht. exists Samples.front_stream. split; [reflexivity|].
    cbn in Ht. apply elem_of_union in Ht as [Ht|Ht];
      apply elem_of_singleton in Ht; subst t; cbn; auto. }
  split; [exact Hown|].
  pose proof (stopCamera_stops_attached_tracks Samples.camera_world) as H.
  cbv zeta in H. destruct H as (_ & _ & _ & _ & H). exact (H Hown).
Qed.

(** C6.  The claim fails on the code when [stopCamera] runs without a
    video element behind [videoRef], as it does in the cleanup that runs
    when the component leaves the page ("Also ensure camera is stopped
    when component unmounts", page.tsx:261): React has cleared the ref by
    then, so [stopCamera] skips the block that stops the tracks and only
    sets the flag.  In every world without a video element the live
    tracks and the log of stopped tracks are as before the call; when the
    component is unmounted while the front camera plays, its two tracks
    are still live afterwards. *)
Theorem C6_stopCamera_leaks_without_element :
  (forall w : Page.World,
      Page.videoRef w = None ->
      Page.live (Page.exec Page.stopCamera w) = Page.live w
      /\ Page.log (Page.exec Page.stopCamera w)
         = Page.log w ++ [Page.EvSetIsCameraActive false]
      /\ Page.isCameraActive (Page.ui (Page.exec Page.stopCamera w)) = false)
  /\ (let w' := Page.exec (Lifecycle.unmount Samples.camera_ui) Samples.camera_world in
      Page.attached Samples.camera_world = Some Samples.front_stream
      /\ Page.getTracks Samples.front_stream = [1%nat; 2%nat]
      /\ Page.log w' = [Page.EvSetIsCameraActive false]
      /\ Page.isCameraActive (Page.ui w') = false
      /\ Page.live w' = {[ 1%nat; 2%nat ]}
      /\ 1%nat ∈ Page.live w' /\ 2%nat ∈ Page.live w').
Proof.
  assert (Hgen : forall w : Page.World,
      Page.videoRef w = None ->
      Page.live (Page.exec Page.stopCamera w) = Page.live w
      /\ Page.log (Page.exec Page.stopCamera w)
         = Page.log w ++ [Page.EvSetIsCameraActive false]
      /\ Page.isCameraActive (Page.ui (Page.exec Page.stopCamera w)) = false).
  { intros w Hv. rewrite CameraFacts.stopCamera_run, CameraFacts.stop_current_stream_run.
    destruct w as [u v c l g lg]. cbn [Page.videoRef] in Hv. subst v.
    PageFacts.run. repeat split. }
  split; [exact Hgen|]. cbv zeta.
  assert (Hrun : Page.exec (Lifecycle.unmount Samples.camera_ui) Samples.camera_world
                 = Page.exec Page.stopCamera
                     (Page.exec Lifecycle.detach_refs Samples.camera_world))
    by reflexivity.
  destruct (Hgen (Page.exec Lifecycle.detach_refs Samples.camera_world) eq_refl)
    as (Hlive & Hlog & Hflag).
  rewrite Hrun, Hlive, Hlog, Hflag.
  change (Page.live (Page.exec Lifecycle.detach_refs Samples.camera_world))
    with ({[ 1%nat; 2%nat ]} : gset Page.Track).
  repeat split.
Qed.

Module SwitchFacts.
Import Page PageFacts CameraFacts.

(** After the stopping block the element, if mounted, has no stream. *)
Lemma stop_current_stream_ref (w : World) (el : VideoElement) :
  videoRef w = Some el ->
  videoRef (snd (stop_current_stream w))
  = Some {| srcObject := None; videoWidth := videoWidth el;
            videoHeight := videoHeight el |}
  /\ ui (snd (stop_current_stream w)) = ui w
  /\ gum_calls (snd (stop_current_stream w)) = gum_calls w.
Proof.
  intros Hv. rewrite stop_current_stream_run.
  destruct w as [u v c l g lg]. run. subst v.
  destruct el as [[stream|] vw vh]; run; auto.
Qed.

Lemma switchCamera_unmounted (env : Env) (rendered : UIState) (w : World) :
  videoRef w = None ->
  exec (switchCamera env rendered) w
  = exec (setCameraFacingMode (toggle (cameraFacingMode rendered))) w.
Proof.
  intros Hv. unfold switchCamera. rewrite exec_bind, stop_current_stream_run.
  destruct w as [u v c l g lg]. run. subst v. run.
  destruct (cameraFacingMode rendered); reflexivity.
Qed.

(** The run of [switchCamera] on a mounted video element, by what the
    two [getUserMedia] calls settle to. *)
Lemma switchCamera_mounted (env : Env) (rendered : UIState) (w : World)
    (el : VideoElement) :
  videoRef w = Some el ->
  let w1 := snd (stop_current_stream w) in
  let old := cameraFacingMode rendered in
  let new := toggle old in
  let ask m := {| video := Plain m |} in
  let mounted v := Some {| srcObject := v; videoWidth := videoWidth el;
                           videoHeight := videoHeight el |} in
  exec (switchCamera env rendered) w
  = match getUserMedia env (gum_calls w) (ask new) with
    | inr tracks =>
        let stream := {| getTracks := tracks; requested := ask new |} in
        {| ui := apply_event (EvSetCameraFacingMode new) (ui w);
           videoRef := mounted (Some stream);
           canvasRef := canvasRef w1;
           live := live w1 ∪ list_to_set tracks;
           gum_calls := S (gum_calls w);
           log := log w1 ++ [EvSetCameraFacingMode new; EvGetUserMedia (ask new);
                             EvSetSrcObject (Some stream)] |}
    | inl _ =>
        let msg := "Could not access "
                   +:+ match new with user => "front" | environment => "back" end
                   +:+ " camera." in
        let tried :=
          [EvSetCameraFacingMode new; EvGetUserMedia (ask new);
           EvConsoleError ("Error accessing " +:+ mode_name new +:+ " camera:");
           EvSetError (Some msg); EvGetUserMedia (ask old)] in
        match getUserMedia env (S (gum_calls w)) (ask old) with
        | inr tracks =>
            let stream := {| getTracks := tracks; requested := ask old |} in
            {| ui := replay tried (ui w);
               videoRef := mounted (Some stream);
               canvasRef := canvasRef w1;
               live := live w1 ∪ list_to_set tracks;
               gum_calls := S (S (gum_calls w));
               log := log w1 ++ tried ++ [EvSetSrcObject (Some stream)] |}
        | inl _ =>
            let failed :=
              tried ++ [EvConsoleError "Failed to revert to previous camera:";
                        EvSetIsCameraActive false] in
            {| ui := replay failed (ui w);
               videoRef := mounted None;
               canvasRef := canvasRef w1;
               live := live w1;
               gum_calls := S (S (gum_calls w));
               log := log w1 ++ failed |}
        end
    end.
Proof.
  intros Hv w1 old new ask mounted. subst w1 old new ask mounted.
  unfold switchCamera, toggle. rewrite exec_bind, stop_current_stream_run.
  destruct w as [u v c l g lg]. run. subst v.
  destruct el as [[stream|] vw vh]; run;
    (destruct (getUserMedia env g _) as [e|tracks]; run;
     [destruct (getUserMedia env (S g) _) as [e'|tracks]; run|]);
    repeat rewrite <- app_assoc; reflexivity.
Qed.

End SwitchFacts.

Lemma no_getUserMedia_in_stops (l : list Page.Track) :
  forallb (fun e => negb (Page.is_getUserMedia e)) (map Page.EvTrackStop l) = true.
Proof. induction l; [reflexivity|assumption]. Qed.

(** What the stopping block adds to the log: no [getUserMedia] call. *)
Lemma stop_current_stream_log (w : Page.World) :
  exists stopped,
    Page.log (snd (Page.stop_current_stream w)) = Page.log w ++ stopped
    /\ forallb (fun e => negb (Page.is_getUserMedia e)) stopped = true.
Proof.
  rewrite CameraFacts.stop_current_stream_run.
  destruct (Page.videoRef w) as [el|]; [destruct (Page.srcObject el) as [stream|]|].
  - exists (map Page.EvTrackStop (Page.getTracks stream) ++ [Page.EvSetSrcObject None]).
    split; [reflexivity|]. rewrite forallb_app, no_getUserMedia_in_stops. reflexivity.
  - exists []. split; [now rewrite app_nil_r|reflexivity].
  - exists []. split; [now rewrite app_nil_r|reflexivity].
Qed.

(** C7 (as amended).  When the video element is mounted and acquiring a
    stream for the opposite facing mode fails, [switchCamera] asks for a
    stream of the prior facing mode (the second and last [getUserMedia]
    call of the run).  If that call succeeds, its stream is attached and
    its tracks are live, and the camera-active flag is left alone; if it
    fails too, no stream is attached and the camera-active flag is set to
    false. *)
Theorem C7_switchCamera_falls_back
    (env : Page.Env) (rendered : Page.UIState) (w : Page.World)
    (el : Page.VideoElement) (e : Exn) :
  let old := Page.cameraFacingMode rendered in
  let new := Page.toggle old in
  let ask m := {| Page.video := Page.Plain m |} in
  let w' := Page.exec (Page.switchCamera env rendered) w in
  Page.videoRef w = Some el ->
  Page.getUserMedia env (Page.gum_calls w) (ask new) = inl e ->
  (exists pre mid post,
      Page.log w' = Page.log w ++ pre ++ Page.EvGetUserMedia (ask new)
                                 :: mid ++ Page.EvGetUserMedia (ask old) :: post
      /\ forallb (fun e => negb (Page.is_getUserMedia e)) (pre ++ mid ++ post) = true)
  /\ match Page.getUserMedia env (S (Page.gum_calls w)) (ask old) with
     | inr tracks =>
         Page.attached w'
         = Some {| Page.getTracks := tracks; Page.requested := ask old |}
         /\ (forall t, In t tracks -> t ∈ Page.live w')
         /\ Page.isCameraActive (Page.ui w') = Page.isCameraActive (Page.ui w)
     | inl _ =>
         Page.attached w' = None
         /\ Page.isCameraActive (Page.ui w') = false
     end.
Proof.
  intros old new ask w' Hv Hnew. subst w'.
  rewrite (SwitchFacts.switchCamera_mounted env rendered w el Hv).
  cbv zeta. fold old. fold new. fold (ask new) (ask old). rewrite Hnew.
  destruct (stop_current_stream_log w) as (stopped & Hlog & Hstopped).
  destruct (Page.getUserMedia env (S (Page.gum_calls w)) (ask old)) as [e'|tracks];
    cbn [Page.log Page.attached Page.videoRef Page.srcObject Page.ui Page.live].
  - split; [|split; reflexivity].
    exists (stopped ++ [Page.EvSetCameraFacingMode new]),
           [Page.EvConsoleError ("Error accessing " +:+ Page.mode_name new +:+ " camera:");
            Page.EvSetError (Some ("Could not access "
               +:+ match new with Page.user => "front" | Page.environment => "back" end
               +:+ " camera."))],
           [Page.EvConsoleError "Failed to revert to previous camera:";
            Page.EvSetIsCameraActive false].
    split.
    + rewrite Hlog. repeat rewrite <- app_assoc. reflexivity.
    + rewrite !forallb_app, Hstopped. reflexivity.
  - split; [|split; [reflexivity|split]].
    + exists (stopped ++ [Page.EvSetCameraFacingMode new]),
           [Page.EvConsoleError ("Error accessing " +:+ Page.mode_name new +:+ " camera:");
            Page.EvSetError (Some ("Could not access "
               +:+ match new with Page.user => "front" | Page.environment => "back" end
               +:+ " camera."))],
           [Page.EvSetSrcObject
              (Some {| Page.getTracks := tracks; Page.requested := ask old |})].
      split.
      * rewrite Hlog. repeat rewrite <- app_assoc. reflexivity.
      * rewrite !forallb_app, Hstopped. reflexivity.
    + intros t Ht. apply elem_of_union. right.
      apply elem_of_list_to_set, list_elem_of_In. exact Ht.
    + reflexivity.
Qed.

(** Only the front camera exists: the switch to the back camera fails and
    the front camera is acquired again. *)
Lemma C7_switchCamera_witness :
  Page.videoRef Samples.camera_world = Some Samples.camera_element
  /\ Page.getUserMedia (Samples.browser (Samples.answers None) Samples.front_only)
       (Page.gum_calls Samples.camera_world)
       {| Page.video := Page.Plain (Page.toggle (Page.cameraFacingMode Samples.camera_ui)) |}
     = inl Samples.not_found
  /\ Page.attached
       (Page.exec (Page.switchCamera
                     (Samples.browser (Samples.answers None) Samples.front_only)
                     Samples.camera_ui)
                  Samples.camera_world)
     = Some {| Page.getTracks := [12%nat];
               Page.requested := {| Page.video := Page.Plain Page.user |} |}.
Proof.
  split; [reflexivity|]. split; [reflexivity|].
  pose proof (C7_switchCamera_falls_back
                (Samples.browser (Samples.answers None) Samples.front_only)
                Samples.camera_ui Samples.camera_world
                Samples.camera_element Samples.not_found eq_refl eq_refl) as H.
  cbv zeta in H. destruct H as [_ H].
  change (Page.getUserMedia _ _ _) with
    (@inr Exn (list Page.Track) [12%nat]) in H.
  cbv iota beta in H. destruct H as [H _]. exact H.
Defined.

(** C7 (as stated) fails when the prior facing mode cannot be acquired
    again either: the front camera was playing, the switch finds no
    camera at all, and the run ends with no stream attached, no live
    track and the camera view closed. *)
Lemma C7_counterexample_no_stream_left :
  let env := Samples.browser (Samples.answers None) Samples.no_camera in
  let w' := Page.exec (Page.switchCamera env Samples.camera_ui) Samples.camera_world in
  Page.attached_facing Samples.camera_world = Some (Page.cameraFacingMode Samples.camera_ui)
  /\ (exists e, Page.getUserMedia env (Page.gum_calls Samples.camera_world)
                  {| Page.video := Page.Plain (Page.toggle (Page.cameraFacingMode Samples.camera_ui)) |}
                = inl e)
  /\ Page.attached w' = None
  /\ Page.live w' = ∅
  /\ Page.isCameraActive (Page.ui w') = false.
Proof.
  cbv zeta. split; [reflexivity|]. split; [eexists; reflexivity|].
  split; [vm_compute; reflexivity|]. split; [|vm_compute; reflexivity].
  vm_compute. reflexivity.
Qed.

Lemma toggle_neq (m : Page.FacingMode) : Page.toggle m <> m.
Proof. destruct m; discriminate. Qed.

(** C9.  [switchCamera] records the opposite facing mode in every run, and
    does so before any [getUserMedia] call of the run.  When the video
    element is mounted, the acquisition for the new mode fails and the
    fallback to the prior mode succeeds, the attached stream is the one
    acquired for the prior mode while the recorded mode is the new one:
    the two disagree, and the title of the camera card names the camera
    that is not playing. *)
Theorem C9_switchCamera_records_new_mode
    (env : Page.Env) (rendered : Page.UIState) (w : Page.World) :
  let old := Page.cameraFacingMode rendered in
  let new := Page.toggle old in
  let ask m := {| Page.video := Page.Plain m |} in
  let w' := Page.exec (Page.switchCamera env rendered) w in
  Page.cameraFacingMode (Page.ui w') = new
  /\ (exists pre post,
        Page.log w' = Page.log w ++ pre ++ Page.EvSetCameraFacingMode new :: post
        /\ forallb (fun e => negb (Page.is_getUserMedia e)) pre = true)
  /\ (forall el e tracks,
        Page.videoRef w = Some el ->
        Page.getUserMedia env (Page.gum_calls w) (ask new) = inl e ->
        Page.getUserMedia env (S (Page.gum_calls w)) (ask old) = inr tracks ->
        Page.attached_facing w' = Some old
        /\ Page.attached_facing w' <> Some (Page.cameraFacingMode (Page.ui w'))
        /\ forall s, Page.cameraFacingMode s = old ->
                     Page.camera_title (Page.ui w') <> Page.camera_title s).
Proof.
  intros old new ask w'. subst w'.
  destruct (stop_current_stream_log w) as (stopped & Hlog & Hstopped).
  destruct (Page.videoRef w) as [el|] eqn:Hv.
  - rewrite (SwitchFacts.switchCamera_mounted env rendered w el Hv).
    cbv zeta. fold old. fold new. fold (ask new) (ask old).
    destruct (Page.getUserMedia env (Page.gum_calls w) (ask new)) as [e1|tr1];
      [destruct (Page.getUserMedia env (S (Page.gum_calls w)) (ask old)) as [e2|tr2]|];
      cbn [Page.ui Page.log]; (split; [reflexivity|]);
      (split; [exists stopped; eexists; split; [|exact Hstopped];
               rewrite Hlog, <- app_assoc; cbn [app]; reflexivity|]).
    + intros el' e tracks _ _ Hold. discriminate.
    + intros el' e tracks _ _ Hold. injection Hold as ->.
      unfold Page.attached_facing, Page.attached.
      cbn [Page.videoRef Page.srcObject Page.requested Page.video Page.facing_of ask].
      split; [reflexivity|]. split.
      * intros E. injection E as E. symmetry in E. exact (toggle_neq old E).
      * intros s Hs. unfold Page.camera_title.
        change (Page.cameraFacingMode (Page.replay _ _)) with new.
        rewrite Hs. unfold new. destruct old; discriminate.
    + intros el' e tracks _ Hnew _. discriminate.
  - rewrite (SwitchFacts.switchCamera_unmounted env rendered w Hv).
    fold old. fold new. split; [reflexivity|]. split.
    + exists [], []. split; reflexivity.
    + intros el e tracks Hel. discriminate.
Qed.

(** Only the front camera exists: after the failed switch the front
    camera plays and the recorded mode is "environment". *)
Lemma C9_switchCamera_witness :
  Page.videoRef Samples.camera_world = Some Samples.camera_element
  /\ Page.attached_facing
       (Page.exec (Page.switchCamera
                     (Samples.browser (Samples.answers None) Samples.front_only)
                     Samples.camera_ui)
                  Samples.camera_world)
     = Some Page.user
  /\ Page.cameraFacingMode
       (Page.ui (Page.exec (Page.switchCamera
                     (Samples.browser (Samples.answers None) Samples.front_only)
                     Samples.camera_ui)
                  Samples.camera_world))
     = Page.environment.
Proof.
  pose proof (C9_switchCamera_records_new_mode
                (Samples.browser (Samples.answers None) Samples.front_only)
                Samples.camera_ui Samples.camera_world) as H.
  cbv zeta in H. destruct H as (Hmode & _ & H).
  split; [reflexivity|]. split; [|exact Hmode].
  exact (proj1 (H Samples.camera_element Samples.not_found [12%nat]
                  eq_refl eq_refl eq_refl)).
Defined.

(** C10.  [startCamera] sets the camera-active flag first, in every run,
    and calls [getUserMedia] exactly when the video element reference is
    non-null.  In a run with a null reference nothing else happens: no
    stream is requested, the error is untouched, the flag stays true (so
    the camera card is rendered) and no stream is attached. *)
Theorem C10_startCamera_without_element (env : Page.Env) (w : Page.World) :
  let w' := Page.exec (Page.startCamera env) w in
  (exists rest,
      Page.log w' = Page.log w ++ Page.EvSetIsCameraActive true :: rest
      /\ ((exists c, In (Page.EvGetUserMedia c) rest) <-> Page.videoRef w <> None))
  /\ (Page.videoRef w = None ->
      Page.log w' = Page.log w ++ [Page.EvSetIsCameraActive true]
      /\ Page.gum_calls w' = Page.gum_calls w
      /\ Page.error (Page.ui w') = Page.error (Page.ui w)
      /\ Page.isCameraActive (Page.ui w') = true
      /\ Page.camera_view_shown (Page.ui w') = true
      /\ Page.attached w' = None
      /\ Page.live w' = Page.live w).
Proof.
  intros w'. subst w'. destruct w as [u v c l g lg].
  unfold Page.startCamera, Page.camera_view_shown. PageFacts.run.
  destruct v as [el|]; PageFacts.run.
  - split; [|discriminate].
    destruct (Page.getUserMedia env g _) as [e|tracks]; PageFacts.run;
      [destruct (Page.getUserMedia env (S g) _) as [e'|tracks]; PageFacts.run|];
      repeat rewrite <- app_assoc; cbn [app];
      (eexists; split; [reflexivity|]);
      (split; [discriminate|intros _; eexists; left; reflexivity]).
  - split.
    + exists []. split; [reflexivity|]. split.
      * intros (x & []).
      * intros H. now contradiction H.
    + intros _. repeat split.
Qed.

(** The first click on "Use Camera": the video element is not rendered
    yet, so the card appears and no camera is asked for. *)
Lemma C10_startCamera_witness :
  Page.videoRef Samples.initial_world = None
  /\ Page.log (Page.exec (Page.startCamera
                            (Samples.browser (Samples.answers None) Samples.front_only))
                         Samples.initial_world)
     = [Page.EvSetIsCameraActive true]
  /\ Page.isCameraActive
       (Page.ui (Page.exec (Page.startCamera
                              (Samples.browser (Samples.answers None) Samples.front_only))
                           Samples.initial_world))
     = true.
Proof.
  pose proof (C10_startCamera_without_element
                (Samples.browser (Samples.answers None) Samples.front_only)
                Samples.initial_world) as H.
  cbv zeta in H. destruct H as (_ & H).
  destruct (H eq_refl) as (Hlog & _ & _ & Hflag & _).
  split; [reflexivity|]. split; [exact Hlog|exact Hflag].
Defined.

(** ** Clearing before the request *)

Module ClearFacts.
Import Page PageFacts CameraFacts.

Lemma states_at_trace (env : Env) (file : File) (pre : list Event) (s : UIState) :
  forallb (fun e => negb (is_request e)) pre = true ->
  exists s',
    states_at_requests (pre ++ processImage_trace env file) s = [s'] /\ cleared s'.
Proof.
  intros Hpre. rewrite states_at_requests_app, (states_at_requests_none _ _ Hpre).
  apply processImage_requests.
Qed.

Lemma handleFileUpload_log (env : Env) (rendered : UIState) (file : File) (w : World) :
  exists pre,
    log (exec (handleFileUpload env rendered (Some file)) w)
    = log w ++ pre ++ processImage_trace env file
    /\ forallb (fun e => negb (is_request e)) pre = true.
Proof.
  unfold handleFileUpload. rewrite exec_bind, processImage_run. cbn [log].
  destruct (imageURL rendered) as [url|]; [destruct (JsString.truthy url)|].
  - exists [EvRevokeObjectURL url]. run. rewrite <- app_assoc. split; reflexivity.
  - exists []. run. split; reflexivity.
  - exists []. run. split; reflexivity.
Qed.

Lemma stop_then_process_log (env : Env) (file : File) (w : World) :
  exists pre,
    log (exec (stopCamera ≫= fun _ => processImage env file) w)
    = log w ++ pre ++ processImage_trace env file
    /\ forallb (fun e => negb (is_request e)) pre = true.
Proof.
  rewrite exec_bind, processImage_run. cbn [log].
  destruct (stopCamera_log w) as (stops & Hl & Hn & _).
  exists stops. split; [|exact Hn].
  change (snd (stopCamera w)) with (exec stopCamera w).
  rewrite Hl, app_assoc. reflexivity.
Qed.

(** [capturePhoto] either does nothing observable, or stops the camera
    and runs [processImage] on the captured frame. *)
Lemma capturePhoto_log (env : Env) (w : World) :
  log (exec (capturePhoto env) w) = log w
  \/ exists pre file,
      log (exec (capturePhoto env) w) = log w ++ pre ++ processImage_trace env file
      /\ forallb (fun e => negb (is_request e)) pre = true.
Proof.
  destruct w as [u v c l g lg]. unfold capturePhoto.
  destruct v as [el|], c as [cv|];
    try (left; reflexivity).
  rewrite !exec_bind. unfold read. cbn [fst snd videoRef canvasRef].
  rewrite exec_bind. unfold size_canvas.
  cbn [fst snd ui videoRef canvasRef live gum_calls log].
  destruct (getContext2d env); [|left; reflexivity].
  destruct (toBlob env el _) as [blob|]; [|left; reflexivity].
  right.
  destruct (stop_then_process_log env
              {| file_name := "camera-capture.jpg"; file_type := "image/jpeg";
                 file_content := blob |}
              {| ui := u; videoRef := Some el;
                 canvasRef := Some {| canvas_width := videoWidth el;
                                      canvas_height := videoHeight el |};
                 live := l; gum_calls := g; log := lg |}) as (pre & Hl & Hn).
  exists pre, {| file_name := "camera-capture.jpg"; file_type := "image/jpeg";
                 file_content := blob |}.
  split; [exact Hl|exact Hn].
Qed.

End ClearFacts.

(** C2.  In every run of [processImage] the setters that empty the
    predictions and the image dimensions are called before the request to
    the route is issued, and the component state at the moment the request
    is issued (hence before it settles) has both cleared; the run issues
    that one request.  The same holds at the request of an upload
    ([handleFileUpload] with a file) and at every request a camera capture
    ([capturePhoto]) issues. *)
Theorem C2_cleared_before_request
    (env : Page.Env) (rendered : Page.UIState) (file : File) (w : Page.World) :
  (exists before after,
      Page.log (Page.exec (Page.processImage env file) w)
      = Page.log w ++ before ++ Page.EvAxiosPost "/api/model" [("file", file)] :: after
      /\ forallb (fun e => negb (Page.is_request e)) (before ++ after) = true
      /\ In (Page.EvSetPredictions []) before
      /\ In (Page.EvSetImageSize None) before
      /\ Page.cleared (Page.replay before (Page.ui w)))
  /\ (exists added s',
        Page.log (Page.exec (Page.handleFileUpload env rendered (Some file)) w)
        = Page.log w ++ added
        /\ Page.states_at_requests added (Page.ui w) = [s']
        /\ Page.cleared s')
  /\ (exists added,
        Page.log (Page.exec (Page.capturePhoto env) w) = Page.log w ++ added
        /\ Forall Page.cleared (Page.states_at_requests added (Page.ui w))).
Proof.
  split; [|split].
  - rewrite PageFacts.processImage_run. cbn [Page.log].
    unfold Page.processImage_trace.
    exists [Page.EvCreateObjectURL file;
            Page.EvSetImageURL (Some (Page.createObjectURL env file));
            Page.EvSetPredictions []; Page.EvSetImageSize None; Page.EvSetError None;
            Page.EvSetIsLoading true; Page.EvSetScanAnimation true].
    eexists. split; [reflexivity|].
    split; [|split; [|split]].
    + destruct (Page.axios_post env "/api/model" [("file", file)]); reflexivity.
    + cbn. tauto.
    + cbn. tauto.
    + split; reflexivity.
  - destruct (ClearFacts.handleFileUpload_log env rendered file w) as (pre & Hl & Hn).
    destruct (ClearFacts.states_at_trace env file pre (Page.ui w) Hn) as (s' & Hs & Hc).
    exists (pre ++ Page.processImage_trace env file), s'. auto.
  - destruct (ClearFacts.capturePhoto_log env w) as [Hl|(pre & f & Hl & Hn)].
    + exists []. split; [now rewrite app_nil_r|constructor].
    + destruct (ClearFacts.states_at_trace env f pre (Page.ui w) Hn) as (s' & Hs & Hc).
      exists (pre ++ Page.processImage_trace env f). split; [exact Hl|].
      rewrite Hs. constructor; [exact Hc|constructor].
Qed.

(** C8.  With an empty prediction list [getOverallResult] returns null, so
    the overall result is absent and no verdict badge is rendered; a badge
    is rendered only when the list is non-empty.  A successful response
    without a [predictions] field is stored as the empty list, and so gives
    no verdict. *)
Theorem C8_no_verdict_without_predictions :
  getOverallResult [] = None
  /\ (forall s, Page.predictions s = [] ->
        Page.overallResult s = None /\ Page.verdict_badge s = None)
  /\ (forall s v, Page.verdict_badge s = Some v ->
        Page.predictions s <> []
        /\ (v = "Defects Detected" \/ v = "No Defects"))
  /\ (forall env file w res,
        Page.axios_post env "/api/model" [("file", file)] = Page.Resolved res ->
        data_predictions (Page.data res) = None ->
        Page.predictions (Page.ui (Page.exec (Page.processImage env file) w)) = []
        /\ Page.overallResult (Page.ui (Page.exec (Page.processImage env file) w)) = None
        /\ Page.verdict_badge (Page.ui (Page.exec (Page.processImage env file) w)) = None).
Proof.
  assert (Hnil : forall s, Page.predictions s = [] ->
            Page.overallResult s = None /\ Page.verdict_badge s = None).
  { intros s Hs. unfold Page.verdict_badge, Page.overallResult. rewrite Hs.
    split; [reflexivity|]. destruct (Page.results_shown s); reflexivity. }
  split; [reflexivity|]. split; [exact Hnil|]. split.
  - intros s v Hv. apply verdict_badge_overall in Hv.
    unfold Page.overallResult in Hv.
    destruct (Page.predictions s) as [|p l]; [discriminate|].
    split; [discriminate|]. rewrite getOverallResult_cons in Hv.
    destruct (existsb isBad (p :: l)); injection Hv as <-; auto.
  - intros env file w res Hres Hnone.
    assert (Hp : Page.predictions (Page.ui (Page.exec (Page.processImage env file) w)) = []).
    { rewrite (after_success env file w res Hres). cbn [Page.predictions].
      now rewrite Hnone. }
    split; [exact Hp|]. apply Hnil, Hp.
Qed.

(** A response [{}] with status 200: nothing is stored and no verdict is
    shown. *)
Lemma C8_no_verdict_witness :
  Page.axios_post (Samples.browser (Samples.answers None) Samples.no_camera)
                  "/api/model" [("file", Samples.weld_jpg)]
  = Page.Resolved {| Page.status := 200;
                     Page.data := {| data_predictions := None; data_error := None |} |}
  /\ Page.verdict_badge
       (Page.ui (Page.exec
          (Page.processImage (Samples.browser (Samples.answers None) Samples.no_camera)
                             Samples.weld_jpg)
          Samples.initial_world))
     = None.
Proof.
  split; [reflexivity|].
  destruct C8_no_verdict_without_predictions as (_ & _ & _ & H).
  exact (proj2 (proj2 (H (Samples.browser (Samples.answers None) Samples.no_camera)
                         Samples.weld_jpg Samples.initial_world _ eq_refl eq_refl))).
Defined.

(** ** The proxy route *)

Module RouteFacts.
Import Route.

Ltac run_route :=
  unfold POST, try_catch, fetch, await, throw, console_error,
    mbind, P_bind, mret, P_ret in *;
  cbn [fst snd app] in *.

Section Runs.
Context {Json : Type}.
Variable fetch_outcome : FetchCall -> Outcome (UpstreamResponse Json).
Variable request : IncomingRequest.

Lemma NextResponse_json_accepted (b : Body Json) (s : Z) :
  status_refused s = None ->
  NextResponse_json b (Some s) = ([], inr {| res_status := s; res_body := b |}).
Proof. intros H. unfold NextResponse_json. now rewrite H. Qed.

Lemma NextResponse_json_refused (b : Body Json) (s : Z) (e : Exn) :
  status_refused s = Some e ->
  NextResponse_json b (Some s) = ([], inl e).
Proof. intros H. unfold NextResponse_json. now rewrite H. Qed.

Lemma NextResponse_json_500 (b : Body Json) :
  NextResponse_json b (Some 500%Z) = ([], inr {| res_status := 500; res_body := b |}).
Proof. reflexivity. Qed.

Lemma NextResponse_json_default (b : Body Json) :
  NextResponse_json b None = ([], inr {| res_status := 200; res_body := b |}).
Proof. reflexivity. Qed.

(** A status that is not ok and is refused is below 200, above 599 or
    304; a refused status is never 500. *)
Lemma status_refused_message (s : Z) (e : Exn) :
  status_refused s = Some e -> JsString.truthy (message e) = true.
Proof.
  unfold status_refused.
  destruct ((s <? 200)%Z || (599 <? s)%Z); [intros [= <-]; reflexivity|].
  destruct (null_body_status s); [intros [= <-]; reflexivity|discriminate].
Qed.


(** The handler run, case by case. *)
Lemma POST_formData_throws (e : Exn) :
  req_formData request = inl e ->
  POST fetch_outcome request
  = ([EvConsoleError "Error in API route:" e],
     inr {| res_status := 500; res_body := ErrorBody (message_or_default e) |}).
Proof. intros H. run_route. rewrite H, NextResponse_json_500. reflexivity. Qed.

Lemma POST_fetch_throws (fd : FormData) (e : Exn) :
  req_formData request = inr fd ->
  fetch_outcome (forward_call fd) = inl e ->
  POST fetch_outcome request
  = ([EvFetch (forward_call fd); EvConsoleError "Error in API route:" e],
     inr {| res_status := 500; res_body := ErrorBody (message_or_default e) |}).
Proof.
  intros H1 H2. run_route. rewrite H1. fold (forward_call fd).
  rewrite H2, NextResponse_json_500. reflexivity.
Qed.

Lemma POST_not_ok (fd : FormData) (r : UpstreamResponse Json) :
  req_formData request = inr fd ->
  fetch_outcome (forward_call fd) = inr r ->
  response_ok r = false ->
  status_refused (up_status r) = None ->
  POST fetch_outcome request
  = ([EvFetch (forward_call fd)],
     inr {| res_status := up_status r;
            res_body := ErrorBody ("API responded with status: "
                                   +:+ pretty (up_status r)) |}).
Proof.
  intros H1 H2 H3 H4. run_route. rewrite H1. fold (forward_call fd).
  rewrite H2, H3. cbn [negb]. rewrite (NextResponse_json_accepted _ _ H4).
  reflexivity.
Qed.

Lemma POST_status_refused (fd : FormData) (r : UpstreamResponse Json) (e : Exn) :
  req_formData request = inr fd ->
  fetch_outcome (forward_call fd) = inr r ->
  response_ok r = false ->
  status_refused (up_status r) = Some e ->
  POST fetch_outcome request
  = ([EvFetch (forward_call fd); EvConsoleError "Error in API route:" e],
     inr {| res_status := 500; res_body := ErrorBody (message_or_default e) |}).
Proof.
  intros H1 H2 H3 H4. run_route. rewrite H1. fold (forward_call fd).
  rewrite H2, H3. cbn [negb]. rewrite (NextResponse_json_refused _ _ _ H4).
  rewrite NextResponse_json_500. reflexivity.
Qed.

Lemma POST_json_throws (fd : FormData) (r : UpstreamResponse Json) (e : Exn) :
  req_formData request = inr fd ->
  fetch_outcome (forward_call fd) = inr r ->
  response_ok r = true ->
  up_json r = inl e ->
  POST fetch_outcome request
  = ([EvFetch (forward_call fd); EvConsoleError "Error in API route:" e],
     inr {| res_status := 500; res_body := ErrorBody (message_or_default e) |}).
Proof.
  intros H1 H2 H3 H4. run_route. rewrite H1. fold (forward_call fd).
  rewrite H2, H3. cbn [negb]. rewrite H4, NextResponse_json_500. reflexivity.
Qed.

Lemma POST_relays (fd : FormData) (r : UpstreamResponse Json) (d : Json) :
  req_formData request = inr fd ->
  fetch_outcome (forward_call fd) = inr r ->
  response_ok r = true ->
  up_json r = inr d ->
  POST fetch_outcome request
  = ([EvFetch (forward_call fd)],
     inr {| res_status := 200; res_body := JsonBody d |}).
Proof.
  intros H1 H2 H3 H4. run_route. rewrite H1. fold (forward_call fd).
  rewrite H2, H3. cbn [negb]. rewrite H4, NextResponse_json_default. reflexivity.
Qed.


End Runs.

End RouteFacts.







(** ** The page behind the route *)

Lemma error_text_truthy (err : Page.AxiosError) :
  JsString.truthy (Page.error_text err) = true.
Proof.
  unfold Page.error_text.
  destruct (JsStringFacts.truthy_or_else
              (JsString.or_else
                 match Page.response err with
                 | Some r => data_error (Page.data r)
                 | None => None
                 end (Some (Page.err_message err)))
              "Failed to analyze image" eq_refl) as (s & -> & Hs).
  exact Hs.
Qed.

(** What axios settles to when the inference service answers with a
    status that is not ok. *)
Lemma axios_via_route_not_ok
    (boundary : string)
    (upstream : Route.FetchCall -> Outcome (Route.UpstreamResponse EndToEnd.Json))
    (fd : FormData) (r : Route.UpstreamResponse EndToEnd.Json) :
  upstream (Route.forward_call fd) = inr r ->
  Route.response_ok r = false ->
  Route.status_refused (Route.up_status r) = None ->
  EndToEnd.axios_via_route boundary upstream "/api/model" fd
  = Page.Rejected
      {| Page.response :=
           Some {| Page.status := Route.up_status r;
                   Page.data :=
                     {| data_predictions := None;
                        data_error := Some ("API responded with status: "
                                            +:+ pretty (Route.up_status r)) |} |};
         Page.err_message := "Request failed with status code "
                             +:+ pretty (Route.up_status r) |}.
Proof.
  intros H2 H3 H4. unfold EndToEnd.axios_via_route.
  change (String.eqb "/api/model" "/api/model") with true. cbv iota.
  rewrite (RouteFacts.POST_not_ok upstream (Route.multipart_request boundary fd)
             fd r eq_refl H2 H3 H4).
  cbn [snd]. unfold EndToEnd.settle. cbn [Route.res_status Route.res_body EndToEnd.as_json].
  unfold Route.response_ok in H3.
  replace (Route.up_status r <? 300)%Z with (Route.up_status r <=? 299)%Z
    by (destruct (Z.leb_spec (Route.up_status r) 299), (Z.ltb_spec (Route.up_status r) 300);
        lia || reflexivity).
  rewrite H3. reflexivity.
Qed.

(** The whole path on the example of the specification: the service
    returns one prediction of class "bad_weld", the route relays it, and
    the page shows "Defects Detected". *)
Example bad_weld_through_the_route :
  let env := Samples.browser
               (EndToEnd.axios_via_route "AaB03x" (Samples.upstream_predicts [Samples.bad_weld]))
               Samples.no_camera in
  let s := Page.ui (Page.exec (Page.processImage env Samples.weld_jpg)
                              Samples.initial_world) in
  Page.predictions s = [Samples.bad_weld]
  /\ Page.verdict_badge s = Some "Defects Detected"
  /\ Page.isLoading s = false
  /\ Page.error s = None.
Proof. cbv zeta. repeat split; vm_compute; reflexivity. Qed.

(** C5 (as amended).  When the request of an analysis fails, the routine
    stores a non-empty error message (the [error] field of the response if
    there is one, else the client's message, else "Failed to analyze
    image"), clears the loading flag and leaves the prediction list empty.
    When the failure is a status of the inference service that is not ok
    and that the route relays (it answers the statuses its response cannot
    carry, 304 among them, with 500), the stored message is "API responded
    with status: N" and so contains the upstream status code. *)
Theorem C5_failed_analysis
    (env : Page.Env) (file : File) (w : Page.World) (err : Page.AxiosError) :
  Page.axios_post env "/api/model" [("file", file)] = Page.Rejected err ->
  let s := Page.ui (Page.exec (Page.processImage env file) w) in
  Page.error s = Some (Page.error_text err)
  /\ JsString.truthy (Page.error_text err) = true
  /\ Page.isLoading s = false
  /\ Page.predictions s = []
  /\ (forall boundary upstream r,
        Page.axios_post env = EndToEnd.axios_via_route boundary upstream ->
        upstream (Route.forward_call [("file", file)]) = inr r ->
        Route.response_ok r = false ->
        Route.status_refused (Route.up_status r) = None ->
        Page.error s
        = Some ("API responded with status: " +:+ pretty (Route.up_status r))
        /\ JsString.includes
             ("API responded with status: " +:+ pretty (Route.up_status r))
             (pretty (Route.up_status r)) = true).
Proof.
  intros H s. subst s. rewrite (after_failure env file w err H).
  cbn [Page.error Page.isLoading Page.predictions].
  split; [reflexivity|]. split; [apply error_text_truthy|].
  split; [reflexivity|]. split; [reflexivity|].
  intros boundary upstream r Henv Hup Hok Hcarry.
  rewrite Henv, (axios_via_route_not_ok boundary upstream _ r Hup Hok Hcarry) in H.
  injection H as <-. split; [reflexivity|].
  apply JsStringFacts.includes_suffix.
Qed.

(** The example of the specification: an upstream 503. *)
Lemma C5_failed_analysis_witness :
  Page.axios_post
    (Samples.browser (EndToEnd.axios_via_route "AaB03x" (Samples.upstream_status 503))
                     Samples.no_camera)
    "/api/model" [("file", Samples.weld_jpg)]
  = Page.Rejected
      {| Page.response :=
           Some {| Page.status := 503;
                   Page.data := {| data_predictions := None;
                                   data_error := Some "API responded with status: 503" |} |};
         Page.err_message := "Request failed with status code 503" |}
  /\ Page.error
       (Page.ui (Page.exec
          (Page.processImage
             (Samples.browser (EndToEnd.axios_via_route "AaB03x" (Samples.upstream_status 503))
                              Samples.no_camera)
             Samples.weld_jpg)
          Samples.initial_world))
     = Some "API responded with status: 503"
  /\ JsString.includes "API responded with status: 503" "503" = true.
Proof.
  split; [reflexivity|].
  pose proof (C5_failed_analysis
                (Samples.browser (EndToEnd.axios_via_route "AaB03x" (Samples.upstream_status 503))
                                 Samples.no_camera)
                Samples.weld_jpg Samples.initial_world _ eq_refl) as H.
  cbv zeta in H. destruct H as (_ & _ & _ & _ & H).
  exact (H "AaB03x" (Samples.upstream_status 503) _ eq_refl eq_refl eq_refl eq_refl).
Defined.

(** C5 (as stated) fails when the failure is not a status of the
    inference service: the service answers 200 with a body that is not
    JSON, the route answers 500 with the parser's message, and the stored
    message contains neither status code. *)
Lemma C5_counterexample_no_status_in_message :
  let env := Samples.browser (EndToEnd.axios_via_route "AaB03x" Samples.upstream_garbled)
                             Samples.no_camera in
  let s := Page.ui (Page.exec (Page.processImage env Samples.weld_jpg)
                              Samples.initial_world) in
  (exists err,
      Page.axios_post env "/api/model" [("file", Samples.weld_jpg)] = Page.Rejected err
      /\ option_map Page.status (Page.response err) = Some 500)
  /\ Page.error s = Some "Unexpected end of JSON input"
  /\ JsString.includes "Unexpected end of JSON input" "200" = false
  /\ JsString.includes "Unexpected end of JSON input" "500" = false.
Proof.
  cbv zeta. split; [eexists; split; reflexivity|].
  split; [|split; reflexivity].
  vm_compute. reflexivity.
Qed.

(** * Further properties *)

(** ** The route: calls, statuses and logging *)

Lemma message_or_default_truthy (e : Exn) :
  JsString.truthy (Route.message_or_default e) = true.
Proof.
  unfold Route.message_or_default.
  destruct (JsString.truthy (message e)) eqn:H; [exact H|reflexivity].
Qed.

Lemma not_ok_not_2xx {Json : Type} (r : Route.UpstreamResponse Json) :
  Route.response_ok r = false -> ~ (200 <= Route.up_status r <= 299)%Z.
Proof.
  unfold Route.response_ok. intros H [H1 H2].
  apply Z.leb_le in H1. apply Z.leb_le in H2. rewrite H1, H2 in H. discriminate.
Qed.

(** X1.  The handler calls [fetch] exactly once when the form of the
    request can be read (a POST of that form to the fixed URL) and not at
    all when [request.formData()] throws; there is no second attempt,
    whatever the first one settles to. *)
Theorem X1_one_upstream_call {Json : Type}
    (fetch_outcome : Route.FetchCall -> Outcome (Route.UpstreamResponse Json))
    (request : Route.IncomingRequest) :
  Route.fetch_calls (Route.POST fetch_outcome request)
  = match Route.req_formData request with
    | inl _ => []
    | inr fd => [Route.forward_call fd]
    end.
Proof.
  destruct (Route.req_formData request) as [e|fd] eqn:H1.
  { now rewrite (RouteFacts.POST_formData_throws _ _ e H1). }
  destruct (fetch_outcome (Route.forward_call fd)) as [e|r] eqn:H2.
  { now rewrite (RouteFacts.POST_fetch_throws _ _ fd e H1 H2). }
  destruct (Route.response_ok r) eqn:H3.
  - destruct (Route.up_json r) as [e|d] eqn:H4.
    + now rewrite (RouteFacts.POST_json_throws _ _ fd r e H1 H2 H3 H4).
    + now rewrite (RouteFacts.POST_relays _ _ fd r d H1 H2 H3 H4).
  - destruct (Route.status_refused (Route.up_status r)) as [e|] eqn:H4.
    + now rewrite (RouteFacts.POST_status_refused _ _ fd r e H1 H2 H3 H4).
    + now rewrite (RouteFacts.POST_not_ok _ _ fd r H1 H2 H3 H4).
Qed.

(** X2.  In a response of the handler, upstream data always comes with
    status 200 and only when the upstream response was ok and parsed; an
    error body never comes with a status in 200-299 and its message is
    never empty. *)
Theorem X2_body_matches_status {Json : Type}
    (fetch_outcome : Route.FetchCall -> Outcome (Route.UpstreamResponse Json))
    (request : Route.IncomingRequest) (resp : Route.NextResponse Json) :
  snd (Route.POST fetch_outcome request) = inr resp ->
  match Route.res_body resp with
  | Route.JsonBody d =>
      Route.res_status resp = 200%Z
      /\ exists fd r,
           Route.req_formData request = inr fd
           /\ fetch_outcome (Route.forward_call fd) = inr r
           /\ Route.response_ok r = true
           /\ Route.up_json r = inr d
  | Route.ErrorBody m =>
      ~ (200 <= Route.res_status resp <= 299)%Z
      /\ JsString.truthy m = true
  end.
Proof.
  assert (H500 : forall e,
    ~ (200 <= 500 <= 299)%Z /\ JsString.truthy (Route.message_or_default e) = true).
  { intros e. split; [lia|apply message_or_default_truthy]. }
  destruct (Route.req_formData request) as [e|fd] eqn:H1.
  { rewrite (RouteFacts.POST_formData_throws _ _ e H1). intros [= <-]. apply H500. }
  destruct (fetch_outcome (Route.forward_call fd)) as [e|r] eqn:H2.
  { rewrite (RouteFacts.POST_fetch_throws _ _ fd e H1 H2). intros [= <-]. apply H500. }
  destruct (Route.response_ok r) eqn:H3.
  - destruct (Route.up_json r) as [e|d] eqn:H4.
    + rewrite (RouteFacts.POST_json_throws _ _ fd r e H1 H2 H3 H4).
      intros [= <-]. apply H500.
    + rewrite (RouteFacts.POST_relays _ _ fd r d H1 H2 H3 H4).
      intros [= <-]. split; [reflexivity|]. exists fd, r. auto.
  - destruct (Route.status_refused (Route.up_status r)) as [e|] eqn:H4.
    + rewrite (RouteFacts.POST_status_refused _ _ fd r e H1 H2 H3 H4).
      intros [= <-]. apply H500.
    + rewrite (RouteFacts.POST_not_ok _ _ fd r H1 H2 H3 H4). intros [= <-].
      split; [exact (not_ok_not_2xx r H3)|reflexivity].
Qed.

(** An upstream 404: the error body travels with status 404. *)
Lemma X2_body_matches_status_witness :
  snd (Route.POST (Samples.upstream_status 404)
         (Route.multipart_request "AaB03x" [("file", Samples.weld_jpg)]))
  = inr {| Route.res_status := 404;
           Route.res_body := Route.ErrorBody "API responded with status: 404" |}
  /\ ~ (200 <= 404 <= 299)%Z.
Proof.
  split; [reflexivity|].
  exact (proj1 (X2_body_matches_status (Samples.upstream_status 404)
                  (Route.multipart_request "AaB03x" [("file", Samples.weld_jpg)])
                  {| Route.res_status := 404;
                     Route.res_body := Route.ErrorBody "API responded with status: 404" |}
                  eq_refl)).
Defined.

(** X3.  The handler writes to the error console exactly when something
    was thrown inside its [try]: by [request.formData()], by [fetch], by
    [response.json()] on an ok response, or by [NextResponse.json]
    refusing the status of a response that is not ok.  A not-ok upstream
    response whose status the route can relay (a 500 of the inference
    service included) is relayed without logging. *)
Theorem X3_logs_iff_thrown {Json : Type}
    (fetch_outcome : Route.FetchCall -> Outcome (Route.UpstreamResponse Json))
    (request : Route.IncomingRequest) :
  ((exists label e, In (Route.EvConsoleError label e)
                       (fst (Route.POST fetch_outcome request)))
   <-> exists e, Route.thrown_while_forwarding fetch_outcome request e)
  /\ (forall fd r,
        Route.req_formData request = inr fd ->
        fetch_outcome (Route.forward_call fd) = inr r ->
        Route.response_ok r = false ->
        Route.status_refused (Route.up_status r) = None ->
        fst (Route.POST fetch_outcome request) = [Route.EvFetch (Route.forward_call fd)])
  /\ (forall e,
        Route.thrown_while_forwarding fetch_outcome request e ->
        In (Route.EvConsoleError "Error in API route:" e)
           (fst (Route.POST fetch_outcome request))).
Proof.
  split; [|split].
  2: { intros fd r H1 H2 H3 H4. now rewrite (RouteFacts.POST_not_ok _ _ fd r H1 H2 H3 H4). }
  2: { intros e [H1|[(fd & H1 & H2)|[(fd & r & H1 & H2 & H3 & H4)|(fd & r & H1 & H2 & H3 & H4)]]].
       - rewrite (RouteFacts.POST_formData_throws _ _ e H1). now left.
       - rewrite (RouteFacts.POST_fetch_throws _ _ fd e H1 H2). right. now left.
       - rewrite (RouteFacts.POST_json_throws _ _ fd r e H1 H2 H3 H4). right. now left.
       - rewrite (RouteFacts.POST_status_refused _ _ fd r e H1 H2 H3 H4). right. now left. }
  unfold Route.thrown_while_forwarding.
  destruct (Route.req_formData request) as [e|fd] eqn:H1.
  { rewrite (RouteFacts.POST_formData_throws _ _ e H1). split.
    - intros _. exists e. now left.
    - intros _. exists "Error in API route:", e. now left. }
  destruct (fetch_outcome (Route.forward_call fd)) as [e|r] eqn:H2.
  { rewrite (RouteFacts.POST_fetch_throws _ _ fd e H1 H2). split.
    - intros _. exists e. right. left. exists fd. auto.
    - intros _. exists "Error in API route:", e. right. now left. }
  destruct (Route.response_ok r) eqn:H3.
  - destruct (Route.up_json r) as [e|d] eqn:H4.
    + rewrite (RouteFacts.POST_json_throws _ _ fd r e H1 H2 H3 H4). split.
      * intros _. exists e. right. right. left. exists fd, r. auto.
      * intros _. exists "Error in API route:", e. right. now left.
    + rewrite (RouteFacts.POST_relays _ _ fd r d H1 H2 H3 H4). split.
      * intros (l & e & [Hin|[]]). discriminate.
      * intros (e & [H|[(fd' & H & H')|[(fd' & r' & Ha & Hb & Hc & Hd)
                                        |(fd' & r' & Ha & Hb & Hc & Hd)]]]).
        -- discriminate.
        -- injection H as <-. rewrite H2 in H'. discriminate.
        -- injection Ha as <-. rewrite H2 in Hb. injection Hb as <-.
           rewrite H4 in Hd. discriminate.
        -- injection Ha as <-. rewrite H2 in Hb. injection Hb as <-.
           rewrite H3 in Hc. discriminate.
  - destruct (Route.status_refused (Route.up_status r)) as [e|] eqn:H4.
    + rewrite (RouteFacts.POST_status_refused _ _ fd r e H1 H2 H3 H4). split.
      * intros _. exists e. right. right. right. exists fd, r. auto.
      * intros _. exists "Error in API route:", e. right. now left.
    + rewrite (RouteFacts.POST_not_ok _ _ fd r H1 H2 H3 H4). split.
      * intros (l & e & [Hin|[]]). discriminate.
      * intros (e & [H|[(fd' & H & H')|[(fd' & r' & Ha & Hb & Hc & Hd)
                                        |(fd' & r' & Ha & Hb & Hc & Hd)]]]).
        -- discriminate.
        -- injection H as <-. rewrite H2 in H'. discriminate.
        -- injection Ha as <-. rewrite H2 in Hb. injection Hb as <-.
           rewrite H3 in Hc. discriminate.
        -- injection Ha as <-. rewrite H2 in Hb. injection Hb as <-.
           rewrite H4 in Hd. discriminate.
Qed.

(** ** The page behind the route, in full *)

Lemma error_text_of_response (res : Page.AxiosResponse) (fallback m : string) :
  data_error (Page.data res) = Some m ->
  JsString.truthy m = true ->
  Page.error_text {| Page.response := Some res; Page.err_message := fallback |} = m.
Proof.
  intros Hm Ht. unfold Page.error_text. cbn [Page.response Page.err_message].
  rewrite Hm. unfold JsString.or_else. rewrite Ht. cbn. now rewrite Ht.
Qed.

Lemma axios_via_route_settles
    (boundary : string)
    (upstream : Route.FetchCall -> Outcome (Route.UpstreamResponse EndToEnd.Json))
    (fd : FormData) (events : list Route.RouteEvent)
    (resp : Route.NextResponse EndToEnd.Json) :
  Route.POST upstream (Route.multipart_request boundary fd) = (events, inr resp) ->
  EndToEnd.axios_via_route boundary upstream "/api/model" fd = EndToEnd.settle resp.
Proof.
  intros H. unfold EndToEnd.axios_via_route.
  change (String.eqb "/api/model" "/api/model") with true. cbv iota.
  now rewrite H.
Qed.

(** X4.  With the route between the page and the inference service, an
    analysis ends in one of these ways.  The service answered ok with a
    JSON value other than [null]: the predictions of that JSON are stored
    (none if the field is absent) and no error.  It answered ok with
    [null]: no predictions, and the message of the error thrown by reading
    [predictions] of [null].  It answered ok and parsing threw, or the
    call threw: no predictions and the thrown message (or "Internal server
    error").  It answered not ok with a status the route relays: no
    predictions and the text "API responded with status: N".  It answered
    not ok with a status [NextResponse.json] refuses (304, say): no
    predictions and the message of that refusal. *)
Theorem X4_analysis_through_route
    (env : Page.Env) (file : File) (w : Page.World) (boundary : string)
    (upstream : Route.FetchCall -> Outcome (Route.UpstreamResponse EndToEnd.Json)) :
  Page.axios_post env = EndToEnd.axios_via_route boundary upstream ->
  let s := Page.ui (Page.exec (Page.processImage env file) w) in
  match upstream (Route.forward_call [("file", file)]) with
  | inr r =>
      if Route.response_ok r then
        match Route.up_json r with
        | inr (Some d) =>
            Page.predictions s = match data_predictions d with
                                 | Some l => l
                                 | None => []
                                 end
            /\ Page.error s = None
        | inr None =>
            Page.predictions s = []
            /\ Page.error s
               = Some "Cannot read properties of null (reading 'predictions')"
        | inl e =>
            Page.predictions s = []
            /\ Page.error s = Some (Route.message_or_default e)
        end
      else
        match Route.status_refused (Route.up_status r) with
        | None =>
            Page.predictions s = []
            /\ Page.error s = Some ("API responded with status: "
                                    +:+ pretty (Route.up_status r))
        | Some e =>
            Page.predictions s = []
            /\ Page.error s = Some (Route.message_or_default e)
        end
  | inl e =>
      Page.predictions s = []
      /\ Page.error s = Some (Route.message_or_default e)
  end.
Proof.
  intros Henv s. subst s.
  assert (Hpost : Page.axios_post env "/api/model" [("file", file)]
                  = EndToEnd.axios_via_route boundary upstream "/api/model" [("file", file)])
    by now rewrite Henv.
  assert (H500 : forall events e,
    Route.POST upstream (Route.multipart_request boundary [("file", file)])
    = (events, inr {| Route.res_status := 500;
                      Route.res_body := Route.ErrorBody (Route.message_or_default e) |}) ->
    Page.predictions (Page.ui (Page.exec (Page.processImage env file) w)) = []
    /\ Page.error (Page.ui (Page.exec (Page.processImage env file) w))
       = Some (Route.message_or_default e)).
  { intros events e HP.
    rewrite (axios_via_route_settles _ _ _ _ _ HP) in Hpost.
    unfold EndToEnd.settle in Hpost.
    cbn [Route.res_status Route.res_body EndToEnd.as_json] in Hpost.
    change ((200 <=? 500)%Z && (500 <? 300)%Z) with false in Hpost. cbv iota in Hpost.
    rewrite (after_failure env file w _ Hpost).
    cbn [Page.predictions Page.error]. split; [reflexivity|]. f_equal.
    apply error_text_of_response; [reflexivity|apply message_or_default_truthy]. }
  destruct (upstream (Route.forward_call [("file", file)])) as [e|r] eqn:H2.
  { exact (H500 _ e (RouteFacts.POST_fetch_throws upstream
                       (Route.multipart_request boundary [("file", file)])
                       _ e eq_refl H2)). }
  destruct (Route.response_ok r) eqn:H3.
  - destruct (Route.up_json r) as [e|[d|]] eqn:H4.
    + exact (H500 _ e (RouteFacts.POST_json_throws upstream
                         (Route.multipart_request boundary [("file", file)])
                         _ r e eq_refl H2 H3 H4)).
    + rewrite (axios_via_route_settles _ _ _ _ _
                 (RouteFacts.POST_relays upstream
                    (Route.multipart_request boundary [("file", file)])
                    _ r (Some d) eq_refl H2 H3 H4)) in Hpost.
      rewrite (after_success env file w _ Hpost). split; reflexivity.
    + rewrite (axios_via_route_settles _ _ _ _ _
                 (RouteFacts.POST_relays upstream
                    (Route.multipart_request boundary [("file", file)])
                    _ r None eq_refl H2 H3 H4)) in Hpost.
      rewrite (after_unreadable env file w _ _ Hpost). split; reflexivity.
  - destruct (Route.status_refused (Route.up_status r)) as [e|] eqn:H4.
    + exact (H500 _ e (RouteFacts.POST_status_refused upstream
                         (Route.multipart_request boundary [("file", file)])
                         _ r e eq_refl H2 H3 H4)).
    + rewrite (axios_via_route_not_ok boundary upstream _ r H2 H3 H4) in Hpost.
      rewrite (after_failure env file w _ Hpost).
      cbn [Page.predictions Page.error]. split; reflexivity.
Qed.

(** The service answers 200 with the JSON value [null]: the page shows
    the message of the error thrown by reading [predictions] of it. *)
Lemma X4_analysis_through_route_witness :
  Page.axios_post
    (Samples.browser (EndToEnd.axios_via_route "AaB03x" Samples.upstream_null)
                     Samples.no_camera)
  = EndToEnd.axios_via_route "AaB03x" Samples.upstream_null
  /\ Page.error
       (Page.ui (Page.exec
          (Page.processImage
             (Samples.browser (EndToEnd.axios_via_route "AaB03x" Samples.upstream_null)
                              Samples.no_camera)
             Samples.weld_jpg)
          Samples.initial_world))
     = Some "Cannot read properties of null (reading 'predictions')".
Proof.
  split; [reflexivity|].
  exact (proj2 (X4_analysis_through_route
                  (Samples.browser (EndToEnd.axios_via_route "AaB03x" Samples.upstream_null)
                                   Samples.no_camera)
                  Samples.weld_jpg Samples.initial_world "AaB03x"
                  Samples.upstream_null eq_refl)).
Defined.

(** ** Upload and analysis *)

(** X5.  [handleFileUpload] without a file changes nothing.  With a file
    it first revokes the object URL of the current render, if that is a
    non-empty string, and then runs [processImage] on the file: what it
    adds to the log is that one revocation, if any, followed by the
    actions of the analysis, which begin by creating the new URL. *)
Theorem X5_upload_revokes_then_analyses
    (env : Page.Env) (rendered : Page.UIState) (file : File) (w : Page.World) :
  Page.exec (Page.handleFileUpload env rendered None) w = w
  /\ Page.log (Page.exec (Page.handleFileUpload env rendered (Some file)) w)
     = Page.log w
       ++ match Page.imageURL rendered with
          | Some u => if JsString.truthy u then [Page.EvRevokeObjectURL u] else []
          | None => []
          end
       ++ Page.processImage_trace env file
  /\ (exists rest,
        Page.processImage_trace env file = Page.EvCreateObjectURL file :: rest)
  /\ Page.ui (Page.exec (Page.handleFileUpload env rendered (Some file)) w)
     = Page.ui (Page.exec (Page.processImage env file) w).
Proof.
  split; [reflexivity|]. split; [|split].
  - unfold Page.handleFileUpload. rewrite PageFacts.exec_bind, PageFacts.processImage_run.
    cbn [Page.log].
    destruct (Page.imageURL rendered) as [u|]; [destruct (JsString.truthy u)|];
      PageFacts.run; rewrite <- ?app_assoc; reflexivity.
  - eexists. reflexivity.
  - unfold Page.handleFileUpload.
    rewrite PageFacts.exec_bind, !PageFacts.processImage_run. cbn [Page.ui].
    destruct (Page.imageURL rendered) as [u|]; [destruct (JsString.truthy u)|];
      reflexivity.
Qed.

Module DuringFacts.
Import Page PageFacts.

(** The run of [processImage] up to the request. *)
Lemma processImage_start_run (env : Env) (file : File) (w : World) :
  exec (processImage_start env file) w
  = {| ui := replay (start_trace env file) (ui w);
       videoRef := videoRef w; canvasRef := canvasRef w;
       live := live w; gum_calls := gum_calls w;
       log := log w ++ start_trace env file |}.
Proof.
  unfold processImage_start, start_trace. run.
  repeat rewrite <- app_assoc. reflexivity.
Qed.

(** The run of [processImage] from the moment the request has settled. *)
Lemma processImage_settle_run (settled : AxiosOutcome) (w : World) :
  exec (processImage_settle settled) w
  = {| ui := replay (settle_trace settled) (ui w);
       videoRef := videoRef w; canvasRef := canvasRef w;
       live := live w; gum_calls := gum_calls w;
       log := log w ++ settle_trace settled |}.
Proof.
  unfold processImage_settle, settle_trace.
  destruct settled as [res|err|st thrown]; run;
    repeat rewrite <- app_assoc; reflexivity.
Qed.

Lemma processImage_during_run (env : Env) (meanwhile : M unit) (file : File) (w : World) :
  exec (processImage_during env meanwhile file) w
  = exec (processImage_settle (axios_post env "/api/model" [("file", file)]))
      (exec meanwhile (exec (processImage_start env file) w)).
Proof.
  unfold processImage_during. rewrite !exec_bind. reflexivity.
Qed.

Lemma processImage_trace_split (env : Env) (file : File) :
  processImage_trace env file
  = start_trace env file ++ settle_trace (axios_post env "/api/model" [("file", file)]).
Proof.
  unfold processImage_trace, start_trace, settle_trace.
  destruct (axios_post env "/api/model" [("file", file)]); reflexivity.
Qed.

(** With nothing running while the request is awaited, the run is that
    of [processImage]. *)
Lemma processImage_during_skip (env : Env) (file : File) (w : World) :
  exec (processImage_during env skip file) w = exec (processImage env file) w.
Proof.
  rewrite processImage_during_run, processImage_run, processImage_settle_run.
  change (exec skip ?x) with x.
  rewrite processImage_start_run, processImage_trace_split.
  cbn [ui videoRef canvasRef live gum_calls log].
  rewrite replay_app, app_assoc. reflexivity.
Qed.

End DuringFacts.

(** X6.  A run of [processImage] in which any code [meanwhile] runs while
    the request is awaited.  Up to the request the routine stores the new
    image URL, clears predictions, dimensions and error and sets the
    loading and scan flags, touching nothing else.  Once the request has
    settled it writes the predictions (fulfilled with a body that can be
    read) or the error (in the two other cases), sets the loading flag to
    false and schedules the reset of the scan flag 1000 ms later as its
    last action; the image URL, the dimensions, the scan flag, the camera
    flag, the facing mode, the refs, the live tracks and the count of
    camera requests are as [meanwhile] left them.  With nothing running
    meanwhile the run is that of [processImage]. *)
Theorem X6_processImage_outcome
    (env : Page.Env) (meanwhile : Page.M unit) (file : File) (w : Page.World) :
  let settled := Page.axios_post env "/api/model" [("file", file)] in
  let w1 := Page.exec (Page.processImage_start env file) w in
  let w2 := Page.exec meanwhile w1 in
  let w' := Page.exec (Page.processImage_during env meanwhile file) w in
  (Page.ui w1
   = {| Page.imageURL := Some (Page.createObjectURL env file);
        Page.predictions := []; Page.imageSize := None; Page.isLoading := true;
        Page.error := None;
        Page.isCameraActive := Page.isCameraActive (Page.ui w);
        Page.scanAnimation := true;
        Page.cameraFacingMode := Page.cameraFacingMode (Page.ui w) |}
   /\ Page.videoRef w1 = Page.videoRef w
   /\ Page.canvasRef w1 = Page.canvasRef w
   /\ Page.live w1 = Page.live w
   /\ Page.gum_calls w1 = Page.gum_calls w
   /\ Page.log w1 = Page.log w ++ Page.start_trace env file)
  /\ (Page.isLoading (Page.ui w') = false
      /\ Page.predictions (Page.ui w')
         = match settled with
           | Page.Resolved res => match data_predictions (Page.data res) with
                                  | Some l => l
                                  | None => []
                                  end
           | _ => Page.predictions (Page.ui w2)
           end
      /\ Page.error (Page.ui w')
         = match settled with
           | Page.Resolved _ => Page.error (Page.ui w2)
           | Page.Rejected err => Some (Page.error_text err)
           | Page.Unreadable _ thrown => Some (Page.error_text (Page.caught thrown))
           end
      /\ Page.log w' = Page.log w2 ++ Page.settle_trace settled
      /\ (exists earlier,
            Page.log w'
            = earlier ++ [Page.EvSetTimeout (Page.EvSetScanAnimation false) 1000]))
  /\ (Page.imageURL (Page.ui w') = Page.imageURL (Page.ui w2)
      /\ Page.imageSize (Page.ui w') = Page.imageSize (Page.ui w2)
      /\ Page.scanAnimation (Page.ui w') = Page.scanAnimation (Page.ui w2)
      /\ Page.isCameraActive (Page.ui w') = Page.isCameraActive (Page.ui w2)
      /\ Page.cameraFacingMode (Page.ui w') = Page.cameraFacingMode (Page.ui w2)
      /\ Page.videoRef w' = Page.videoRef w2
      /\ Page.canvasRef w' = Page.canvasRef w2
      /\ Page.live w' = Page.live w2
      /\ Page.gum_calls w' = Page.gum_calls w2)
  /\ Page.exec (Page.processImage_during env Page.skip file) w
     = Page.exec (Page.processImage env file) w.
Proof.
  intros settled w1 w2 w'.
  assert (Hw' : w' = Page.exec (Page.processImage_settle settled) w2)
    by apply DuringFacts.processImage_during_run.
  rewrite DuringFacts.processImage_settle_run in Hw'.
  split; [|split; [|split]].
  - subst w1. rewrite DuringFacts.processImage_start_run. repeat split.
  - rewrite Hw'. cbn [Page.ui Page.log]. unfold Page.settle_trace.
    destruct settled as [res|err|st thrown]; repeat split;
      match goal with
      | |- exists _, ?l ++ ?A ++ [?c; ?d] = _ =>
          exists (l ++ A ++ [c]); rewrite <- !app_assoc; reflexivity
      end.
  - rewrite Hw'. cbn [Page.ui Page.videoRef Page.canvasRef Page.live Page.gum_calls].
    unfold Page.settle_trace.
    destruct settled as [res|err|st thrown]; repeat split.
  - apply DuringFacts.processImage_during_skip.
Qed.

(** X7.  While the request of an analysis is in flight the page is in its
    loading state: at the moment the request is issued the loading and
    scan flags are true, the error is null and the image URL is already
    that of the new file. *)
Theorem X7_loading_while_in_flight (env : Page.Env) (file : File) (s : Page.UIState) :
  exists s',
    Page.states_at_requests (Page.processImage_trace env file) s = [s']
    /\ Page.isLoading s' = true
    /\ Page.scanAnimation s' = true
    /\ Page.error s' = None
    /\ Page.imageURL s' = Some (Page.createObjectURL env file)
    /\ Page.results_shown s' = false.
Proof.
  unfold Page.processImage_trace.
  destruct (Page.axios_post env "/api/model" [("file", file)]) as [res|err|st thrown];
    eexists; (split; [reflexivity|]); repeat split.
Qed.

(** ** Starting the camera *)

Module StartFacts.
Import Page PageFacts.

(** The run of [startCamera] on a mounted video element, by what the
    [getUserMedia] calls settle to. *)
Lemma startCamera_mounted (env : Env) (w : World) (el : VideoElement) :
  videoRef w = Some el ->
  let first := {| video := if isMobile env then Ideal environment else Plain user |} in
  let second := {| video := Plain user |} in
  let mounted v := Some {| srcObject := v; videoWidth := videoWidth el;
                           videoHeight := videoHeight el |} in
  exec (startCamera env) w
  = match getUserMedia env (gum_calls w) first with
    | inr tracks =>
        let stream := {| getTracks := tracks; requested := first |} in
        {| ui := apply_event (EvSetIsCameraActive true) (ui w);
           videoRef := mounted (Some stream);
           canvasRef := canvasRef w;
           live := live w ∪ list_to_set tracks;
           gum_calls := S (gum_calls w);
           log := log w ++ [EvSetIsCameraActive true; EvGetUserMedia first;
                            EvSetSrcObject (Some stream)] |}
    | inl _ =>
        let tried := [EvSetIsCameraActive true; EvGetUserMedia first;
                      EvConsoleError "Error accessing camera:";
                      EvGetUserMedia second] in
        match getUserMedia env (S (gum_calls w)) second with
        | inr tracks =>
            let stream := {| getTracks := tracks; requested := second |} in
            {| ui := apply_event (EvSetIsCameraActive true) (ui w);
               videoRef := mounted (Some stream);
               canvasRef := canvasRef w;
               live := live w ∪ list_to_set tracks;
               gum_calls := S (S (gum_calls w));
               log := log w ++ tried ++ [EvSetSrcObject (Some stream)] |}
        | inl _ =>
            let failed :=
              tried ++ [EvConsoleError "Fallback camera also failed:";
                        EvSetError (Some "Could not access camera. Please check permissions and ensure your device has a camera.");
                        EvSetIsCameraActive false] in
            {| ui := replay failed (ui w);
               videoRef := Some el;
               canvasRef := canvasRef w;
               live := live w;
               gum_calls := S (S (gum_calls w));
               log := log w ++ failed |}
        end
    end.
Proof.
  intros Hv first second mounted. subst first second mounted.
  unfold startCamera. destruct w as [u v c l g lg]. run. subst v. run.
  destruct (getUserMedia env g _) as [e|tracks]; run;
    [destruct (getUserMedia env (S g) _) as [e'|tracks]; run|];
    repeat rewrite <- app_assoc; reflexivity.
Qed.

End StartFacts.

Lemma isMobile_iff (env : Page.Env) :
  Page.isMobile env = true
  <-> exists p, In p ["iPhone"; "iPad"; "iPod"; "Android"]
                /\ JsString.contains_ci (Page.userAgent env) p.
Proof.
  unfold Page.isMobile. rewrite existsb_exists.
  split; intros (p & Hp & H); exists p; (split; [exact Hp|]);
    now apply JsStringFacts.includes_lower_iff.
Qed.

(** X8.  [startCamera] on a mounted video element asks first for the rear
    camera as a preference ([{ ideal: "environment" }]) when the user
    agent contains "iPhone", "iPad", "iPod" or "Android" in any letter
    case, and for the front camera otherwise.  When that first request is
    granted, its stream is attached, its tracks are live, the camera is
    active, the error is untouched and no second request is made. *)
Theorem X8_startCamera_first_choice
    (env : Page.Env) (w : Page.World) (el : Page.VideoElement)
    (tracks : list Page.Track) :
  let first := {| Page.video := if Page.isMobile env
                                then Page.Ideal Page.environment
                                else Page.Plain Page.user |} in
  let w' := Page.exec (Page.startCamera env) w in
  Page.videoRef w = Some el ->
  Page.getUserMedia env (Page.gum_calls w) first = inr tracks ->
  (Page.isMobile env = true
   <-> exists p, In p ["iPhone"; "iPad"; "iPod"; "Android"]
                 /\ JsString.contains_ci (Page.userAgent env) p)
  /\ Page.attached w' = Some {| Page.getTracks := tracks; Page.requested := first |}
  /\ Page.live w' = Page.live w ∪ list_to_set tracks
  /\ Page.isCameraActive (Page.ui w') = true
  /\ Page.error (Page.ui w') = Page.error (Page.ui w)
  /\ Page.gum_calls w' = S (Page.gum_calls w)
  /\ Page.log w' = Page.log w
                   ++ [Page.EvSetIsCameraActive true; Page.EvGetUserMedia first;
                       Page.EvSetSrcObject
                         (Some {| Page.getTracks := tracks; Page.requested := first |})].
Proof.
  intros first w' Hv Hfirst. subst w'.
  split; [apply isMobile_iff|].
  rewrite (StartFacts.startCamera_mounted env w el Hv). cbv zeta.
  fold first. rewrite Hfirst. repeat split.
Qed.

(** A phone with both cameras: the rear camera is asked for and attached. *)
Lemma X8_startCamera_witness :
  Page.videoRef MoreSamples.idle_camera_world
  = Some {| Page.srcObject := None; Page.videoWidth := 0; Page.videoHeight := 0 |}
  /\ Page.isMobile (MoreSamples.phone MoreSamples.both_cameras) = true
  /\ Page.attached_facing
       (Page.exec (Page.startCamera (MoreSamples.phone MoreSamples.both_cameras))
                  MoreSamples.idle_camera_world)
     = Some Page.environment.
Proof.
  split; [reflexivity|]. split; [reflexivity|].
  pose proof (X8_startCamera_first_choice
                (MoreSamples.phone MoreSamples.both_cameras)
                MoreSamples.idle_camera_world
                {| Page.srcObject := None; Page.videoWidth := 0; Page.videoHeight := 0 |}
                [20%nat] eq_refl eq_refl) as H.
  cbv zeta in H. destruct H as (_ & H & _).
  unfold Page.attached_facing. rewrite H. reflexivity.
Defined.

(** X9.  When the first request of [startCamera] fails, the second and
    last one asks for the front camera ([{ facingMode: "user" }]).  If it
    is granted, its stream is attached, the camera is active and no error
    is set.  If it fails too, the error is "Could not access camera.
    Please check permissions and ensure your device has a camera.", the
    camera-active flag is false again, and the video element and the live
    tracks are as before. *)
Theorem X9_startCamera_fallback
    (env : Page.Env) (w : Page.World) (el : Page.VideoElement) (e : Exn) :
  let first := {| Page.video := if Page.isMobile env
                                then Page.Ideal Page.environment
                                else Page.Plain Page.user |} in
  let second := {| Page.video := Page.Plain Page.user |} in
  let w' := Page.exec (Page.startCamera env) w in
  Page.videoRef w = Some el ->
  Page.getUserMedia env (Page.gum_calls w) first = inl e ->
  Page.gum_calls w' = S (S (Page.gum_calls w))
  /\ match Page.getUserMedia env (S (Page.gum_calls w)) second with
     | inr tracks =>
         Page.attached w' = Some {| Page.getTracks := tracks; Page.requested := second |}
         /\ Page.live w' = Page.live w ∪ list_to_set tracks
         /\ Page.isCameraActive (Page.ui w') = true
         /\ Page.error (Page.ui w') = Page.error (Page.ui w)
     | inl _ =>
         Page.error (Page.ui w')
         = Some "Could not access camera. Please check permissions and ensure your device has a camera."
         /\ Page.isCameraActive (Page.ui w') = false
         /\ Page.camera_view_shown (Page.ui w') = false
         /\ Page.videoRef w' = Page.videoRef w
         /\ Page.live w' = Page.live w
     end.
Proof.
  intros first second w' Hv Hfirst. subst w'.
  rewrite (StartFacts.startCamera_mounted env w el Hv). cbv zeta.
  fold first. fold second. rewrite Hfirst.
  destruct (Page.getUserMedia env (S (Page.gum_calls w)) second) as [e'|tracks].
  - repeat split. cbn [Page.videoRef]. now rewrite Hv.
  - repeat split.
Qed.

(** No camera at all: the error is shown and the camera card is closed. *)
Lemma X9_startCamera_witness :
  Page.videoRef MoreSamples.idle_camera_world
  = Some {| Page.srcObject := None; Page.videoWidth := 0; Page.videoHeight := 0 |}
  /\ Page.isCameraActive
       (Page.ui (Page.exec (Page.startCamera (MoreSamples.phone Samples.no_camera))
                           MoreSamples.idle_camera_world))
     = false.
Proof.
  split; [reflexivity|].
  pose proof (X9_startCamera_fallback
                (MoreSamples.phone Samples.no_camera)
                MoreSamples.idle_camera_world
                {| Page.srcObject := None; Page.videoWidth := 0; Page.videoHeight := 0 |}
                Samples.not_found eq_refl eq_refl) as H.
  cbv zeta in H. destruct H as (_ & H).
  change (Page.getUserMedia _ _ _) with (@inl Exn (list Page.Track) Samples.not_found) in H.
  cbv iota beta in H. destruct H as (_ & H & _). exact H.
Defined.

(** ** Switching and stopping the camera *)

Lemma switchCamera_mode (env : Page.Env) (rendered : Page.UIState) (w : Page.World) :
  Page.cameraFacingMode (Page.ui (Page.exec (Page.switchCamera env rendered) w))
  = Page.toggle (Page.cameraFacingMode rendered).
Proof.
  destruct (Page.videoRef w) as [el|] eqn:Hv.
  - rewrite (SwitchFacts.switchCamera_mounted env rendered w el Hv). cbv zeta.
    destruct (Page.getUserMedia env (Page.gum_calls w) _) as [e1|tr1];
      [destruct (Page.getUserMedia env (S (Page.gum_calls w)) _) as [e2|tr2]|];
      reflexivity.
  - rewrite (SwitchFacts.switchCamera_unmounted env rendered w Hv). reflexivity.
Qed.

(** X10.  When the video element is mounted and the stream for the
    opposite facing mode is granted, [switchCamera] ends with that stream
    attached and the recorded facing mode equal to the mode it was
    acquired for.  The tracks of the stream attached before have been
    stopped: the live tracks are the earlier ones without those, plus the
    new ones.  The error and the camera-active flag are untouched and
    [getUserMedia] was called once. *)
Theorem X10_switchCamera_success
    (env : Page.Env) (rendered : Page.UIState) (w : Page.World)
    (el : Page.VideoElement) (tracks : list Page.Track) :
  let new := Page.toggle (Page.cameraFacingMode rendered) in
  let w' := Page.exec (Page.switchCamera env rendered) w in
  Page.videoRef w = Some el ->
  Page.getUserMedia env (Page.gum_calls w) {| Page.video := Page.Plain new |} = inr tracks ->
  Page.attached w'
  = Some {| Page.getTracks := tracks;
            Page.requested := {| Page.video := Page.Plain new |} |}
  /\ Page.attached_facing w' = Some (Page.cameraFacingMode (Page.ui w'))
  /\ Page.live w'
     = (Page.live w ∖ match Page.srcObject el with
                      | Some old => list_to_set (Page.getTracks old)
                      | None => ∅
                      end) ∪ list_to_set tracks
  /\ Page.error (Page.ui w') = Page.error (Page.ui w)
  /\ Page.isCameraActive (Page.ui w') = Page.isCameraActive (Page.ui w)
  /\ Page.gum_calls w' = S (Page.gum_calls w).
Proof.
  intros new w' Hv Hnew. subst w'.
  rewrite (SwitchFacts.switchCamera_mounted env rendered w el Hv). cbv zeta.
  fold new. rewrite Hnew.
  rewrite CameraFacts.stop_current_stream_run.
  destruct w as [u v c l g lg]. PageFacts.run. subst v.
  destruct el as [[old|] vw vh]; PageFacts.run; repeat split.
  now rewrite difference_empty_L.
Qed.

(** Both cameras exist: after the switch the rear camera plays and is
    the recorded one. *)
Lemma X10_switchCamera_witness :
  Page.videoRef Samples.camera_world = Some Samples.camera_element
  /\ Page.attached_facing
       (Page.exec (Page.switchCamera (MoreSamples.phone MoreSamples.both_cameras)
                                     Samples.camera_ui)
                  Samples.camera_world)
     = Some Page.environment
  /\ Page.live
       (Page.exec (Page.switchCamera (MoreSamples.phone MoreSamples.both_cameras)
                                     Samples.camera_ui)
                  Samples.camera_world)
     = ({[ 1%nat; 2%nat ]} ∖ list_to_set [1%nat; 2%nat]) ∪ list_to_set [21%nat].
Proof.
  pose proof (X10_switchCamera_success
                (MoreSamples.phone MoreSamples.both_cameras)
                Samples.camera_ui Samples.camera_world Samples.camera_element
                [21%nat] eq_refl eq_refl) as H.
  cbv zeta in H. destruct H as (Ha & _ & Hl & _).
  split; [reflexivity|]. split; [|exact Hl].
  unfold Page.attached_facing. rewrite Ha. reflexivity.
Defined.

(** X11.  When the video element is mounted and the stream for the
    opposite facing mode is refused, [switchCamera] sets the error to
    "Could not access back camera." (switching away from the front
    camera) or "Could not access front camera." (switching away from the
    rear one), and the error stays set whether or not the fallback to the
    prior camera then succeeds. *)
Theorem X11_switchCamera_error_stays
    (env : Page.Env) (rendered : Page.UIState) (w : Page.World)
    (el : Page.VideoElement) (e : Exn) :
  let new := Page.toggle (Page.cameraFacingMode rendered) in
  let w' := Page.exec (Page.switchCamera env rendered) w in
  Page.videoRef w = Some el ->
  Page.getUserMedia env (Page.gum_calls w) {| Page.video := Page.Plain new |} = inl e ->
  Page.error (Page.ui w')
  = Some (match Page.cameraFacingMode rendered with
          | Page.user => "Could not access back camera."
          | Page.environment => "Could not access front camera."
          end).
Proof.
  intros new w' Hv Hnew. subst w'.
  rewrite (SwitchFacts.switchCamera_mounted env rendered w el Hv). cbv zeta.
  fold new. rewrite Hnew.
  destruct (Page.getUserMedia env (S (Page.gum_calls w)) _) as [e'|tracks];
    subst new; destruct (Page.cameraFacingMode rendered); reflexivity.
Qed.

(** Only the front camera exists: the fallback succeeds and the error is
    still shown. *)
Lemma X11_switchCamera_witness :
  Page.videoRef Samples.camera_world = Some Samples.camera_element
  /\ Page.attached_facing
       (Page.exec (Page.switchCamera
                     (Samples.browser (Samples.answers None) Samples.front_only)
                     Samples.camera_ui)
                  Samples.camera_world)
     = Some Page.user
  /\ Page.error
       (Page.ui (Page.exec (Page.switchCamera
                     (Samples.browser (Samples.answers None) Samples.front_only)
                     Samples.camera_ui)
                  Samples.camera_world))
     = Some "Could not access back camera.".
Proof.
  split; [reflexivity|]. split; [vm_compute; reflexivity|].
  exact (X11_switchCamera_error_stays
           (Samples.browser (Samples.answers None) Samples.front_only)
           Samples.camera_ui Samples.camera_world Samples.camera_element
           Samples.not_found eq_refl eq_refl).
Defined.

(** X12.  Two calls of [switchCamera] with a render in between bring the
    recorded facing mode back to where it was; two calls made from the
    same render both record the opposite of that render's mode, so the
    second does not switch back. *)
Theorem X12_switchCamera_twice
    (env : Page.Env) (rendered : Page.UIState) (w : Page.World) :
  let w1 := Page.exec (Page.switchCamera env rendered) w in
  Page.cameraFacingMode
    (Page.ui (Page.exec (Page.switchCamera env (Page.ui w1)) w1))
  = Page.cameraFacingMode rendered
  /\ Page.cameraFacingMode
       (Page.ui (Page.exec (Page.switchCamera env rendered) w1))
     = Page.cameraFacingMode (Page.ui w1)
  /\ Page.cameraFacingMode (Page.ui w1) <> Page.cameraFacingMode rendered.
Proof.
  intros w1. rewrite !switchCamera_mode. subst w1. rewrite !switchCamera_mode.
  destruct (Page.cameraFacingMode rendered); repeat split; discriminate.
Qed.

(** X13.  [stopCamera] is idempotent: a second call right after the first
    stops no track and changes neither the component state, the video
    element nor the live tracks; it only sets the camera-active flag to
    false once more. *)
Theorem X13_stopCamera_idempotent (w : Page.World) :
  let w1 := Page.exec Page.stopCamera w in
  let w2 := Page.exec Page.stopCamera w1 in
  Page.ui w2 = Page.ui w1
  /\ Page.videoRef w2 = Page.videoRef w1
  /\ Page.live w2 = Page.live w1
  /\ Page.log w2 = Page.log w1 ++ [Page.EvSetIsCameraActive false].
Proof.
  intros w1 w2. subst w2 w1.
  rewrite !CameraFacts.stopCamera_run, !CameraFacts.stop_current_stream_run.
  destruct w as [u v c l g lg]. destruct v as [[[stream|] vw vh]|];
    PageFacts.run; repeat split.
Qed.

Lemma startCamera_unmounted (env : Page.Env) (w : Page.World) :
  Page.videoRef w = None ->
  Page.exec (Page.startCamera env) w = Page.exec (Page.setIsCameraActive true) w.
Proof.
  intros Hv. unfold Page.startCamera. destruct w as [u v c l g lg].
  PageFacts.run. subst v. reflexivity.
Qed.

(** X14.  The camera handlers never touch the analysis: after
    [startCamera], [switchCamera] or [stopCamera] the image URL, the image
    dimensions, the predictions, the loading flag and the scan flag are
    what they were, whatever the camera answered. *)
Theorem X14_camera_keeps_analysis
    (env : Page.Env) (rendered : Page.UIState) (w : Page.World) :
  Lifecycle.same_analysis (Page.ui w) (Page.ui (Page.exec (Page.startCamera env) w))
  /\ Lifecycle.same_analysis (Page.ui w)
       (Page.ui (Page.exec (Page.switchCamera env rendered) w))
  /\ Lifecycle.same_analysis (Page.ui w) (Page.ui (Page.exec Page.stopCamera w)).
Proof.
  unfold Lifecycle.same_analysis. split; [|split].
  - destruct (Page.videoRef w) as [el|] eqn:Hv.
    + rewrite (StartFacts.startCamera_mounted env w el Hv). cbv zeta.
      destruct (Page.getUserMedia env (Page.gum_calls w) _) as [e1|tr1];
        [destruct (Page.getUserMedia env (S (Page.gum_calls w)) _) as [e2|tr2]|];
        repeat split.
    + rewrite (startCamera_unmounted env w Hv). repeat split.
  - destruct (Page.videoRef w) as [el|] eqn:Hv.
    + rewrite (SwitchFacts.switchCamera_mounted env rendered w el Hv). cbv zeta.
      destruct (Page.getUserMedia env (Page.gum_calls w) _) as [e1|tr1];
        [destruct (Page.getUserMedia env (S (Page.gum_calls w)) _) as [e2|tr2]|];
        repeat split.
    + rewrite (SwitchFacts.switchCamera_unmounted env rendered w Hv). repeat split.
  - rewrite CameraFacts.stopCamera_run, CameraFacts.stop_current_stream_run.
    destruct w as [u v c l g lg]. destruct v as [[[stream|] vw vh]|];
      PageFacts.run; repeat split.
Qed.

(** X15.  [startCamera] never stops a track: every track that was live
    is still live afterwards and no [stop] call is added to the log, also
    when it attaches a new stream to an element that already had one. *)
Theorem X15_startCamera_stops_nothing (env : Page.Env) (w : Page.World) :
  let w' := Page.exec (Page.startCamera env) w in
  Page.live w ⊆ Page.live w'
  /\ (forall t, In (Page.EvTrackStop t) (Page.log w') -> In (Page.EvTrackStop t) (Page.log w)).
Proof.
  intros w'. subst w'.
  assert (Hin : forall t (added : list Page.Event),
            forallb (fun e => match e with Page.EvTrackStop _ => false | _ => true end)
                    added = true ->
            In (Page.EvTrackStop t) (Page.log w ++ added) ->
            In (Page.EvTrackStop t) (Page.log w)).
  { intros t added Hno Ht. apply in_app_or in Ht as [Ht|Ht]; [exact Ht|].
    rewrite forallb_forall in Hno. specialize (Hno _ Ht). discriminate. }
  destruct (Page.videoRef w) as [el|] eqn:Hv.
  - rewrite (StartFacts.startCamera_mounted env w el Hv). cbv zeta.
    destruct (Page.getUserMedia env (Page.gum_calls w) _) as [e1|tr1];
      [destruct (Page.getUserMedia env (S (Page.gum_calls w)) _) as [e2|tr2]|];
      cbn [Page.live Page.log];
      (split; [try apply union_subseteq_l; reflexivity
              |intros t; apply Hin; reflexivity]).
  - rewrite (startCamera_unmounted env w Hv). split; [reflexivity|].
    intros t. apply (Hin t [Page.EvSetIsCameraActive true]). reflexivity.
Qed.

(** ** Taking a photo *)

Module CaptureFacts.
Import Page PageFacts CameraFacts.

(** The run of [capturePhoto] when both refs are set: the canvas takes the
    size of the video frame; with a 2d context and a blob, the camera is
    stopped and the blob analysed. *)
Lemma capturePhoto_mounted (env : Env) (w : World) (el : VideoElement) (cv : CanvasElement) :
  videoRef w = Some el ->
  canvasRef w = Some cv ->
  let canvas := {| canvas_width := videoWidth el; canvas_height := videoHeight el |} in
  let sized := {| ui := ui w; videoRef := videoRef w; canvasRef := Some canvas;
                  live := live w; gum_calls := gum_calls w; log := log w |} in
  exec (capturePhoto env) w
  = if getContext2d env then
      match toBlob env el canvas with
      | Some blob =>
          exec (processImage env {| file_name := "camera-capture.jpg";
                                    file_type := "image/jpeg";
                                    file_content := blob |})
               (exec stopCamera sized)
      | None => sized
      end
    else sized.
Proof.
  intros Hv Hc canvas sized. subst canvas sized.
  destruct w as [u v c l g lg]. cbn [videoRef canvasRef] in Hv, Hc. subst v c.
  unfold capturePhoto.
  rewrite !exec_bind. unfold read. cbn [fst snd videoRef canvasRef].
  rewrite exec_bind. unfold size_canvas.
  cbn [fst snd ui videoRef canvasRef live gum_calls log].
  destruct (getContext2d env); [|reflexivity].
  destruct (toBlob env el _) as [blob|]; [|reflexivity].
  rewrite exec_bind. reflexivity.
Qed.

End CaptureFacts.



(** X17.  [capturePhoto] without a blob starts no analysis and leaves the
    camera running.  With a null video or canvas ref it changes nothing
    at all; with both refs set but no 2d context, or a null blob, it only
    resizes the canvas to the video frame: the component state, the video
    element, the live tracks and the log are as before. *)
Theorem X17_capture_without_blob (env : Page.Env) (w : Page.World) :
  let w' := Page.exec (Page.capturePhoto env) w in
  (Page.videoRef w = None \/ Page.canvasRef w = None -> w' = w)
  /\ (forall el cv,
        Page.videoRef w = Some el ->
        Page.canvasRef w = Some cv ->
        Page.getContext2d env = false
        \/ Page.toBlob env el {| Page.canvas_width := Page.videoWidth el;
                                 Page.canvas_height := Page.videoHeight el |} = None ->
        Page.canvasRef w' = Some {| Page.canvas_width := Page.videoWidth el;
                                    Page.canvas_height := Page.videoHeight el |}
        /\ Page.ui w' = Page.ui w
        /\ Page.videoRef w' = Page.videoRef w
        /\ Page.live w' = Page.live w
        /\ Page.log w' = Page.log w).
Proof.
  intros w'. subst w'. split.
  - destruct w as [u v c l g lg]. cbn [Page.videoRef Page.canvasRef].
    intros [-> | ->]; [reflexivity|]. destruct v; reflexivity.
  - intros el cv Hv Hc Hno.
    rewrite (CaptureFacts.capturePhoto_mounted env w el cv Hv Hc). cbv zeta.
    destruct (Page.getContext2d env); [|repeat split].
    destruct Hno as [Hno|Hno]; [discriminate|]. rewrite Hno. repeat split.
Qed.

Lemma X17_capture_witness :
  (Page.videoRef Samples.initial_world = None
   \/ Page.canvasRef Samples.initial_world = None)
  /\ Page.exec (Page.capturePhoto (MoreSamples.phone MoreSamples.both_cameras))
               Samples.initial_world
     = Samples.initial_world.
Proof.
  assert (H : Page.videoRef Samples.initial_world = None
              \/ Page.canvasRef Samples.initial_world = None) by (left; reflexivity).
  split; [exact H|].
  exact (proj1 (X17_capture_without_blob (MoreSamples.phone MoreSamples.both_cameras)
                  Samples.initial_world) H).
Defined.

(** ** Image dimensions and the effects *)

Module SizeFacts.
Import Page PageFacts CameraFacts Lifecycle.

(** [updateImageDimensions] writes the dimensions of the element when its
    natural size is positive and does nothing otherwise. *)
Lemma updateImageDimensions_run (imageRef : option ImageElement) (w : World) :
  exec (updateImageDimensions imageRef) w
  = match imageRef with
    | Some img =>
        if (0 <? img_naturalWidth img)%Z && (0 <? img_naturalHeight img)%Z then
          exec (setImageSize (Some {| width := clientWidth img;
                                      height := clientHeight img;
                                      naturalWidth := img_naturalWidth img;
                                      naturalHeight := img_naturalHeight img |})) w
        else w
    | None => w
    end.
Proof.
  unfold updateImageDimensions. destruct imageRef as [img|]; [|reflexivity].
  destruct ((0 <? img_naturalWidth img)%Z && (0 <? img_naturalHeight img)%Z);
    reflexivity.
Qed.

Lemma updateImageDimensions_size_ok (imageRef : option ImageElement) (w : World) :
  size_ok (ui w) -> size_ok (ui (exec (updateImageDimensions imageRef) w)).
Proof.
  intros Hok. rewrite updateImageDimensions_run.
  destruct imageRef as [img|]; [|exact Hok].
  destruct ((0 <? img_naturalWidth img)%Z && (0 <? img_naturalHeight img)%Z) eqn:Hpos;
    [|exact Hok].
  apply andb_prop in Hpos as [Hw Hh]. apply Z.ltb_lt in Hw. apply Z.ltb_lt in Hh.
  unfold size_ok. run. split; assumption.
Qed.

Lemma processImage_imageSize (env : Env) (file : File) (w : World) :
  imageSize (ui (exec (processImage env file) w)) = None.
Proof.
  rewrite processImage_run. cbn [ui]. unfold processImage_trace.
  destruct (axios_post env "/api/model" [("file", file)]); reflexivity.
Qed.

Lemma stopCamera_imageSize (w : World) :
  imageSize (ui (exec stopCamera w)) = imageSize (ui w).
Proof.
  rewrite stopCamera_run, stop_current_stream_run.
  destruct w as [u v c l g lg]. destruct v as [[[stream|] vw vh]|]; reflexivity.
Qed.

Lemma cleanup_ui (rendered : UIState) (w : World) :
  ui (exec (cleanup rendered) w)
  = if isCameraActive rendered then ui (exec stopCamera w) else ui w.
Proof.
  unfold cleanup. rewrite exec_bind.
  destruct (imageURL rendered) as [u|]; [destruct (JsString.truthy u)|];
    destruct (isCameraActive rendered); try reflexivity;
    rewrite !stopCamera_run, !stop_current_stream_run;
    destruct w as [s v c l g lg]; destruct v as [[[stream|] vw vh]|]; reflexivity.
Qed.

End SizeFacts.

(** X18.  Every handler of the page keeps this invariant of the image
    dimensions: they are absent, or their natural width and height are
    positive.  [updateImageDimensions] (on image load and on resize)
    writes them only from an element with a positive natural size, the
    analysis clears them, and the camera handlers and the effect cleanup
    leave them alone. *)
Theorem X18_dimensions_invariant
    (env : Page.Env) (rendered : Page.UIState)
    (imageRef : option Lifecycle.ImageElement) (file : option File) (w : Page.World) :
  Lifecycle.size_ok (Page.ui w) ->
  Lifecycle.size_ok (Page.ui (Page.exec (Page.handleFileUpload env rendered file) w))
  /\ Lifecycle.size_ok (Page.ui (Page.exec (Page.capturePhoto env) w))
  /\ Lifecycle.size_ok (Page.ui (Page.exec (Page.startCamera env) w))
  /\ Lifecycle.size_ok (Page.ui (Page.exec (Page.switchCamera env rendered) w))
  /\ Lifecycle.size_ok (Page.ui (Page.exec Page.stopCamera w))
  /\ Lifecycle.size_ok (Page.ui (Page.exec (Lifecycle.handleImageLoad imageRef) w))
  /\ Lifecycle.size_ok (Page.ui (Page.exec (Lifecycle.handleResize rendered imageRef) w))
  /\ Lifecycle.size_ok (Page.ui (Page.exec (Lifecycle.cleanup rendered) w)).
Proof.
  intros Hok.
  assert (Hnone : forall s, Page.imageSize s = None -> Lifecycle.size_ok s).
  { intros s Hs. unfold Lifecycle.size_ok. now rewrite Hs. }
  assert (Hsame : forall s, Page.imageSize s = Page.imageSize (Page.ui w) ->
                            Lifecycle.size_ok s).
  { intros s Hs. unfold Lifecycle.size_ok in *. now rewrite Hs. }
  repeat split.
  - destruct file as [file|]; [|exact Hok].
    apply Hnone. unfold Page.handleFileUpload.
    rewrite PageFacts.exec_bind. apply SizeFacts.processImage_imageSize.
  - destruct (Page.videoRef w) as [el|] eqn:Hv;
      [destruct (Page.canvasRef w) as [cv|] eqn:Hc|].
    + rewrite (CaptureFacts.capturePhoto_mounted env w el cv Hv Hc). cbv zeta.
      destruct (Page.getContext2d env); [|exact Hok].
      destruct (Page.toBlob env el _); [|exact Hok].
      apply Hnone, SizeFacts.processImage_imageSize.
    + destruct w as [u v c l g lg]. cbn [Page.videoRef Page.canvasRef] in Hv, Hc.
      subst v c. exact Hok.
    + destruct w as [u v c l g lg]. cbn [Page.videoRef] in Hv. subst v. exact Hok.
  - apply Hsame. destruct (Page.videoRef w) as [el|] eqn:Hv.
    + rewrite (StartFacts.startCamera_mounted env w el Hv). cbv zeta.
      destruct (Page.getUserMedia env (Page.gum_calls w) _) as [e1|tr1];
        [destruct (Page.getUserMedia env (S (Page.gum_calls w)) _) as [e2|tr2]|];
        reflexivity.
    + rewrite (startCamera_unmounted env w Hv). reflexivity.
  - apply Hsame. destruct (Page.videoRef w) as [el|] eqn:Hv.
    + rewrite (SwitchFacts.switchCamera_mounted env rendered w el Hv). cbv zeta.
      destruct (Page.getUserMedia env (Page.gum_calls w) _) as [e1|tr1];
        [destruct (Page.getUserMedia env (S (Page.gum_calls w)) _) as [e2|tr2]|];
        reflexivity.
    + rewrite (SwitchFacts.switchCamera_unmounted env rendered w Hv). reflexivity.
  - apply Hsame, SizeFacts.stopCamera_imageSize.
  - apply SizeFacts.updateImageDimensions_size_ok, Hok.
  - unfold Lifecycle.handleResize. destruct imageRef as [img|]; [|exact Hok].
    destruct (Page.has_image rendered); [|exact Hok].
    apply SizeFacts.updateImageDimensions_size_ok, Hok.
  - rewrite SizeFacts.cleanup_ui. destruct (Page.isCameraActive rendered); [|exact Hok].
    apply Hsame, SizeFacts.stopCamera_imageSize.
Qed.

(** A resize while an undecodable image is on screen keeps the
    dimensions that were there. *)
Lemma X18_dimensions_witness :
  Lifecycle.size_ok (Page.ui MoreSamples.loaded_world)
  /\ Lifecycle.size_ok
       (Page.ui (Page.exec (Lifecycle.handleResize MoreSamples.loaded_ui
                                                   (Some MoreSamples.broken_image))
                           MoreSamples.loaded_world)).
Proof.
  assert (H : Lifecycle.size_ok (Page.ui MoreSamples.loaded_world)).
  { unfold Lifecycle.size_ok. cbn. lia. }
  split; [exact H|].
  pose proof (X18_dimensions_invariant
                (MoreSamples.phone MoreSamples.both_cameras) MoreSamples.loaded_ui
                (Some MoreSamples.broken_image) None MoreSamples.loaded_world H) as Hall.
  destruct Hall as (_ & _ & _ & _ & _ & _ & Hr & _). exact Hr.
Defined.

(** X19.  The cleanup of the effect decides by the render it belongs to,
    not by the current state.  It revokes that render's object URL when
    it is a non-empty string.  When that render had the camera active it
    then does what [stopCamera] does: the attached stream's tracks are
    stopped, no stream stays attached, the flag goes false.  When that
    render had the camera inactive it leaves the video element, the live
    tracks and the component state alone, even if a stream is attached
    by now. *)
Theorem X19_cleanup_uses_its_render (rendered : Page.UIState) (w : Page.World) :
  let w' := Page.exec (Lifecycle.cleanup rendered) w in
  let revoked := match Page.imageURL rendered with
                 | Some u => if JsString.truthy u then [Page.EvRevokeObjectURL u] else []
                 | None => []
                 end in
  (Page.isCameraActive rendered = false ->
     Page.log w' = Page.log w ++ revoked
     /\ Page.ui w' = Page.ui w
     /\ Page.videoRef w' = Page.videoRef w
     /\ Page.live w' = Page.live w)
  /\ (Page.isCameraActive rendered = true ->
        Page.attached w' = None
        /\ Page.isCameraActive (Page.ui w') = false
        /\ Page.live w'
           = Page.live w ∖ match Page.attached w with
                           | Some stream => list_to_set (Page.getTracks stream)
                           | None => ∅
                           end
        /\ exists stops,
             Page.log w' = Page.log w ++ revoked ++ stops
                                      ++ [Page.EvSetIsCameraActive false]).
Proof.
  intros w' revoked. subst w' revoked. unfold Lifecycle.cleanup.
  rewrite PageFacts.exec_bind. split; intros Hflag; rewrite Hflag.
  - destruct (Page.imageURL rendered) as [u|]; [destruct (JsString.truthy u)|];
      PageFacts.run; rewrite ?app_nil_r; repeat split.
  - rewrite CameraFacts.stopCamera_run, CameraFacts.stop_current_stream_run.
    destruct w as [s v c l g lg].
    destruct (Page.imageURL rendered) as [u|]; [destruct (JsString.truthy u)|];
      destruct v as [[[stream|] vw vh]|]; PageFacts.run;
      (split; [reflexivity|]); (split; [reflexivity|]);
      (split; [now rewrite ?difference_empty_L|]).
    all: try (exists (map Page.EvTrackStop (Page.getTracks stream)
                      ++ [Page.EvSetSrcObject None]);
              rewrite <- ?app_assoc; reflexivity).
    all: exists []; rewrite <- ?app_assoc; reflexivity.
Qed.

(** The cleanup of a render from before the camera was started does not
    stop the camera that plays now. *)
Lemma X19_cleanup_witness :
  Page.isCameraActive Samples.initial_ui = false
  /\ Page.live (Page.exec (Lifecycle.cleanup Samples.initial_ui) Samples.camera_world)
     = Page.live Samples.camera_world
  /\ Page.attached (Page.exec (Lifecycle.cleanup Samples.initial_ui) Samples.camera_world)
     = Some Samples.front_stream.
Proof.
  pose proof (X19_cleanup_uses_its_render Samples.initial_ui Samples.camera_world) as H.
  cbv zeta in H. destruct H as (H & _).
  destruct (H eq_refl) as (_ & _ & Hv & Hl).
  split; [reflexivity|]. split; [exact Hl|].
  unfold Page.attached. rewrite Hv. reflexivity.
Defined.

(** X20.  After a successful analysis the overlay has nothing to draw
    until the image has loaded: [renderBoxes] is null right after
    [processImage].  Once [handleImageLoad] has run on an element with a
    positive natural size, the dimensions are those of the element and
    [renderBoxes] yields one entry per stored prediction (null if none
    was returned); on an element without natural size the dimensions stay
    absent and [renderBoxes] stays null. *)
Theorem X20_overlay_after_load
    (env : Page.Env) (file : File) (w : Page.World) (res : Page.AxiosResponse)
    (img : Lifecycle.ImageElement) :
  let returned := match data_predictions (Page.data res) with
                  | Some l => l
                  | None => []
                  end in
  let w1 := Page.exec (Page.processImage env file) w in
  let w2 := Page.exec (Lifecycle.handleImageLoad (Some img)) w1 in
  let valid := (0 <? Lifecycle.img_naturalWidth img)%Z
               && (0 <? Lifecycle.img_naturalHeight img)%Z in
  Page.axios_post env "/api/model" [("file", file)] = Page.Resolved res ->
  View.renderBoxes (Page.ui w1) = None
  /\ Page.predictions (Page.ui w2) = returned
  /\ Page.imageSize (Page.ui w2)
     = (if valid
        then Some {| width := Lifecycle.clientWidth img;
                     height := Lifecycle.clientHeight img;
                     naturalWidth := Lifecycle.img_naturalWidth img;
                     naturalHeight := Lifecycle.img_naturalHeight img |}
        else None)
  /\ View.renderBoxes (Page.ui w2)
     = (if valid && negb (length returned =? 0)%nat
        then Some (map (fun _ => tt) returned)
        else None).
Proof.
  intros returned w1 w2 valid Hres. subst w2.
  unfold Lifecycle.handleImageLoad. rewrite SizeFacts.updateImageDimensions_run.
  fold valid.
  assert (H1 : Page.ui w1
               = {| Page.imageURL := Some (Page.createObjectURL env file);
                    Page.predictions := returned;
                    Page.imageSize := None; Page.isLoading := false;
                    Page.error := None;
                    Page.isCameraActive := Page.isCameraActive (Page.ui w);
                    Page.scanAnimation := true;
                    Page.cameraFacingMode := Page.cameraFacingMode (Page.ui w) |}).
  { subst w1. exact (after_success env file w res Hres). }
  split; [now rewrite H1|].
  destruct valid eqn:Hvalid.
  - PageFacts.run. rewrite H1. cbn [Page.predictions Page.imageSize andb].
    split; [reflexivity|]. split; [reflexivity|].
    unfold View.renderBoxes. cbn [Page.imageSize Page.predictions naturalWidth naturalHeight].
    subst valid. apply andb_prop in Hvalid as [Hw Hh].
    apply Z.ltb_lt in Hw. apply Z.ltb_lt in Hh.
    replace (Lifecycle.img_naturalWidth img =? 0)%Z with false
      by (symmetry; apply Z.eqb_neq; lia).
    replace (Lifecycle.img_naturalHeight img =? 0)%Z with false
      by (symmetry; apply Z.eqb_neq; lia).
    cbn [orb]. destruct (length returned =? 0)%nat; reflexivity.
  - rewrite H1. cbn [Page.predictions Page.imageSize andb].
    repeat split.
Qed.

(** One prediction and a loaded image: one overlay entry. *)
Lemma X20_overlay_witness :
  Page.axios_post (MoreSamples.phone MoreSamples.both_cameras)
                  "/api/model" [("file", Samples.weld_jpg)]
  = Page.Resolved {| Page.status := 200;
                     Page.data := {| data_predictions := Some [Samples.good_weld];
                                     data_error := None |} |}
  /\ View.renderBoxes
       (Page.ui (Page.exec (Lifecycle.handleImageLoad (Some MoreSamples.loaded_image))
                   (Page.exec (Page.processImage (MoreSamples.phone MoreSamples.both_cameras)
                                                 Samples.weld_jpg)
                              Samples.initial_world)))
     = Some [tt].
Proof.
  split; [reflexivity|].
  pose proof (X20_overlay_after_load
                (MoreSamples.phone MoreSamples.both_cameras) Samples.weld_jpg
                Samples.initial_world _ MoreSamples.loaded_image eq_refl) as H.
  cbv zeta in H. destruct H as (_ & _ & _ & H). exact H.
Defined.

(** ** Rendering *)

(** X21.  In [app/page.tsx] the tone of the verdict badge and the
    sentence of the summary are chosen by
    [overallResult.includes("Defects")], and both verdicts contain
    "Defects": whenever a badge is rendered it has the red tone, also for
    "No Defects", and whenever predictions are stored the summary says
    that critical defects have been detected, also when no prediction is
    bad. *)
Theorem X21_badge_red_for_both_verdicts :
  (forall s v, Page.verdict_badge s = Some v -> View.badge_tone v = View.Red)
  /\ (forall s, Page.predictions s <> [] ->
        View.summary_sentence s
        = " Critical defects have been detected that may compromise structural integrity.")
  /\ (forall l, l <> [] -> existsb isBad l = false ->
        getOverallResult l = Some "No Defects"
        /\ View.badge_tone "No Defects" = View.Red).
Proof.
  split; [|split].
  - intros s v Hv. apply verdict_badge_overall in Hv. unfold Page.overallResult in Hv.
    destruct (Page.predictions s) as [|p l]; [discriminate|].
    rewrite getOverallResult_cons in Hv.
    destruct (existsb isBad (p :: l)); injection Hv as <-; reflexivity.
  - intros s Hs. unfold View.summary_sentence, Page.overallResult.
    destruct (Page.predictions s) as [|p l]; [congruence|].
    rewrite getOverallResult_cons.
    destruct (existsb isBad (p :: l)); reflexivity.
  - intros l Hl Hgood. destruct l as [|p l]; [congruence|].
    rewrite getOverallResult_cons, Hgood. split; reflexivity.
Qed.

(** A single good weld: verdict "No Defects", red badge, alarming
    summary. *)
Lemma X21_badge_witness :
  Page.verdict_badge MoreSamples.analysed_ui = Some "No Defects"
  /\ View.badge_tone "No Defects" = View.Red
  /\ View.summary_sentence MoreSamples.analysed_ui
     = " Critical defects have been detected that may compromise structural integrity.".
Proof.
  destruct X21_badge_red_for_both_verdicts as (Hb & Hs & _).
  split; [reflexivity|]. split.
  - exact (Hb MoreSamples.analysed_ui "No Defects" eq_refl).
  - apply Hs. discriminate.
Defined.

(** X22.  In the later version of the page the tone of the verdict badge
    is computed from the predictions: it is red exactly when the verdict
    is "Defects Detected", that is exactly when the row of some
    prediction is red, and green for "No Defects". *)
Theorem X22_badge_follows_predictions (l : list Prediction) :
  (View.badge_tone_by_predictions l = View.Red
   <-> getOverallResult l = Some "Defects Detected")
  /\ (View.badge_tone_by_predictions l = View.Red
      <-> exists p, In p l /\ View.row_tone p = View.Red)
  /\ (getOverallResult l = Some "No Defects"
      -> View.badge_tone_by_predictions l = View.Green).
Proof.
  unfold View.badge_tone_by_predictions. split; [|split].
  - destruct l as [|p l]; [split; discriminate|].
    rewrite getOverallResult_cons.
    destruct (existsb isBad (p :: l)); split; (reflexivity || discriminate).
  - destruct (existsb isBad l) eqn:H.
    + split; [intros _|reflexivity].
      apply existsb_exists in H as (p & Hp & Hb). exists p. split; [exact Hp|].
      unfold View.row_tone. now rewrite Hb.
    + split; [discriminate|]. intros (p & Hp & Hr). exfalso.
      unfold View.row_tone in Hr. destruct (isBad p) eqn:Hb; [|discriminate].
      assert (existsb isBad l = true) by (apply existsb_exists; eauto). congruence.
  - destruct l as [|p l]; [discriminate|].
    rewrite getOverallResult_cons.
    destruct (existsb isBad (p :: l)); [discriminate|reflexivity].
Qed.

(** X23.  On a state that satisfies the invariant of the dimensions,
    [renderBoxes] is null exactly when the dimensions are absent or no
    prediction is stored: its two tests for a zero natural size never
    decide.  When it is not null it has one entry per prediction, and an
    overall verdict exists. *)
Theorem X23_renderBoxes_guard (s : Page.UIState) :
  Lifecycle.size_ok s ->
  (View.renderBoxes s = None <-> Page.imageSize s = None \/ Page.predictions s = [])
  /\ (forall boxes, View.renderBoxes s = Some boxes ->
        length boxes = length (Page.predictions s)
        /\ exists v, Page.overallResult s = Some v).
Proof.
  unfold Lifecycle.size_ok, View.renderBoxes, Page.overallResult.
  destruct (Page.imageSize s) as [d|]; intros Hok.
  - destruct Hok as [Hw Hh].
    replace (naturalWidth d =? 0)%Z with false by (symmetry; apply Z.eqb_neq; lia).
    replace (naturalHeight d =? 0)%Z with false by (symmetry; apply Z.eqb_neq; lia).
    cbn [orb]. destruct (Page.predictions s) as [|p l]; cbn [length Nat.eqb].
    + split; [split; auto|discriminate].
    + split.
      * split; [discriminate|]. intros [H|H]; discriminate.
      * intros boxes [= <-]. split; [exact (length_map _ (p :: l))|].
        rewrite getOverallResult_cons. eauto.
  - split; [split; auto|discriminate].
Qed.

Lemma X23_renderBoxes_witness :
  Lifecycle.size_ok MoreSamples.loaded_ui
  /\ View.renderBoxes MoreSamples.loaded_ui = Some [tt]
  /\ exists v, Page.overallResult MoreSamples.loaded_ui = Some v.
Proof.
  assert (H : Lifecycle.size_ok MoreSamples.loaded_ui).
  { unfold Lifecycle.size_ok. cbn. lia. }
  split; [exact H|]. split; [reflexivity|].
  exact (proj2 (proj2 (X23_renderBoxes_guard MoreSamples.loaded_ui H) [tt] eq_refl)).
Defined.

(** ** The verdict as a function of the list *)

Lemma hasBadWeld_perm (l l' : list Prediction) :
  Permutation l l' -> existsb isBad l = existsb isBad l'.
Proof.
  induction 1 as [|x l l' _ IH|x y l|l l' l'' _ IH1 _ IH2]; cbn.
  - reflexivity.
  - now rewrite IH.
  - destruct (isBad x), (isBad y); reflexivity.
  - congruence.
Qed.

(** X24.  The verdict does not depend on the order in which the service
    lists its predictions: two lists that are permutations of each other
    get the same verdict. *)
Theorem X24_verdict_order_independent (l l' : list Prediction) :
  Permutation l l' -> getOverallResult l = getOverallResult l'.
Proof.
  intros H. unfold getOverallResult.
  rewrite (Permutation_length H), (hasBadWeld_perm l l' H). reflexivity.
Qed.

Lemma X24_verdict_witness :
  Permutation [Samples.good_weld; Samples.bad_weld] [Samples.bad_weld; Samples.good_weld]
  /\ getOverallResult [Samples.bad_weld; Samples.good_weld] = Some "Defects Detected".
Proof.
  assert (H : Permutation [Samples.good_weld; Samples.bad_weld]
                          [Samples.bad_weld; Samples.good_weld]) by constructor.
  split; [exact H|].
  rewrite <- (X24_verdict_order_independent _ _ H). reflexivity.
Defined.

(** X25.  The verdict of two lists put together is "Defects Detected"
    exactly when that is the verdict of one of them: adding predictions
    never turns "Defects Detected" into "No Defects", and "No Defects"
    for the whole means no part has a defect. *)
Theorem X25_verdict_of_concatenation (l l' : list Prediction) :
  (getOverallResult (l ++ l') = Some "Defects Detected"
   <-> getOverallResult l = Some "Defects Detected"
       \/ getOverallResult l' = Some "Defects Detected")
  /\ (getOverallResult (l ++ l') = None <-> l = [] /\ l' = []).
Proof.
  assert (Hiff : forall k, getOverallResult k = Some "Defects Detected"
                           <-> existsb isBad k = true).
  { intros [|p k]; [split; discriminate|].
    rewrite getOverallResult_cons.
    destruct (existsb isBad (p :: k)); split; (reflexivity || discriminate). }
  split.
  - rewrite !Hiff, existsb_app. apply orb_true_iff.
  - destruct l as [|p l].
    + destruct l' as [|p' l']; cbn [app].
      * split; auto.
      * rewrite getOverallResult_cons. split; [discriminate|]. intros [_ H]. discriminate.
    + cbn [app]. rewrite getOverallResult_cons. split; [discriminate|].
      intros [H _]. discriminate.
Qed.

(** X26.  The verdict depends on the class labels only, and on those only
    up to the case of their letters: two lists whose predictions have,
    position by position, labels that are equal once lowered get the same
    verdict, whatever their boxes and confidences. *)
Theorem X26_verdict_reads_labels_only (l l' : list Prediction) :
  Forall2 (fun p q => JsString.toLowerCase (class p) = JsString.toLowerCase (class q)) l l' ->
  getOverallResult l = getOverallResult l'.
Proof.
  intros H. unfold getOverallResult.
  assert (Hlen : length l = length l') by (induction H; cbn; congruence).
  assert (Hbad : existsb isBad l = existsb isBad l').
  { induction H as [|p q l l' Hpq _ IH]; [reflexivity|].
    cbn. unfold isBad at 1 3. rewrite Hpq, IH; [reflexivity|].
    cbn in Hlen. congruence. }
  now rewrite Hlen, Hbad.
Qed.

Lemma X26_verdict_witness :
  Forall2 (fun p q => JsString.toLowerCase (class p) = JsString.toLowerCase (class q))
          [Samples.bad_weld]
          [{| bbox := (5, 5, 9, 9)%Q; class := "BAD_Weld"; confidence := (1 # 3)%Q |}]
  /\ getOverallResult
       [{| bbox := (5, 5, 9, 9)%Q; class := "BAD_Weld"; confidence := (1 # 3)%Q |}]
     = Some "Defects Detected".
Proof.
  assert (H : Forall2 (fun p q => JsString.toLowerCase (class p)
                                  = JsString.toLowerCase (class q))
                [Samples.bad_weld]
                [{| bbox := (5, 5, 9, 9)%Q; class := "BAD_Weld";
                    confidence := (1 # 3)%Q |}]).
  { constructor; [reflexivity|constructor]. }
  split; [exact H|].
  rewrite <- (X26_verdict_reads_labels_only _ _ H). reflexivity.
Defined.

(** ** An upload while the camera card is open *)

Module UploadFacts.
Import Page PageFacts Lifecycle.

Lemma revoke_run (s : UIState) (w : World) :
  exec match imageURL s with
       | Some u => if JsString.truthy u then emit (EvRevokeObjectURL u) else skip
       | None => skip
       end w
  = {| ui := ui w; videoRef := videoRef w; canvasRef := canvasRef w;
       live := live w; gum_calls := gum_calls w;
       log := log w ++ revocation s |}.
Proof.
  unfold revocation.
  destruct (imageURL s) as [u|]; [destruct (JsString.truthy u)|];
    run; rewrite ?app_nil_r; reflexivity.
Qed.

(** [stopCamera] as a function of the world. *)
Lemma stopCamera_world (w : World) :
  exec stopCamera w
  = {| ui := apply_event (EvSetIsCameraActive false) (ui w);
       videoRef := match videoRef w with
                   | Some el => Some {| srcObject := None; videoWidth := videoWidth el;
                                        videoHeight := videoHeight el |}
                   | None => None
                   end;
       canvasRef := canvasRef w;
       live := live w ∖ match attached w with
                        | Some stream => list_to_set (getTracks stream)
                        | None => ∅
                        end;
       gum_calls := gum_calls w;
       log := log w ++ stops w ++ [EvSetIsCameraActive false] |}.
Proof.
  rewrite CameraFacts.stopCamera_run, CameraFacts.stop_current_stream_run.
  unfold stops.
  destruct w as [u v c l g lg]. destruct v as [[[stream|] vw vh]|]; run.
  - rewrite <- !app_assoc. reflexivity.
  - now rewrite difference_empty_L.
  - now rewrite difference_empty_L.
Qed.

(** The cleanup of the effect of a render in which the camera was
    active. *)
Lemma cleanup_active (rendered : UIState) (w : World) :
  isCameraActive rendered = true ->
  exec (cleanup rendered) w
  = exec stopCamera
      {| ui := ui w; videoRef := videoRef w; canvasRef := canvasRef w;
         live := live w; gum_calls := gum_calls w;
         log := log w ++ revocation rendered |}.
Proof.
  intros H. unfold cleanup. rewrite exec_bind, H.
  change (snd (?m w)) with (exec m w). rewrite revoke_run. reflexivity.
Qed.

(** A commit that runs the cleanup of a render in which the camera was
    active: with the camera card still rendered, and without it. *)
Lemma commit_open (prev : UIState) (w : World) :
  isCameraActive (ui w) = true ->
  deps_changed prev (ui w) = true ->
  isCameraActive prev = true ->
  commit prev w
  = (ui w,
     exec stopCamera
       {| ui := ui w;
          videoRef := match videoRef w with
                      | Some el => Some el
                      | None => Some fresh_video
                      end;
          canvasRef := match videoRef w with
                       | Some _ => canvasRef w
                       | None => Some fresh_canvas
                       end;
          live := live w; gum_calls := gum_calls w;
          log := log w ++ revocation prev |}).
Proof.
  intros Hc Hd Ha.
  unfold commit. rewrite Hd, Hc. unfold mbind, M_bind, mret, M_ret, attach_refs.
  destruct w as [u v c l g lg]. cbn [ui videoRef canvasRef live gum_calls log].
  destruct v as [el|];
    match goal with
    | |- context [cleanup prev ?W] =>
        pose proof (cleanup_active prev W Ha) as H; unfold exec in H at 1;
        destruct (cleanup prev W) as [[] w2]; cbn [snd] in H; subst w2; reflexivity
    end.
Qed.

Lemma commit_closed (prev : UIState) (w : World) :
  isCameraActive (ui w) = false ->
  deps_changed prev (ui w) = true ->
  isCameraActive prev = true ->
  commit prev w
  = (ui w,
     exec stopCamera
       {| ui := ui w; videoRef := None; canvasRef := None;
          live := live w; gum_calls := gum_calls w;
          log := log w ++ revocation prev |}).
Proof.
  intros Hc Hd Ha.
  unfold commit. rewrite Hd, Hc. unfold mbind, M_bind, mret, M_ret, detach_refs.
  match goal with
  | |- context [cleanup prev ?W] =>
      pose proof (cleanup_active prev W Ha) as H; unfold exec in H at 1;
      destruct (cleanup prev W) as [[] w2]; cbn [snd] in H; subst w2; reflexivity
  end.
Qed.

(** A commit of the state of the render before it, with the camera card
    closed, changes nothing. *)
Lemma commit_same (w : World) :
  isCameraActive (ui w) = false ->
  videoRef w = None ->
  canvasRef w = None ->
  commit (ui w) w = (ui w, w).
Proof.
  intros Ha Hv Hc. destruct w as [u v c l g lg].
  cbn [ui videoRef canvasRef] in *. subst v c.
  unfold commit, deps_changed. cbn [ui]. rewrite Ha.
  rewrite bool_decide_eq_true_2 by reflexivity. cbn [negb orb Bool.eqb].
  reflexivity.
Qed.

Lemma commits_same (n : nat) (w : World) :
  isCameraActive (ui w) = false ->
  videoRef w = None ->
  canvasRef w = None ->
  commits n (ui w) w = (tt, w).
Proof.
  intros Ha Hv Hc. induction n as [|n IH]; [reflexivity|].
  cbn [commits]. unfold mbind, M_bind. rewrite (commit_same w Ha Hv Hc). exact IH.
Qed.

End UploadFacts.

(** X27.  An upload made while the camera card is open closes the camera
    while the request is awaited, in the run in which React commits its
    renders meanwhile.  It commits the render of the state the analysis
    has set; the image URL has changed, so the cleanup of the
    effect of the render the upload was made in runs: it revokes the old
    URL once more and stops the camera.  React then commits the render
    without the camera card, which clears the refs, and, the flag having
    changed, runs the cleanup of the effect of the render before, which
    revokes the URL just created for the uploaded image.  All of this is
    in the log before the result of the request is stored.  At the end
    the tracks of the stream that was attached are stopped, the refs are
    null and the state is that of an undisturbed analysis with the camera
    flag false, so the image and results cards are rendered if the new
    URL is a non-empty string; further commits while the request is
    awaited change nothing. *)
Theorem X27_upload_while_camera_open (env : Page.Env) (file : File) (w : Page.World) :
  let rendered := Page.ui w in
  let url := Page.createObjectURL env file in
  let settled := Page.axios_post env "/api/model" [("file", file)] in
  let upload n :=
    Page.handleFileUpload_during env rendered (Lifecycle.commits n rendered) (Some file) in
  let w' := Page.exec (upload 2%nat) w in
  Page.isCameraActive rendered = true ->
  Page.imageURL rendered <> Some url ->
  Page.log w'
  = Page.log w
    ++ Lifecycle.revocation rendered
    ++ Page.start_trace env file
    ++ (Lifecycle.revocation rendered ++ Lifecycle.stops w
        ++ [Page.EvSetIsCameraActive false])
    ++ ((if JsString.truthy url then [Page.EvRevokeObjectURL url] else [])
        ++ [Page.EvSetIsCameraActive false])
    ++ Page.settle_trace settled
  /\ Page.videoRef w' = None
  /\ Page.canvasRef w' = None
  /\ Page.live w'
     = Page.live w ∖ match Page.attached w with
                     | Some stream => list_to_set (Page.getTracks stream)
                     | None => ∅
                     end
  /\ Page.ui w'
     = Page.apply_event (Page.EvSetIsCameraActive false)
         (Page.ui (Page.exec (Page.processImage env file) w))
  /\ Page.camera_view_shown (Page.ui w') = false
  /\ View.camera_button (Page.ui w') = "Use Camera"
  /\ View.image_shown (Page.ui w') = JsString.truthy url
  /\ Page.results_shown (Page.ui w') = JsString.truthy url
  /\ (forall n, Page.exec (upload (2 + n)%nat) w = w').
Proof.
  intros rendered url settled upload w' Hactive Hnew.
  assert (Hrun : forall n,
    Page.exec (upload n) w
    = Page.exec (Page.processImage_settle settled)
        (Page.exec (Lifecycle.commits n rendered)
           (Page.exec (Page.processImage_start env file)
              {| Page.ui := Page.ui w; Page.videoRef := Page.videoRef w;
                 Page.canvasRef := Page.canvasRef w; Page.live := Page.live w;
                 Page.gum_calls := Page.gum_calls w;
                 Page.log := Page.log w ++ Lifecycle.revocation rendered |}))).
  { intros n. unfold upload, Page.handleFileUpload_during.
    rewrite PageFacts.exec_bind. change (snd (?m w)) with (Page.exec m w).
    rewrite UploadFacts.revoke_run, DuringFacts.processImage_during_run. reflexivity. }
  assert (Hcommits : forall n,
    Page.exec (Lifecycle.commits (2 + n) rendered)
      (Page.exec (Page.processImage_start env file)
         {| Page.ui := Page.ui w; Page.videoRef := Page.videoRef w;
            Page.canvasRef := Page.canvasRef w; Page.live := Page.live w;
            Page.gum_calls := Page.gum_calls w;
            Page.log := Page.log w ++ Lifecycle.revocation rendered |})
    = {| Page.ui := Page.apply_event (Page.EvSetIsCameraActive false)
                      (Page.replay (Page.start_trace env file) (Page.ui w));
         Page.videoRef := None; Page.canvasRef := None;
         Page.live := Page.live w ∖ match Page.attached w with
                                    | Some stream => list_to_set (Page.getTracks stream)
                                    | None => ∅
                                    end;
         Page.gum_calls := Page.gum_calls w;
         Page.log := Page.log w
                     ++ Lifecycle.revocation rendered
                     ++ Page.start_trace env file
                     ++ (Lifecycle.revocation rendered ++ Lifecycle.stops w
                         ++ [Page.EvSetIsCameraActive false])
                     ++ ((if JsString.truthy url then [Page.EvRevokeObjectURL url] else [])
                         ++ [Page.EvSetIsCameraActive false]) |}).
  { intros n. rewrite DuringFacts.processImage_start_run.
    cbn [Page.ui Page.videoRef Page.canvasRef Page.live Page.gum_calls Page.log].
    change (2 + n)%nat with (S (S n)). cbn [Lifecycle.commits].
    rewrite PageFacts.exec_bind.
    rewrite UploadFacts.commit_open; [| exact Hactive | | exact Hactive].
    2: { unfold Lifecycle.deps_changed.
         rewrite bool_decide_eq_false_2 by exact Hnew. reflexivity. }
    cbn [fst snd]. rewrite UploadFacts.stopCamera_world.
    cbn [Page.ui Page.videoRef Page.canvasRef Page.live Page.gum_calls Page.log].
    rewrite PageFacts.exec_bind.
    rewrite UploadFacts.commit_closed; [| reflexivity | | exact Hactive].
    2: { unfold Lifecycle.deps_changed. cbn [Page.ui].
         change (Page.isCameraActive (Page.replay (Page.start_trace env file) (Page.ui w)))
           with (Page.isCameraActive rendered).
         rewrite Hactive. apply orb_true_r. }
    cbn [fst snd]. rewrite UploadFacts.stopCamera_world.
    cbn [Page.ui Page.videoRef Page.canvasRef Page.live Page.gum_calls Page.log].
    match goal with
    | |- Page.exec (Lifecycle.commits n ?p) ?W = _ =>
        transitivity W;
        [exact (f_equal snd (UploadFacts.commits_same n W eq_refl eq_refl eq_refl))|]
    end.
    subst rendered.
    destruct w as [u v c l g lg]. destruct v as [[[stream|] vw vh]|];
      unfold Lifecycle.stops, Page.attached;
      cbn [Page.ui Page.videoRef Page.canvasRef Page.live Page.gum_calls Page.log
           Page.srcObject Lifecycle.fresh_video];
      rewrite ?difference_empty_L, <- ?app_assoc; reflexivity. }
  assert (Hw' : forall n,
    Page.exec (upload (2 + n)%nat) w
    = {| Page.ui := Page.replay (Page.settle_trace settled)
                      (Page.apply_event (Page.EvSetIsCameraActive false)
                         (Page.replay (Page.start_trace env file) (Page.ui w)));
         Page.videoRef := None; Page.canvasRef := None;
         Page.live := Page.live w ∖ match Page.attached w with
                                    | Some stream => list_to_set (Page.getTracks stream)
                                    | None => ∅
                                    end;
         Page.gum_calls := Page.gum_calls w;
         Page.log := (Page.log w
                      ++ Lifecycle.revocation rendered
                      ++ Page.start_trace env file
                      ++ (Lifecycle.revocation rendered ++ Lifecycle.stops w
                          ++ [Page.EvSetIsCameraActive false])
                      ++ ((if JsString.truthy url then [Page.EvRevokeObjectURL url] else [])
                          ++ [Page.EvSetIsCameraActive false]))
                     ++ Page.settle_trace settled |}).
  { intros n. rewrite Hrun, Hcommits, DuringFacts.processImage_settle_run. reflexivity. }
  assert (Hui : Page.ui w'
                = Page.apply_event (Page.EvSetIsCameraActive false)
                    (Page.ui (Page.exec (Page.processImage env file) w))).
  { change w' with (Page.exec (upload (2 + 0)%nat) w).
    rewrite (Hw' 0%nat), PageFacts.processImage_run,
      DuringFacts.processImage_trace_split, PageFacts.replay_app.
    cbn [Page.ui]. fold settled. unfold Page.settle_trace.
    destruct settled as [res|err|st thrown]; reflexivity. }
  assert (Hshape : Page.isCameraActive (Page.ui w') = false
                   /\ Page.isLoading (Page.ui w') = false
                   /\ Page.imageURL (Page.ui w') = Some url).
  { rewrite Hui, PageFacts.processImage_run. cbn [Page.ui].
    unfold Page.processImage_trace. fold settled.
    destruct settled as [res|err|st thrown]; repeat split. }
  destruct Hshape as (Hflag & Hload & Hurl).
  split; [|split; [|split; [|split; [|split; [|split; [|split; [|split; [|split]]]]]]]].
  - change w' with (Page.exec (upload (2 + 0)%nat) w). rewrite (Hw' 0%nat).
    cbn [Page.log]. rewrite <- !app_assoc. reflexivity.
  - change w' with (Page.exec (upload (2 + 0)%nat) w). now rewrite (Hw' 0%nat).
  - change w' with (Page.exec (upload (2 + 0)%nat) w). now rewrite (Hw' 0%nat).
  - change w' with (Page.exec (upload (2 + 0)%nat) w). now rewrite (Hw' 0%nat).
  - exact Hui.
  - exact Hflag.
  - unfold View.camera_button. now rewrite Hflag.
  - unfold View.image_shown, Page.has_image. rewrite Hflag, Hurl. apply andb_true_r.
  - unfold Page.results_shown, Page.has_image. rewrite Hflag, Hload, Hurl.
    cbn [negb andb]. apply andb_true_r.
  - intros n. change w' with (Page.exec (upload (2 + 0)%nat) w).
    now rewrite (Hw' n), (Hw' 0%nat).
Qed.

(** The front camera plays and a file is picked: the camera is closed
    while the request is awaited, and the results card is rendered at the
    end. *)
Lemma X27_upload_witness :
  Page.isCameraActive (Page.ui Samples.camera_world) = true
  /\ Page.imageURL (Page.ui Samples.camera_world)
     <> Some (Page.createObjectURL (MoreSamples.phone MoreSamples.both_cameras)
                                   Samples.weld_jpg)
  /\ Page.results_shown
       (Page.ui (Page.exec
          (Page.handleFileUpload_during
             (MoreSamples.phone MoreSamples.both_cameras)
             (Page.ui Samples.camera_world)
             (Lifecycle.commits 2 (Page.ui Samples.camera_world))
             (Some Samples.weld_jpg))
          Samples.camera_world))
     = true.
Proof.
  assert (Hnew : Page.imageURL (Page.ui Samples.camera_world)
                 <> Some (Page.createObjectURL (MoreSamples.phone MoreSamples.both_cameras)
                                               Samples.weld_jpg))
    by discriminate.
  split; [reflexivity|]. split; [exact Hnew|].
  pose proof (X27_upload_while_camera_open
                (MoreSamples.phone MoreSamples.both_cameras)
                Samples.weld_jpg Samples.camera_world eq_refl Hnew) as H.
  cbv zeta in H. destruct H as (_ & _ & _ & _ & _ & _ & _ & _ & H & _). exact H.
Defined.
